(** * run-plan: the plan state engine

    A shallow embedding of the training-plan engine of the repository:
    - [src/lib/utils.ts]            (unit conversion),
    - [src/components/TrainingTable.tsx] (weekly totals and the mutation
      handlers of the calendar),
    - [src/lib/planSchema.ts]       (the versioned schema wrapper),
    - [src/lib/useTrainingSession.ts] (the session coordinator).

    Modelling conventions.
    - A JavaScript [number] is an IEEE 754 binary64 value, the primitive
      [float] of Rocq; [+], [*] and [/] are the correctly rounded
      operations of the processor, as in the JavaScript engine, and
      [NaN], the infinities and the two zeros are values like the others.
    - [undefined] and [null] are [None]; an array of runs that may hold
      holes is a [list (option Run)].
    - The [days] object of a week is a heap object.  [{ ...week }] copies
      the reference, so the copy and the original share one [days] object;
      the handlers write into it in place.  The heap is a [gmap] from
      locations to [Days] objects, threaded through a state monad.
    - Array indices are [nat] (the handlers receive array positions). *)

From Stdlib Require Import ZArith QArith Qabs Lia Floats.
From stdpp Require Import base option list gmap strings pretty.

Set Default Proof Using "Type".
Local Open Scope Z_scope.

(** ** Numbers *)

(** The JavaScript [number] type. *)
Abbreviation number := float.

(** [Math.round]: the nearest integer, ties towards +infinity.  [NaN],
    the infinities, the zeros and every double that is an integer already
    (exponent not below 0) are returned as they are; otherwise the double
    is [m * 2^e] with [e < 0], below [2^53] in size, and the result is
    [floor (m * 2^e + 1/2)], computed on integers.  A result 0 keeps the
    sign of the argument ([Math.round(-0.2)] is [-0]). *)
Definition Math_round (x : number) : number :=
  match Prim2SF x with
  | S754_finite sgn m e =>
      if (0 <=? e)%Z then x
      else
        let n := if sgn then Z.neg m else Z.pos m in
        let q := ((2 * n + 2 ^ (- e)) / 2 ^ (- e + 1))%Z in
        if (q =? 0)%Z then (if sgn then (-0)%float else 0%float)
        else if (0 <? q)%Z then of_uint63 (Uint63.of_Z q)
        else (- of_uint63 (Uint63.of_Z (- q)))%float
  | _ => x
  end.

(** JavaScript truthiness of an optional number: [undefined], [0], [-0]
    and [NaN] are falsy. *)
Definition truthy_number (x : option number) : bool :=
  match x with
  | None => false
  | Some d => negb (d =? 0)%float && negb (is_nan d)
  end.

(** ** src/lib/utils.ts *)

#[local] Set Warnings "-inexact-float".

Definition kmToMiles (km : number) : number := (km * 0.621371)%float.

Definition milesToKm (miles : number) : number := (miles / 0.621371)%float.

(** ** The document model (types of [planGenerator.ts], as the handlers
       use them) *)

Inductive Day : Type := Mon | Tue | Wed | Thu | Fri | Sat | Sun.

Inductive RunType : Type :=
  Rest | Easy | Long | Interval | Tempo | Race | Strength.

Inductive MeasurementType : Type := MDistance | MTime.

Inductive Unit_ : Type := Km | Miles.

#[global] Instance Day_eq_dec : EqDecision Day.
Proof. solve_decision. Defined.

#[global] Instance RunType_eq_dec : EqDecision RunType.
Proof. solve_decision. Defined.

#[global] Instance MeasurementType_eq_dec : EqDecision MeasurementType.
Proof. solve_decision. Defined.

Record Run : Type := mkRun {
  run_id : option string;
  type : RunType;
  measurementType : option MeasurementType;
  distance : option number;
  time : option number;
  nickname : option string;
  description : option string
}.

(** A day bucket: [Run[]], possibly with [null]/[undefined] holes. *)
Abbreviation Bucket := (list (option Run)).

(** [Record<Day, Run[]>]: all seven keys present. *)
Record Days : Type := mkDays {
  dMon : Bucket; dTue : Bucket; dWed : Bucket; dThu : Bucket;
  dFri : Bucket; dSat : Bucket; dSun : Bucket
}.

Definition emptyDays : Days := mkDays [] [] [] [] [] [] [].

#[global] Instance Days_inhabited : Inhabited Days := populate emptyDays.

(** [days[day]] *)
Definition getDay (d : Days) (day : Day) : Bucket :=
  match day with
  | Mon => dMon d | Tue => dTue d | Wed => dWed d | Thu => dThu d
  | Fri => dFri d | Sat => dSat d | Sun => dSun d
  end.

(** [days[day] = runs] *)
Definition setDay (d : Days) (day : Day) (runs : Bucket) : Days :=
  match day with
  | Mon => mkDays runs (dTue d) (dWed d) (dThu d) (dFri d) (dSat d) (dSun d)
  | Tue => mkDays (dMon d) runs (dWed d) (dThu d) (dFri d) (dSat d) (dSun d)
  | Wed => mkDays (dMon d) (dTue d) runs (dThu d) (dFri d) (dSat d) (dSun d)
  | Thu => mkDays (dMon d) (dTue d) (dWed d) runs (dFri d) (dSat d) (dSun d)
  | Fri => mkDays (dMon d) (dTue d) (dWed d) (dThu d) runs (dSat d) (dSun d)
  | Sat => mkDays (dMon d) (dTue d) (dWed d) (dThu d) (dFri d) runs (dSun d)
  | Sun => mkDays (dMon d) (dTue d) (dWed d) (dThu d) (dFri d) (dSat d) runs
  end.

(** [const days: Day[] = ["Mon", ..., "Sun"]] *)
Definition days_ : list Day := [Mon; Tue; Wed; Thu; Fri; Sat; Sun].

(** [Object.values(week.days)] *)
Definition Object_values (d : Days) : list Bucket :=
  [dMon d; dTue d; dWed d; dThu d; dFri d; dSat d; dSun d].

(** A week.  The parameter [D] is what the [days] field holds: a heap
    location for the objects the handlers mutate, a [Days] value for a
    freshly built tree. *)
Record Week (D : Type) : Type := mkWeek {
  week : Z;
  startDate : string;
  days : D;
  weeklyTotal : number
}.
Arguments mkWeek {D} _ _ _ _.
Arguments week {D} _.
Arguments startDate {D} _.
Arguments days {D} _.
Arguments weeklyTotal {D} _.

(** ** recalculateWeeklyTotal (TrainingTable.tsx) *)

(** [dayRuns.filter(Boolean)] *)
Definition filter_Boolean (dayRuns : Bucket) : list Run := omap (λ r, r) dayRuns.

(** The inner [reduce] over the runs of one day:
    [dayTotal + (typeof run.distance === "number" ? run.distance : 0)]. *)
Definition dayReduce (safeRuns : list Run) : number :=
  fold_left
    (λ dayTotal run,
       (dayTotal + match distance run with Some d => d | None => 0 end)%float)
    safeRuns 0%float.

(** The outer [reduce] over [Object.values(week.days)].  Every value of a
    [Record<Day, Run[]>] is an array, so the [!Array.isArray(dayRuns)]
    guard never fires. *)
Definition weekReduce (d : Days) : number :=
  fold_left
    (λ total dayRuns, (total + dayReduce (filter_Boolean dayRuns))%float)
    (Object_values d) 0%float.

(** [{ ...week, weeklyTotal: total }], reading the buckets through [read]. *)
Definition recalculateWeeklyTotalWith {D} (read : D → Days) (w : Week D) : Week D :=
  let total := Math_round (weekReduce (read (days w))) in
  mkWeek (week w) (startDate w) (days w) total.


(** ** The heap of [days] objects and the handler monad *)

Abbreviation loc := nat.

(** A call of [recalculateWeeklyTotal], with the total it computed.  The
    trace is ghost state: it records how often the helper runs. *)
Inductive event : Type := Recalculated (total : number).

Record state : Type := mkState {
  heap : gmap loc Days;
  trace : list event
}.

(** The result of running JavaScript code: a value, or a thrown error. *)
Inductive outcome (A : Type) : Type :=
  | Ok (a : A)
  | Throw (e : string).
Arguments Ok {A} _.
Arguments Throw {A} _.

Definition M (A : Type) : Type := state → outcome A * state.

#[global] Instance M_ret : MRet M := λ A a s, (Ok a, s).

#[global] Instance M_bind : MBind M := λ A B f m s,
  match m s with
  | (Ok a, s') => f a s'
  | (Throw e, s') => (Throw e, s')
  end.

#[global] Instance M_fmap : FMap M := λ A B f m, a ← m; mret (f a).

Definition throw {A} (e : string) : M A := λ s, (Throw e, s).

(** [week.days[day]] read through the reference. *)
Definition readDay (l : loc) (day : Day) : M Bucket :=
  λ s, (Ok (getDay (heap s !!! l) day), s).

(** [week.days[day] = runs]: an in-place write into the shared object. *)
Definition writeDay (l : loc) (day : Day) (runs : Bucket) : M unit :=
  λ s, (Ok tt, mkState (<[l := setDay (heap s !!! l) day runs]> (heap s)) (trace s)).

(** [recalculateWeeklyTotal(week)]: reads the buckets the week refers to. *)
Definition recalculateWeeklyTotal (w : Week loc) : M (Week loc) :=
  λ s,
    let w' := recalculateWeeklyTotalWith (λ l, heap s !!! l) w in
    (Ok w', mkState (heap s) (trace s ++ [Recalculated (weeklyTotal w')])).

(** [array.map((x, index) => ...)] with an effectful callback, left to
    right. *)
Fixpoint mapM_from {A B} (f : A → nat → M B) (i : nat) (l : list A) : M (list B) :=
  match l with
  | [] => mret []
  | a :: l' =>
      b ← f a i;
      bs ← mapM_from f (S i) l';
      mret (b :: bs)
  end.

Definition Array_map {A B} (f : A → nat → M B) (l : list A) : M (list B) :=
  mapM_from f 0%nat l.

(** [runs.splice(i, 1)]: the array without position [i] (unchanged when
    [i] is out of range) and the removed element ([undefined] if none). *)
Definition splice_remove (i : nat) (runs : Bucket) : Bucket := delete i runs.

Definition splice_removed (i : nat) (runs : Bucket) : option Run :=
  mjoin (runs !! i).

(** [runs.splice(i, 0, x)]: insertion before position [i], at the end when
    [i] is past the end. *)
Definition splice_insert (i : nat) (x : option Run) (runs : Bucket) : Bucket :=
  take i runs ++ x :: drop i runs.

(** The view of a week: its fields with the [days] object read from the
    heap. *)
Definition view (h : gmap loc Days) (w : Week loc) : Week Days :=
  mkWeek (week w) (startDate w) (h !!! days w) (weeklyTotal w).

(** ** The mutation handlers of TrainingTable.tsx

    Each handler maps over the [weeks] state and returns [updatedWeeks]
    (which the component then stores with [setWeeks] and hands to
    [onUpdatePlan]). *)

Record Updates : Type := mkUpdates {
  u_measurementType : option MeasurementType;
  u_distance : option number;
  u_time : option number;
  u_description : option string
}.

(** The body of [if (runs[runIndex]) { ... }] up to the assignment
    [runs[runIndex] = updatedRun]. *)
Definition applyUpdates (updates : Updates) (run : Run) : Run :=
  let updatedRun := run in
  (* Handle measurement type change - clear the opposite field *)
  let updatedRun :=
    match u_measurementType updates with
    | Some MDistance =>
        mkRun (run_id updatedRun) (type updatedRun) (Some MDistance)
              (distance updatedRun) None
              (nickname updatedRun) (description updatedRun)
    | Some MTime =>
        mkRun (run_id updatedRun) (type updatedRun) (Some MTime)
              None (time updatedRun)
              (nickname updatedRun) (description updatedRun)
    | None => updatedRun
    end in
  (* Update distance or time *)
  let updatedRun :=
    match u_distance updates with
    | Some d =>
        mkRun (run_id updatedRun) (type updatedRun) (measurementType updatedRun)
              (Some d) (time updatedRun)
              (nickname updatedRun) (description updatedRun)
    | None => updatedRun
    end in
  let updatedRun :=
    match u_time updates with
    | Some t =>
        mkRun (run_id updatedRun) (type updatedRun) (measurementType updatedRun)
              (distance updatedRun) (Some t)
              (nickname updatedRun) (description updatedRun)
    | None => updatedRun
    end in
  (* Update description *)
  match u_description updates with
  | Some txt =>
      mkRun (run_id updatedRun) (type updatedRun) (measurementType updatedRun)
            (distance updatedRun) (time updatedRun)
            (nickname updatedRun) (Some txt)
  | None => updatedRun
  end.

Definition handleUpdateRun (weeks : list (Week loc))
    (weekIndex : nat) (day : Day) (runIndex : nat) (updates : Updates)
  : M (list (Week loc)) :=
  Array_map (λ week index,
    if decide (index = weekIndex) then
      let updatedWeek := week in
      runs ← readDay (days updatedWeek) day;
      match mjoin (runs !! runIndex) with
      | Some run =>
          let updatedRun := applyUpdates updates run in
          let runs := <[runIndex := Some updatedRun]> runs in
          _ ← writeDay (days updatedWeek) day runs;
          recalculateWeeklyTotal updatedWeek
      | None => mret updatedWeek
      end
    else mret week) weeks.

(** [nickname || undefined]: the empty string is stored as absent. *)
Definition nickname_or_undefined (nick : string) : option string :=
  if decide (nick = EmptyString) then None else Some nick.

Definition handleUpdateNickname (weeks : list (Week loc))
    (weekIndex : nat) (day : Day) (runIndex : nat) (nick : string)
  : M (list (Week loc)) :=
  Array_map (λ week index,
    if decide (index = weekIndex) then
      let updatedWeek := week in
      runs ← readDay (days updatedWeek) day;
      match mjoin (runs !! runIndex) with
      | Some run =>
          let run' :=
            mkRun (run_id run) (type run) (measurementType run)
                  (distance run) (time run)
                  (nickname_or_undefined nick) (description run) in
          _ ← writeDay (days updatedWeek) day (<[runIndex := Some run']> runs);
          mret updatedWeek
      | None => mret updatedWeek
      end
    else mret week) weeks.

Record Workout : Type := mkWorkout {
  w_type : RunType;
  w_nickname : option string;
  w_measurementType : option MeasurementType;
  w_distance : option number;
  w_time : option number;
  w_description : option string
}.

(** The run that [handleAddRun] pushes; [newId] stands for the id string
    built from [Math.random()]. *)
Definition newRun (newId : string) (workout : Workout) : Run :=
  let measurementType_ := default MDistance (w_measurementType workout) in
  let defaultDistance :=
    if decide (w_type workout = Strength) then 0%float
    else if truthy_number (w_distance workout)
         then default 5%float (w_distance workout) else 5%float in
  let defaultTime :=
    if truthy_number (w_time workout) then w_time workout
    else if decide (measurementType_ = MTime) then Some 30%float else None in
  mkRun (Some newId) (w_type workout) (Some measurementType_)
        (if decide (measurementType_ = MDistance) then Some defaultDistance else None)
        (if decide (measurementType_ = MTime) then defaultTime else None)
        (w_nickname workout) (w_description workout).

Definition handleAddRun (weeks : list (Week loc))
    (weekIndex : nat) (day : Day) (newId : string) (workout : Workout)
  : M (list (Week loc)) :=
  Array_map (λ week index,
    if decide (index = weekIndex) then
      let updatedWeek := week in
      runs ← readDay (days updatedWeek) day;
      let runs := runs ++ [Some (newRun newId workout)] in
      _ ← writeDay (days updatedWeek) day runs;
      recalculateWeeklyTotal updatedWeek
    else mret week) weeks.

Definition handleRemoveRun (weeks : list (Week loc))
    (weekIndex : nat) (day : Day) (runIndex : nat)
  : M (list (Week loc)) :=
  Array_map (λ week index,
    if decide (index = weekIndex) then
      let updatedWeek := week in
      runs ← readDay (days updatedWeek) day;
      let runs := splice_remove runIndex runs in
      _ ← writeDay (days updatedWeek) day runs;
      recalculateWeeklyTotal updatedWeek
    else mret week) weeks.

(** The "reorder within the same day" block of [handleDragEnd]. *)
Definition reorderWithinDay (weeks : list (Week loc))
    (activeWeekIndex : nat) (activeDay : Day) (activeRunIndex overRunIndex : nat)
  : M (list (Week loc)) :=
  Array_map (λ week weekIndex,
    if decide (weekIndex = activeWeekIndex) then
      let updatedWeek := week in
      runs ← readDay (days updatedWeek) activeDay;
      let movedRun := splice_removed activeRunIndex runs in
      let runs := splice_remove activeRunIndex runs in
      let runs := splice_insert overRunIndex movedRun runs in
      _ ← writeDay (days updatedWeek) activeDay runs;
      mret updatedWeek
    else mret week) weeks.

(** [moveWorkout].  The destination branch of a cross-week move reads
    [weeks[fromWeekIndex].days[fromDay][fromRunIndex]] through the original
    week object, whose [days] object the source branch writes into. *)
Definition moveWorkout (weeks : list (Week loc))
    (fromWeekIndex : nat) (fromDay : Day) (fromRunIndex : nat)
    (toWeekIndex : nat) (toDay : Day) (toRunIndex : nat)
  : M (list (Week loc)) :=
  Array_map (λ week weekIndex,
    let updatedWeek := week in
    (* Remove from source *)
    if decide (weekIndex = fromWeekIndex) then
      fromRuns ← readDay (days updatedWeek) fromDay;
      let movedRun := splice_removed fromRunIndex fromRuns in
      let fromRuns := splice_remove fromRunIndex fromRuns in
      _ ← writeDay (days updatedWeek) fromDay fromRuns;
      (* Recalculate weekly total for source week *)
      sourceWeek ← recalculateWeeklyTotal updatedWeek;
      (* If moving within the same week, add to destination *)
      if decide (fromWeekIndex = toWeekIndex) then
        toRuns ← readDay (days sourceWeek) toDay;
        let toRuns := splice_insert toRunIndex movedRun toRuns in
        _ ← writeDay (days sourceWeek) toDay toRuns;
        (* Recalculate weekly total again *)
        recalculateWeeklyTotal sourceWeek
      else mret sourceWeek
    (* Add to destination (if different week) *)
    else if decide (weekIndex = toWeekIndex ∧ fromWeekIndex ≠ toWeekIndex) then
      match weeks !! fromWeekIndex with
      | None => throw "TypeError: Cannot read properties of undefined (reading 'days')"
      | Some sourceWeek =>
          sourceRuns ← readDay (days sourceWeek) fromDay;
          let movedRun := mjoin (sourceRuns !! fromRunIndex) in
          toRuns ← readDay (days updatedWeek) toDay;
          let toRuns := splice_insert toRunIndex movedRun toRuns in
          _ ← writeDay (days updatedWeek) toDay toRuns;
          (* Recalculate weekly total for destination week *)
          recalculateWeeklyTotal updatedWeek
      end
    else mret updatedWeek) weeks.

(** [handleDragEnd]: the drop target decides between the reorder block and
    [moveWorkout].  [None] stands for "no state update". *)
Record ActiveData : Type := mkActive {
  a_weekIndex : nat; a_day : Day; a_runIndex : nat
}.

Inductive OverData : Type :=
  | OverWorkout (weekIndex : nat) (day : Day) (runIndex : nat)
  | OverEmptyDay (weekIndex : nat) (day : Day)
  | OverDay (weekIndex : nat) (day : Day).

Definition handleDragEnd (weeks : list (Week loc))
    (active : ActiveData) (over : option OverData)
  : M (option (list (Week loc))) :=
  let activeWeekIndex := a_weekIndex active in
  let activeDay := a_day active in
  let activeRunIndex := a_runIndex active in
  match over with
  | None => mret None
  (* Handle dropping on another workout (reordering within a day) *)
  | Some (OverWorkout overWeekIndex overDay overRunIndex) =>
      if decide (activeWeekIndex = overWeekIndex ∧ activeDay = overDay
                 ∧ activeRunIndex ≠ overRunIndex) then
        Some <$> reorderWithinDay weeks activeWeekIndex activeDay
                   activeRunIndex overRunIndex
      else if decide (activeWeekIndex ≠ overWeekIndex ∨ activeDay ≠ overDay) then
        Some <$> moveWorkout weeks activeWeekIndex activeDay activeRunIndex
                   overWeekIndex overDay overRunIndex
      else mret None
  (* Handle dropping on an empty day *)
  | Some (OverEmptyDay overWeekIndex overDay) =>
      if decide (activeWeekIndex ≠ overWeekIndex ∨ activeDay ≠ overDay) then
        Some <$> moveWorkout weeks activeWeekIndex activeDay activeRunIndex
                   overWeekIndex overDay 0
      else mret None
  (* Handle dropping on a day container (with existing workouts) *)
  | Some (OverDay overWeekIndex overDay) =>
      if decide (activeWeekIndex ≠ overWeekIndex ∨ activeDay ≠ overDay) then
        targetIndex ←
          match weeks !! overWeekIndex with
          | Some w => length <$> readDay (days w) overDay
          | None => mret 0%nat
          end;
        Some <$> moveWorkout weeks activeWeekIndex activeDay activeRunIndex
                   overWeekIndex overDay targetIndex
      else mret None
  end.

(** ** handleUnitToggle (TrainingTable.tsx)

    The handler only reads the [weeks] state and builds fresh week and
    [days] objects, so it is a function on week values; applied to the
    component state it runs on the [view] of every week. *)

#[global] Instance outcome_ret : MRet outcome := λ A a, Ok a.

#[global] Instance outcome_bind : MBind outcome := λ A B f m,
  match m with
  | Ok a => f a
  | Throw e => Throw e
  end.

Definition otherUnit (currentUnit : Unit_) : Unit_ :=
  match currentUnit with Km => Miles | Miles => Km end.

Definition convertDistance (currentUnit newUnit : Unit_) (d : number) : number :=
  match currentUnit, newUnit with
  | Km, Miles => kmToMiles d
  | Miles, Km => milesToKm d
  | _, _ => d
  end.

(** [Math.round(convertedDistance * 10) / 10] *)
Definition round1 (x : number) : number := (Math_round (x * 10) / 10)%float.

(** The callback of [runs.map]; [newWeeklyTotal] is the accumulator that
    the callback adds to. *)
Definition convertRun (currentUnit newUnit : Unit_)
    (newWeeklyTotal : number) (run : Run) : Run * number :=
  match distance run with
  | Some d =>
      if truthy_number (Some d) then
        let convertedDistance := convertDistance currentUnit newUnit d in
        (mkRun (run_id run) (type run) (measurementType run)
               (Some (round1 convertedDistance)) (time run)
               (nickname run) (description run),
         (newWeeklyTotal + convertedDistance)%float)
      else (run, newWeeklyTotal)
  | None => (run, newWeeklyTotal)
  end.

(** [runs.map(...)] over one bucket; reading [run.distance] of a hole
    throws. *)
Fixpoint convertRuns (currentUnit newUnit : Unit_)
    (newWeeklyTotal : number) (runs : Bucket) : outcome (Bucket * number) :=
  match runs with
  | [] => Ok ([], newWeeklyTotal)
  | None :: _ =>
      Throw "TypeError: Cannot read properties of undefined (reading 'distance')"
  | Some run :: rest =>
      let '(run', total) := convertRun currentUnit newUnit newWeeklyTotal run in
      '(rest', total') ← convertRuns currentUnit newUnit total rest;
      mret (Some run' :: rest', total')
  end.

(** [Object.entries(week.days).forEach(...)], filling [convertedDays]. *)
Fixpoint convertDays (currentUnit newUnit : Unit_) (source : Days)
    (entries : list Day) (convertedDays : Days) (newWeeklyTotal : number)
  : outcome (Days * number) :=
  match entries with
  | [] => Ok (convertedDays, newWeeklyTotal)
  | day :: entries' =>
      '(runs', total) ←
        convertRuns currentUnit newUnit newWeeklyTotal (getDay source day);
      convertDays currentUnit newUnit source entries'
                  (setDay convertedDays day runs') total
  end.

Definition convertWeek (currentUnit newUnit : Unit_) (w : Week Days)
  : outcome (Week Days) :=
  '(convertedDays, newWeeklyTotal) ←
    convertDays currentUnit newUnit (days w) days_ emptyDays 0%float;
  mret (mkWeek (week w) (startDate w) convertedDays (Math_round newWeeklyTotal)).

(** The new unit and [convertedWeeks]. *)
Definition handleUnitToggle (currentUnit : Unit_) (weeks : list (Week Days))
  : outcome (Unit_ * list (Week Days)) :=
  let newUnit := otherUnit currentUnit in
  convertedWeeks ← mapM (convertWeek currentUnit newUnit) weeks;
  mret (newUnit, convertedWeeks).

(** ** planSchema.ts *)

Record TrainingPlan : Type := mkPlan { weeks : list (Week Days) }.

Inductive Source : Type := generated | imported | edited.

#[global] Instance Source_eq_dec : EqDecision Source.
Proof. solve_decision. Defined.

Record TrainingDaySetting : Type := mkTrainingDay {
  td_day : string;
  td_workouts : list (string * option string)   (* runType, nickname *)
}.

Record PlanSettings : Type := mkSettings {
  todayDate : string;
  raceDate : string;
  raceDistance : string;
  customRaceDistance : option number;
  unit_ : Unit_;
  trainingDays : list TrainingDaySetting
}.

Record TrainingPlanSchema : Type := mkSchema {
  version : string;
  createdAt : string;
  updatedAt : string;
  source : Source;
  settings : PlanSettings;
  plan : TrainingPlan
}.

Definition TRAINING_PLAN_SCHEMA_VERSION : string := "1.0.0".

(** [runs.filter((run) => run !== null && run !== undefined)], kept as an
    array of runs. *)
Definition dropHoles (runs : Bucket) : Bucket :=
  filter (λ run, is_Some run) runs.

Definition cleanDays (d : Days) : Days :=
  mkDays (dropHoles (dMon d)) (dropHoles (dTue d)) (dropHoles (dWed d))
         (dropHoles (dThu d)) (dropHoles (dFri d)) (dropHoles (dSat d))
         (dropHoles (dSun d)).

Definition cleanPlanData (p : TrainingPlan) : TrainingPlan :=
  mkPlan (map (λ w, mkWeek (week w) (startDate w) (cleanDays (days w))
                          (weeklyTotal w)) (weeks p)).

(** [now] stands for [new Date().toISOString()]. *)
Definition createSchemaFromPlan (now : string) (settings_ : PlanSettings)
    (plan_ : TrainingPlan) (source_ : option Source) : TrainingPlanSchema :=
  let cleanedPlan := cleanPlanData plan_ in
  mkSchema TRAINING_PLAN_SCHEMA_VERSION now now (default generated source_)
           settings_ cleanedPlan.

Definition updateSchemaAfterEdit (now : string) (schema : TrainingPlanSchema)
    (plan_ : TrainingPlan) : TrainingPlanSchema :=
  let cleanedPlan := cleanPlanData plan_ in
  mkSchema (version schema) (createdAt schema) now
           (if decide (source schema = generated) then edited else source schema)
           (settings schema) cleanedPlan.

(** ** useTrainingSession.ts: importPlanSchema

    The payload is parsed JSON cast to [TrainingPlanSchema]; the function
    itself checks the places modelled by a sum type below.  The session
    slots are the three persisted values and the step; every [set...]
    call takes effect even when the function throws afterwards. *)

Inductive TrainingStep : Type := configure | edit | export.

Record RawRun : Type := mkRawRun {
  rr_type : string;
  rr_distance : option number;
  rr_time : option number
}.

(** The value stored under a day key. *)
Inductive RawBucket : Type :=
  | BucketFalsy                              (* undefined, null, ... *)
  | BucketNotArray                           (* a truthy non-array *)
  | BucketArray (runs : list (option RawRun)).

Record RawWeek : Type := mkRawWeek {
  rw_week : Z;
  rw_days : option (list (string * RawBucket));   (* [week.days], keys in order *)
  rw_weeklyTotal : number
}.

(** [incoming.plan.weeks]; an entry of the array is a week object or
    [null]. *)
Inductive RawWeeks : Type :=
  | WeeksMissing                             (* falsy *)
  | WeeksNotArray                            (* a truthy non-array *)
  | WeeksArray (ws : list (option RawWeek)).

Record RawPlan : Type := mkRawPlan { rp_weeks : RawWeeks }.

Record RawWorkoutSetting : Type := mkRawWorkoutSetting {
  rws_runType : option string;
  rws_nickname : option string
}.

Inductive RawWorkouts : Type :=
  | WorkoutsNotArray
  | WorkoutsArray (ws : list (option RawWorkoutSetting)).

Record RawTrainingDay : Type := mkRawTrainingDay {
  rtd_day : option string;
  rtd_workouts : RawWorkouts
}.

Inductive RawTrainingDays : Type :=
  | TrainingDaysNotArray
  | TrainingDaysArray (ds : list (option RawTrainingDay)).

Record RawSettings : Type := mkRawSettings {
  rs_todayDate : option string;
  rs_raceDate : option string;
  rs_raceDistance : option string;
  rs_customRaceDistance : option number;
  rs_unit : option string;
  rs_trainingDays : RawTrainingDays
}.

Record RawSchema : Type := mkRawSchema {
  r_version : option string;
  r_source : option string;
  r_settings : option RawSettings;
  r_plan : option RawPlan
}.

Record FormTrainingDay : Type := mkFormTrainingDay {
  f_day : string;
  f_workouts : list (string * option string)   (* runType, nickname *)
}.

Record FormValues : Type := mkFormValues {
  fv_todayDate : string;
  fv_raceDate : string;
  fv_raceDistance : string;
  fv_customRaceDistance : option number;
  fv_unit : string;
  fv_trainingDays : list FormTrainingDay
}.

Record Session : Type := mkSession {
  s_formValues : option FormValues;
  s_plan : option RawPlan;
  s_schema : option RawSchema;
  s_step : TrainingStep
}.

Definition validDays : list string :=
  ["Mon"; "Tue"; "Wed"; "Thu"; "Fri"; "Sat"; "Sun"].

Definition validRunTypes : list string :=
  ["Rest"; "Easy"; "Long"; "Interval"; "Tempo"; "Race"; "Strength"].

(** [array.join(sep)] *)
Definition join (sep : string) (l : list string) : string := String.concat sep l.

(** [array.includes(x)] on strings. *)
Definition includes (l : list string) (x : string) : bool := bool_decide (x ∈ l).

(** [dayKeys.filter((key) => !validDays.includes(key))] *)
Definition invalidDayKeys (dayKeys : list string) : list string :=
  filter (λ key, ¬ includes validDays key) dayKeys.

Definition dayKeyError (week_ : Z) (invalid : list string) : string :=
  "Week " +:+ pretty week_ +:+ ": Invalid day key(s): " +:+ join ", " invalid
  +:+ ". Expected one of: " +:+ join ", " validDays.

(** The double-quote character of the run-type message. *)
Definition dquote : string := String (Ascii.ascii_of_nat 34) EmptyString.

Definition runTypeError (week_ : Z) (dayKey : string) (runIndex : nat)
    (ty : string) : string :=
  "Week " +:+ pretty week_ +:+ ", " +:+ dayKey +:+ ", run "
  +:+ pretty (runIndex + 1)%nat +:+ ": Invalid run type " +:+ dquote +:+ ty
  +:+ dquote +:+ ". Expected one of: " +:+ join ", " validRunTypes.

Definition notArrayError (week_ : Z) (dayKey : string) : string :=
  "Week " +:+ pretty week_ +:+ ", " +:+ dayKey +:+ ": runs must be an array".

(** [week.days[dayKey]] on the key/value entries of the object. *)
Fixpoint lookupKey (entries : list (string * RawBucket)) (key : string)
  : option RawBucket :=
  match entries with
  | [] => None
  | (k, v) :: rest => if decide (k = key) then Some v else lookupKey rest key
  end.

(** The [runs.forEach] of one day key: one message per run of invalid
    type; holes are skipped. *)
Definition runErrors (week_ : Z) (dayKey : string)
    (runs : list (option RawRun)) : list string :=
  mjoin (imap (λ runIndex run,
    match run with
    | Some r =>
        if includes validRunTypes (rr_type r) then []
        else [runTypeError week_ dayKey runIndex (rr_type r)]
    | None => []
    end) runs).

(** The body of [dayKeys.forEach]. *)
Definition dayErrors (w : RawWeek) (entries : list (string * RawBucket))
    (dayKey : string) : list string :=
  match lookupKey entries dayKey with
  | None | Some BucketFalsy => []            (* [|| []] *)
  | Some BucketNotArray => [notArrayError (rw_week w) dayKey]
  | Some (BucketArray runs) => runErrors (rw_week w) dayKey runs
  end.

(** The messages one week pushes onto [validationErrors]. *)
Definition weekErrors (w : RawWeek) : list string :=
  let entries := default [] (rw_days w) in
  let dayKeys := entries.*1 in
  let invalid := invalidDayKeys dayKeys in
  (if decide (0 < length invalid)%nat
   then [dayKeyError (rw_week w) invalid] else [])
  ++ mjoin (map (dayErrors w entries) dayKeys).

(** The message of the TypeError that reading [week.days] of a [null]
    entry raises. *)
Definition nullWeekError : string :=
  "Cannot read properties of null (reading 'days')".

(** [validationErrors] after [incoming.plan.weeks.forEach]: the messages of
    the weeks in order; the callback throws at a [null] entry, which ends
    the import whatever was collected before. *)
Fixpoint validationErrors (ws : list (option RawWeek)) : outcome (list string) :=
  match ws with
  | [] => Ok []
  | None :: _ => Throw nullWeekError
  | Some week_ :: rest =>
      match validationErrors rest with
      | Ok errs => Ok (weekErrors week_ ++ errs)
      | Throw e => Throw e
      end
  end.

(** The [if (incoming?.plan) { ... }] block. *)
Definition validatePlan (p : RawPlan) : outcome unit :=
  match rp_weeks p with
  | WeeksMissing => Throw "Invalid plan structure: weeks array is missing"
  | WeeksNotArray => Throw "Invalid plan structure: weeks must be an array"
  | WeeksArray ws =>
      match validationErrors ws with
      | Throw e => Throw e
      | Ok errs =>
          if decide (0 < length errs)%nat
          then Throw ("Invalid plan structure: " +:+ join "; " errs)
          else Ok tt
      end
  end.

(** [x || fallback] on an optional string. *)
Definition or_string (x : option string) (fallback : string) : string :=
  match x with
  | Some s => if decide (s = EmptyString) then fallback else s
  | None => fallback
  end.

Definition formWorkout (w : option RawWorkoutSetting) : string * option string :=
  match w with
  | Some w => (or_string (rws_runType w) "Easy", rws_nickname w)
  | None => ("Easy", None)
  end.

(** The callback of [trainingDaysArray.map]. *)
Definition formTrainingDay (d : option RawTrainingDay) : outcome FormTrainingDay :=
  match d with
  | None => Throw "Invalid training day: day is undefined"
  | Some d =>
      match rtd_workouts d with
      | WorkoutsNotArray => Throw "Invalid training day: workouts must be an array"
      | WorkoutsArray ws =>
          Ok (mkFormTrainingDay (or_string (rtd_day d) EmptyString)
                                (map formWorkout ws))
      end
  end.

Definition nextFormValues (st : RawSettings) (ds : list (option RawTrainingDay))
  : outcome FormValues :=
  tds ← mapM formTrainingDay ds;
  mret (mkFormValues (or_string (rs_todayDate st) EmptyString)
                     (or_string (rs_raceDate st) EmptyString)
                     (or_string (rs_raceDistance st) EmptyString)
                     (rs_customRaceDistance st)
                     (or_string (rs_unit st) "km")
                     tds).

(** What one call leaves behind: the session slots, the lines written with
    [console.error], and whether the call returned or threw. *)
Record ImportResult : Type := mkImportResult {
  after : Session;
  console : list string;
  result : outcome unit
}.

Definition setSchema (x : option RawSchema) (s : Session) : Session :=
  mkSession (s_formValues s) (s_plan s) x (s_step s).

Definition setFormValues (x : option FormValues) (s : Session) : Session :=
  mkSession x (s_plan s) (s_schema s) (s_step s).

Definition setPlan (x : option RawPlan) (s : Session) : Session :=
  mkSession (s_formValues s) x (s_schema s) (s_step s).

Definition setStep (x : TrainingStep) (s : Session) : Session :=
  mkSession (s_formValues s) (s_plan s) (s_schema s) x.

Definition weeksNonEmpty (p : RawPlan) : bool :=
  match rp_weeks p with
  | WeeksArray (_ :: _) => true
  | _ => false
  end.

Definition importPlanSchema (s : Session) (incoming : RawSchema) : ImportResult :=
  (* Validate plan structure if present *)
  match
    match r_plan incoming with
    | Some p => validatePlan p
    | None => Ok tt
    end
  with
  | Throw e => mkImportResult s [] (Throw e)
  | Ok _ =>
      let s := setSchema (Some incoming) s in
      match r_settings incoming with
      | None => mkImportResult s ["Invalid schema: missing settings"] (Ok tt)
      | Some incomingSettings =>
          match rs_trainingDays incomingSettings with
          | TrainingDaysNotArray =>
              mkImportResult s []
                (Throw "Invalid settings: trainingDays must be an array")
          | TrainingDaysArray trainingDaysArray =>
              match nextFormValues incomingSettings trainingDaysArray with
              | Throw e => mkImportResult s [] (Throw e)
              | Ok fv =>
                  let s := setFormValues (Some fv) s in
                  match r_plan incoming with
                  | Some p =>
                      let s := setPlan (Some p) s in
                      let s := if weeksNonEmpty p then setStep edit s else s in
                      mkImportResult s [] (Ok tt)
                  | None =>
                      mkImportResult (setPlan None s)
                        ["Invalid schema: missing plan"] (Ok tt)
                  end
              end
          end
      end
  end.

(** ** InputForm.tsx: handleImportJSON

    The file import parses the text, asks [validateSchema] and only then
    calls [importPlanSchema]; what [importPlanSchema] throws lands in
    [importError].  [validateSchema] runs the zod schema of planSchema.ts;
    zod is a library outside the repository, so the validator is a
    parameter: it returns [valid] and the optional [error]. *)

Record ImportForm : Type := mkImportForm {
  importError : option string;
  importSuccess : bool
}.

Section file_import.
Variable validateSchema : RawSchema → bool * option string.

(** [parsed] is the outcome of [JSON.parse(text)]. *)
Definition handleImportJSON (s : Session) (parsed : outcome RawSchema)
  : Session * ImportForm :=
  match parsed with
  | Throw e => (s, mkImportForm (Some e) false)
  | Ok parsed =>
      let validationResult := validateSchema parsed in
      if validationResult.1 then
        let r := importPlanSchema s parsed in
        match result r with
        | Ok _ => (after r, mkImportForm None true)
        | Throw e => (after r, mkImportForm (Some e) false)
        end
      else
        (s, mkImportForm
              (Some (or_string validationResult.2 "Invalid plan schema format."))
              false)
  end.
End file_import.

(** ** Vocabulary of the properties, and example data *)

(** A sum of doubles taken from 0, left to right. *)
Definition sumFrom0 (l : list number) : number :=
  fold_left (λ total x, (total + x)%float) l 0%float.

(** The [distance] fields of the runs of a bucket, in order, holes left
    out: [Some d] for a number, [None] for an absent distance. *)
Definition distanceFields (runs : Bucket) : list (option number) :=
  distance <$> filter_Boolean runs.

(** The sum [recalculateWeeklyTotal] takes, as a function of the distance
    fields alone: each day's subtotal is taken from 0, left to right, an
    absent distance adding 0; the subtotals are added from 0 in the order
    of the days. *)
Definition daySum (fields : list (option number)) : number :=
  sumFrom0 (default 0%float <$> fields).

Definition weekSum (d : Days) : number :=
  sumFrom0 ((λ runs, daySum (distanceFields runs)) <$> Object_values d).

(** The numeric [distance] fields of a bucket, holes and runs without a
    distance left out; the measurement type plays no part. *)
Definition bucketDistances (runs : Bucket) : list number :=
  omap (λ run, run ≫= distance) runs.

(** All numeric [distance] fields of a week, day by day. *)
Definition weekDistances (d : Days) : list number :=
  mjoin (map bucketDistances (Object_values d)).




(** The invariant the recomputing handlers keep: the stored total is the
    total that [recalculateWeeklyTotal] computes from the buckets the
    week's [days] object holds. *)
Definition totalOk (h : gmap loc Days) (w : Week loc) : Prop :=
  weeklyTotal w = Math_round (weekReduce (h !!! days w)).


(** What [convertRun] makes of a run; the accumulator plays no part. *)
Definition convert1 (currentUnit newUnit : Unit_) (run : Run) : Run :=
  (convertRun currentUnit newUnit 0%float run).1.

(** The unrounded converted distances that [convertRuns] adds to
    [newWeeklyTotal]: one for each run with a non-zero distance. *)
Definition convertedDistances (currentUnit newUnit : Unit_) (runs : Bucket)
  : list number :=
  omap (λ d, if truthy_number (Some d)
             then Some (convertDistance currentUnit newUnit d) else None)
       (bucketDistances runs).

Definition weekConverted (currentUnit newUnit : Unit_) (d : Days) : list number :=
  mjoin (map (convertedDistances currentUnit newUnit) (Object_values d)).

Definition mapDays (f : Bucket → Bucket) (d : Days) : Days :=
  mkDays (f (dMon d)) (f (dTue d)) (f (dWed d)) (f (dThu d))
         (f (dFri d)) (f (dSat d)) (f (dSun d)).

(** A [days] object whose buckets hold runs only. *)
Definition holeFree (d : Days) : Prop :=
  Forall (Forall is_Some) (Object_values d).

Definition convertedBucket (currentUnit newUnit : Unit_) (runs : Bucket) : Bucket :=
  (λ run : option Run, convert1 currentUnit newUnit <$> run) <$> runs.

(** The converted week, as an equation. *)
Definition convertedWeek (currentUnit newUnit : Unit_) (w : Week Days) : Week Days :=
  mkWeek (week w) (startDate w)
         (mapDays (convertedBucket currentUnit newUnit) (days w))
         (Math_round (sumFrom0 (weekConverted currentUnit newUnit (days w)))).

(** One distance taken from km to miles and back, as [convertRun] does it:
    a zero distance is left alone at each step. *)
Definition there (d : number) : number :=
  if truthy_number (Some d) then round1 (kmToMiles d) else d.

Definition back (m : number) : number :=
  if truthy_number (Some m) then round1 (milesToKm m) else m.

(** [convertUnits(P, km, miles)] followed by [convertUnits(_, miles, km)]:
    two presses of the unit toggle, starting from km. *)
Definition roundTrip (ws : list (Week Days)) : outcome (list (Week Days)) :=
  r1 ← handleUnitToggle Km ws;
  r2 ← handleUnitToggle r1.1 r1.2;
  mret r2.2.

(** The exact value of a finite double, as a rational; 0 for the zeros
    (and, as a convention, for [NaN] and the infinities). *)
Definition exact (x : number) : Q :=
  match Prim2SF x with
  | S754_finite sgn m e =>
      (inject_Z (if sgn then Z.neg m else Z.pos m) * Qpower 2 e)%Q
  | _ => 0%Q
  end.

(** The double nearest to [k / 10]: a distance given to one decimal. *)
Definition tenth (k : Z) : number :=
  (of_uint63 (Uint63.of_Z k) / 10)%float.

(** The distances 0.0, 0.1, ..., 1000.0 are the tenths [0 .. gridMax]. *)
Definition gridMax : Z := 10000.

(** [d2] is the tenth [k / 10], or one of its two neighbours. *)
Definition nearTenth (k : Z) (d2 : number) : bool :=
  ((d2 =? tenth (Z.max 0 (k - 1))) || (d2 =? tenth k)
   || (d2 =? tenth (k + 1)))%float.

(** The tolerance that holds on the grid: 0.1 and the rounding of the
    doubles involved. *)
Definition gridTolerance : Q := ((1 # 10) + (1 # 1000000000000))%Q.

(** What the round trip makes of the distance [k / 10]: a neighbouring
    tenth, within the tolerance as exact values. *)
Definition gridCheck (k : Z) : bool :=
  let d2 := back (there (tenth k)) in
  nearTenth k d2 && Qle_bool (Qabs (exact d2 - exact (tenth k))) gridTolerance.

(** Every workout is still at its place after the round trip; one with a
    distance [d] has the distance [back (there d)], and when [d] is a
    tenth of the grid that is a neighbouring tenth. *)
Definition roundTripOnGrid (ws : list (Week Days)) : Prop :=
  ∃ ws2, roundTrip ws = Ok ws2
    ∧ ∀ (i : nat) (w : Week Days) (day : Day) (j : nat) (run : Run),
        ws !! i = Some w → getDay (days w) day !! j = Some (Some run) →
        ∃ w2 run2,
          ws2 !! i = Some w2
          ∧ getDay (days w2) day !! j = Some (Some run2)
          ∧ match distance run with
            | Some d =>
                distance run2 = Some (back (there d))
                ∧ ∀ k, 0 ≤ k ≤ gridMax → d = tenth k →
                       nearTenth k (back (there d)) = true
                       ∧ (Qabs (exact (back (there d)) - exact d)
                          <= gridTolerance)%Q
            | None => distance run2 = None
            end.

(** A one-week plan with a single 5.23 km easy run on Monday. *)
Definition run523 : Run :=
  mkRun (Some "w1-mon") Easy (Some MDistance) (Some 5.23%float) None None None.

Definition week523 : Week Days :=
  mkWeek 1 "2025-01-06" (mkDays [Some run523] [] [] [] [] [] []) 5%float.


(** The plan a handler leaves behind, as a value: the returned weeks with
    their [days] objects read from the final heap. *)
Definition planAfter (m : M (list (Week loc))) (h : gmap loc Days)
  : outcome (list (Week Days)) :=
  match m (mkState h []) with
  | (Ok ws', s') => Ok (view (heap s') <$> ws')
  | (Throw e, _) => Throw e
  end.


Definition easy5 : Run :=
  mkRun (Some "w1-tue-easy") Easy (Some MDistance) (Some 5%float) None None None.

Definition long12 : Run :=
  mkRun (Some "w1-long") Long (Some MDistance) (Some 12%float) None None None.

Definition easy4 : Run :=
  mkRun (Some "w1-mon-easy") Easy (Some MDistance) (Some 4%float) None None None.

(** One week in km: a single 4 km easy run on Monday. *)
Definition week4 : Week Days :=
  mkWeek 1 "2025-01-06" (mkDays [Some easy4] [] [] [] [] [] []) 4%float.

(** Two weeks on the heap: week 1 has a 5 km easy run on Tuesday, week 2
    is empty. *)
Definition heap2 : gmap loc Days :=
  <[0%nat := mkDays [] [Some easy5] [] [] [] [] []]> (<[1%nat := emptyDays]> ∅).

Definition weeks2 : list (Week loc) :=
  [mkWeek 1 "2025-01-06" 0%nat 5%float; mkWeek 2 "2025-01-13" 1%nat 0%float].

Definition time30 : Updates := mkUpdates (Some MTime) None (Some 30%float) None.

(** A week with a 40-minute tempo run on Thursday. *)
Definition tempo40 : Run :=
  mkRun (Some "w1-thu-tempo") Tempo (Some MTime) None (Some 40%float) None None.

Definition heapTempo : gmap loc Days :=
  <[0%nat := mkDays [] [] [] [Some tempo40] [] [] []]> ∅.

Definition weeksTempo : list (Week loc) := [mkWeek 1 "2025-01-06" 0%nat 0%float].




(** A week with 0.7, 1.4 and 1.4 on Monday, as a unit toggle leaves 1.1,
    2.3 and 2.3 km; the double sum is 3.4999999999999996. *)
Definition run07 : Run :=
  mkRun (Some "w1-a") Easy (Some MDistance) (Some 0.7%float) None None None.

Definition run14 : Run :=
  mkRun (Some "w1-b") Easy (Some MDistance) (Some 1.4%float) None None None.

Definition heapSum : gmap loc Days :=
  <[0%nat := mkDays [Some run07; Some run14; Some run14] [] [] [] [] [] []]> ∅.

Definition weekSumEx : Week loc := mkWeek 1 "2025-01-06" 0%nat 3%float.

(** The same week with the 5-distance easy run on Tuesday: the double sum
    is 8.5, the total 9. *)
Definition heapSum5 : gmap loc Days :=
  <[0%nat := mkDays [Some run07; Some run14; Some run14] [Some easy5]
                    [] [] [] [] []]> ∅.

Definition weekSum5 : Week loc := mkWeek 1 "2025-01-06" 0%nat 9%float.

(** A handler call reports an error when it throws. *)
Definition reportsError {A} (m : M A) (s : state) : Prop :=
  ∃ e s', m s = (Throw e, s').

(** The number of workouts of a plan; holes are not workouts. *)
Definition weekCount (d : Days) : nat :=
  sum_list (map (λ runs, length (filter_Boolean runs)) (Object_values d)).

Definition countWorkouts (ws : list (Week Days)) : nat :=
  sum_list (map (λ w, weekCount (days w)) ws).

(** Two weeks: a 4 km easy run on Monday of week 1, week 2 empty. *)
Definition heapMon : gmap loc Days :=
  <[0%nat := mkDays [Some easy4] [] [] [] [] [] []]> (<[1%nat := emptyDays]> ∅).

Definition weeksMon : list (Week loc) :=
  [mkWeek 1 "2025-01-06" 0%nat 4%float; mkWeek 2 "2025-01-13" 1%nat 0%float].

(** The same with a 12 km long run after the easy run. *)
Definition heapMon2 : gmap loc Days :=
  <[0%nat := mkDays [Some easy4; Some long12] [] [] [] [] [] []]>
    (<[1%nat := emptyDays]> ∅).

Definition weeksMon2 : list (Week loc) :=
  [mkWeek 1 "2025-01-06" 0%nat 16%float; mkWeek 2 "2025-01-13" 1%nat 0%float].

(** The mirror image: week 1 empty, the easy run on Monday of week 2. *)
Definition heapLate : gmap loc Days :=
  <[0%nat := emptyDays]> (<[1%nat := mkDays [Some easy4] [] [] [] [] [] []]> ∅).

Definition weeksLate : list (Week loc) :=
  [mkWeek 1 "2025-01-06" 0%nat 0%float; mkWeek 2 "2025-01-13" 1%nat 4%float].

(** A handler run recomputes a total exactly once when it appends one
    entry to the trace of [recalculateWeeklyTotal] calls. *)
Definition recomputesOnce {A} (m : M A) (s : state) : Prop :=
  ∃ r s' total, m s = (Ok r, s') ∧ trace s' = trace s ++ [Recalculated total].

(** A run of edits, each with its time stamp and the edited plan. *)
Definition reviseAll (schema : TrainingPlanSchema)
    (edits : list (string * TrainingPlan)) : TrainingPlanSchema :=
  foldl (λ sch e, updateSchemaAfterEdit e.1 sch e.2) schema edits.

(** [part] occurs in [msg]. *)
Definition contains (msg part : string) : Prop :=
  ∃ pre post, msg = pre +:+ part +:+ post.

(** [Object.keys(week.days || {})] *)
Definition dayKeys (w : RawWeek) : list string := (default [] (rw_days w)).*1.

(** The structural faults the import looks for in a week. *)
Definition hasInvalidDayKey (w : RawWeek) : Prop :=
  ∃ k, k ∈ dayKeys w ∧ k ∉ validDays.

Definition hasNonArrayBucket (w : RawWeek) : Prop :=
  ∃ k, k ∈ dayKeys w ∧ lookupKey (default [] (rw_days w)) k = Some BucketNotArray.

Definition hasInvalidRunType (w : RawWeek) : Prop :=
  ∃ k runs j r,
    k ∈ dayKeys w
    ∧ lookupKey (default [] (rw_days w)) k = Some (BucketArray runs)
    ∧ runs !! j = Some (Some r)
    ∧ rr_type r ∉ validRunTypes.

(** The messages of a list of week objects, in order. *)
Definition allWeekErrors (ws : list RawWeek) : list string :=
  mjoin (map weekErrors ws).

(** A plan that fails the structural checks of the import: no weeks, weeks
    that are not an array, a [null] entry among the weeks, or a week with
    an unknown day key, a truthy bucket that is not an array, or a run of
    unknown type. *)
Definition failsStructure (p : RawPlan) : Prop :=
  rp_weeks p = WeeksMissing
  ∨ rp_weeks p = WeeksNotArray
  ∨ ∃ ws, rp_weeks p = WeeksArray ws
          ∧ (None ∈ ws
             ∨ ∃ w, Some w ∈ ws
                    ∧ (hasInvalidDayKey w ∨ hasNonArrayBucket w
                       ∨ hasInvalidRunType w)).

(** A payload with a structural fault: the settings or the plan are not
    there, or the plan fails the structural checks. *)
Definition payloadFaulty (incoming : RawSchema) : Prop :=
  r_settings incoming = None
  ∨ r_plan incoming = None
  ∨ ∃ p, r_plan incoming = Some p ∧ failsStructure p.

(** What [trainingPlanSchema] asks of every payload: the keys [settings]
    and [plan] are required, so a validator that runs it accepts no payload
    without them. *)
Definition requiresSettingsAndPlan
    (validateSchema : RawSchema → bool * option string) : Prop :=
  ∀ p, (validateSchema p).1 = true → is_Some (r_settings p) ∧ is_Some (r_plan p).

Definition settingsGood : RawSettings :=
  mkRawSettings (Some "2025-01-01") (Some "2025-03-01") (Some "10k") None
    (Some "km")
    (TrainingDaysArray
       [Some (mkRawTrainingDay (Some "Tue")
                (WorkoutsArray [Some (mkRawWorkoutSetting (Some "Easy") None)]))]).

Definition planGood : RawPlan :=
  mkRawPlan (WeeksArray
    [Some (mkRawWeek 1
       (Some [("Mon", BucketArray []);
              ("Tue", BucketArray [Some (mkRawRun "Easy" (Some 5%float) None)])])
       5%float)]).

Definition schemaGood : RawSchema :=
  mkRawSchema (Some "1.0.0") (Some "generated") (Some settingsGood) (Some planGood).

Definition formValuesGood : FormValues :=
  mkFormValues "2025-01-01" "2025-03-01" "10k" None "km"
    [mkFormTrainingDay "Tue" [("Easy", None)]].

(** A session holding a generated plan, in the edit step. *)
Definition session0 : Session :=
  mkSession (Some formValuesGood) (Some planGood) (Some schemaGood) edit.

(** A payload with the day key "Weds" in week 1 and, in week 2, the day
    key "Thurs" holding a run of type "Jog". *)
Definition weekWeds : RawWeek :=
  mkRawWeek 1
    (Some [("Mon", BucketArray []);
           ("Weds", BucketArray [Some (mkRawRun "Easy" (Some 5%float) None)])])
    5%float.

Definition weekThurs : RawWeek :=
  mkRawWeek 2
    (Some [("Thurs", BucketArray [Some (mkRawRun "Jog" (Some 3%float) None)])])
    3%float.

Definition planWeds : RawPlan :=
  mkRawPlan (WeeksArray [Some weekWeds; Some weekThurs]).

(** A plan with a [null] entry among its weeks, and one whose Monday
    bucket is [null]. *)
Definition planNullWeek : RawPlan :=
  mkRawPlan (WeeksArray [Some weekWeds; None]).

Definition planNullBucket : RawPlan :=
  mkRawPlan (WeeksArray [Some (mkRawWeek 1 (Some [("Mon", BucketFalsy)]) 0%float)]).

(** A validator that asks for the two required keys and nothing else. *)
Definition requiredKeysOnly (p : RawSchema) : bool * option string :=
  match r_settings p, r_plan p with
  | Some _, Some _ => (true, None)
  | _, _ => (false, Some "settings: Required; plan: Required")
  end.

Definition incomingWeds : RawSchema :=
  mkRawSchema (Some "1.0.0") (Some "edited") (Some settingsGood) (Some planWeds).

(** Payloads that lack the plan, or the settings. *)
Definition incomingNoPlan : RawSchema :=
  mkRawSchema (Some "1.0.0") (Some "edited") (Some settingsGood) None.

Definition incomingNoSettings : RawSchema :=
  mkRawSchema (Some "1.0.0") (Some "edited") None (Some planGood).

(** ** More of TrainingTable.tsx: what the cells and the modal send *)

(** [handleMeasurementTypeChange] of DraggableWorkout: a call of
    [onUpdateRun] with the fields of the displayed [run]. *)
Definition handleMeasurementTypeChange (weeks : list (Week loc))
    (weekIndex : nat) (day : Day) (runIndex : nat) (run : Run)
    (newType : MeasurementType) : M (list (Week loc)) :=
  handleUpdateRun weeks weekIndex day runIndex
    (mkUpdates (Some newType)
       (* Clear the opposite field *)
       (if decide (newType = MDistance) then distance run else None)
       (if decide (newType = MTime) then time run else None)
       None).

(** [handleDescriptionSave] of DraggableWorkout. *)
Definition handleDescriptionSave (weeks : list (Week loc))
    (weekIndex : nat) (day : Day) (runIndex : nat) (descriptionValue : string)
  : M (list (Week loc)) :=
  handleUpdateRun weeks weekIndex day runIndex
    (mkUpdates None None None (Some descriptionValue)).

(** The state of WorkoutModal. *)
Record WorkoutModalState : Type := mkModal {
  m_workoutType : RunType;
  m_nickname : string;
  m_measurementType : MeasurementType;
  m_distance : option number;
  m_time : option number;
  m_description : string
}.

(** [handleSubmit] of WorkoutModal: the object handed to [onSubmit]. *)
Definition handleSubmit (m : WorkoutModalState) : Workout :=
  mkWorkout (m_workoutType m)
            (nickname_or_undefined (m_nickname m))
            (Some (m_measurementType m))
            (if decide (m_measurementType m = MDistance) then m_distance m else None)
            (if decide (m_measurementType m = MTime) then m_time m else None)
            (nickname_or_undefined (m_description m)).

(** [handleWorkoutSubmit] of RunCell. *)
Definition handleWorkoutSubmit (weeks : list (Week loc))
    (weekIndex : nat) (day : Day) (newId : string) (workout : Workout)
  : M (list (Week loc)) :=
  handleAddRun weeks weekIndex day newId workout.

(** [a > b] on numbers. *)
Definition number_gt (a b : number) : bool := (b <? a)%float.

(** [peakWeek]: [null] for no weeks, else [weeks.reduce] without an
    initial value, keeping [max] unless the week's total is greater. *)
Definition peakWeek {D} (weeks : list (Week D)) : option (Week D) :=
  match weeks with
  | [] => None
  | first :: rest =>
      Some (fold_left
              (λ max week,
                 if number_gt (weeklyTotal week) (weeklyTotal max)
                 then week else max)
              rest first)
  end.

(** ** More of planSchema.ts *)

(** [isRunArray] on the value stored under a day key. *)
Definition isRunArray (value : RawBucket) : bool :=
  match value with
  | BucketArray runs =>
      forallb (λ r, match r with
                    | Some r => includes validRunTypes (rr_type r)
                    | None => false
                    end) runs
  | _ => false
  end.

(** ** InputForm.tsx: the training-day handlers

    Each handler reads [trainingDays] from the form and, when it calls
    [form.setValue], stores the list returned here. *)

(** [{ runType: "Easy" }] *)
Definition easyWorkout : string * option string := ("Easy", None).

Definition handleDayChange (checked : bool) (day : string)
    (currentDays : list FormTrainingDay) : list FormTrainingDay :=
  if checked then currentDays ++ [mkFormTrainingDay day [easyWorkout]]
  else filter (λ d, f_day d ≠ day) currentDays.

(** [currentDays.findIndex((d) => d.day === day)] *)
Definition findDayIndex (day : string) (currentDays : list FormTrainingDay)
  : option (nat * FormTrainingDay) :=
  list_find (λ d, f_day d = day) currentDays.

Definition handleAddWorkout (day : string)
    (currentDays : list FormTrainingDay) : list FormTrainingDay :=
  match findDayIndex day currentDays with
  | Some (dayIndex, d) =>
      <[dayIndex := mkFormTrainingDay (f_day d) (f_workouts d ++ [easyWorkout])]>
        currentDays
  | None => currentDays
  end.

Definition handleRemoveWorkout (day : string) (workoutIndex : nat)
    (currentDays : list FormTrainingDay) : list FormTrainingDay :=
  match findDayIndex day currentDays with
  | Some (dayIndex, d) =>
      <[dayIndex := mkFormTrainingDay (f_day d) (delete workoutIndex (f_workouts d))]>
        currentDays
  | None => currentDays
  end.

(** ** More of useTrainingSession.ts *)

(** The [settings] literal of [generateAndSetPlan], as stored data. *)
Definition generatedSettings (values : FormValues) : RawSettings :=
  mkRawSettings
    (Some (fv_todayDate values)) (Some (fv_raceDate values))
    (Some (fv_raceDistance values)) (fv_customRaceDistance values)
    (Some (or_string (Some (fv_unit values)) "km"))
    (TrainingDaysArray
       (map (λ d, Some (mkRawTrainingDay (Some (f_day d))
                          (WorkoutsArray
                             (map (λ w, Some (mkRawWorkoutSetting (Some w.1) w.2))
                                  (f_workouts d)))))
            (fv_trainingDays values))).

Section session_updates.
(** [updateSchemaAfterEdit] acting on the stored schema and plan; its
    typed form is [updateSchemaAfterEdit] above. *)
Variable reviseStored : RawSchema → RawPlan → RawSchema.

(** [updatePlan].  [snapshot] holds the values of the render the callback
    was created in ([schema] is read from it); the [set...] calls act on
    the pending state [s]. *)
Definition updatePlan (snapshot : Session) (next : option RawPlan)
    (s : Session) : Session :=
  let s := setPlan next s in
  match next, s_schema snapshot with
  | Some next, Some schema => setSchema (Some (reviseStored schema next)) s
  | _, _ => s
  end.

(** [{ ...currentSchema, settings: { ...currentSchema.settings, unit:
    newUnit }, updatedAt: ... }]; spreading missing settings leaves an
    object with the unit alone. *)
Definition withUnit (currentSchema : RawSchema) (newUnit : string) : RawSchema :=
  mkRawSchema (r_version currentSchema) (r_source currentSchema)
    (Some match r_settings currentSchema with
          | Some st =>
              mkRawSettings (rs_todayDate st) (rs_raceDate st)
                (rs_raceDistance st) (rs_customRaceDistance st)
                (Some newUnit) (rs_trainingDays st)
          | None =>
              mkRawSettings None None None None (Some newUnit)
                TrainingDaysNotArray
          end)
    (r_plan currentSchema).

(** The [onUnitChange] callback of page.tsx, run on the values of the
    render it was created in: [updateFormValues], [updatePlan], then
    [importPlanSchema] on the schema that [exportPlanSchema] returns, which
    is the schema of that render. *)
Definition onUnitChange (snapshot : Session) (newUnit : string)
    (convertedPlan : option RawPlan) : ImportResult :=
  match s_formValues snapshot with
  | None => mkImportResult snapshot [] (Ok tt)
  | Some formValues =>
      let updatedValues :=
        mkFormValues (fv_todayDate formValues) (fv_raceDate formValues)
          (fv_raceDistance formValues) (fv_customRaceDistance formValues)
          newUnit (fv_trainingDays formValues) in
      let s := setFormValues (Some updatedValues) snapshot in
      match convertedPlan with
      | None => mkImportResult s [] (Ok tt)
      | Some _ =>
          let s := updatePlan snapshot convertedPlan s in
          match s_schema snapshot with
          | None => mkImportResult s [] (Ok tt)
          | Some currentSchema =>
              importPlanSchema s (withUnit currentSchema newUnit)
          end
      end
  end.
End session_updates.

(** * Properties *)

(** ** Sums of doubles *)

Section sums.

Lemma fold_left_fmap {A B C} (f : C → B → C) (g : A → B) (l : list A) (c : C) :
  fold_left f (g <$> l) c = fold_left (λ c a, f c (g a)) l c.
Proof. revert c. induction l as [|a l IH]; intros c; [done|]. cbn. apply IH. Qed.

Lemma fold_left_pointwise {A C} (f g : C → A → C) (l : list A) (c : C) :
  (∀ c a, f c a = g c a) → fold_left f l c = fold_left g l c.
Proof.
  intros H. revert c. induction l as [|a l IH]; intros c; [done|].
  cbn. by rewrite H, IH.
Qed.

Lemma dayReduce_fields (runs : Bucket) :
  dayReduce (filter_Boolean runs) = daySum (distanceFields runs).
Proof.
  unfold dayReduce, daySum, sumFrom0, distanceFields.
  rewrite <- list_fmap_compose, fold_left_fmap.
  apply fold_left_pointwise. intros t r. cbn. by destruct (distance r).
Qed.

Lemma weekReduce_weekSum (d : Days) : weekReduce d = weekSum d.
Proof.
  unfold weekReduce, weekSum, sumFrom0. rewrite fold_left_fmap.
  apply fold_left_pointwise. intros t b. by rewrite dayReduce_fields.
Qed.



End sums.

Section week_sums.

Lemma bucketDistances_app (b1 b2 : Bucket) :
  bucketDistances (b1 ++ b2) = bucketDistances b1 ++ bucketDistances b2.
Proof. unfold bucketDistances. apply omap_app. Qed.

Lemma getDay_setDay_eq (d : Days) (day : Day) (runs : Bucket) :
  getDay (setDay d day runs) day = runs.
Proof. by destruct day. Qed.

Lemma getDay_setDay_ne (d : Days) (day day' : Day) (runs : Bucket) :
  day ≠ day' → getDay (setDay d day runs) day' = getDay d day'.
Proof. by destruct day, day'. Qed.

Lemma setDay_getDay (d : Days) (day : Day) : setDay d day (getDay d day) = d.
Proof. by destruct d, day. Qed.

Lemma weekSum_ext (d d' : Days) :
  (∀ day, distanceFields (getDay d day) = distanceFields (getDay d' day)) →
  weekSum d = weekSum d'.
Proof.
  intros H. unfold weekSum, Object_values. cbn [fmap list_fmap].
  pose proof (H Mon) as HMon. pose proof (H Tue) as HTue.
  pose proof (H Wed) as HWed. pose proof (H Thu) as HThu.
  pose proof (H Fri) as HFri. pose proof (H Sat) as HSat.
  pose proof (H Sun) as HSun. cbn [getDay] in *.
  by rewrite HMon, HTue, HWed, HThu, HFri, HSat, HSun.
Qed.

End week_sums.


Lemma lookup_total_insert_same (h : gmap loc Days) (l0 l : loc) :
  <[l0 := h !!! l0]> h !!! l = h !!! l.
Proof.
  destruct (decide (l = l0)) as [->|Hne].
  - by rewrite lookup_total_insert_eq.
  - by rewrite lookup_total_insert_ne.
Qed.

(** ** Mapping a callback over the weeks *)

Ltac run_M :=
  unfold Array_map, mbind, M_bind, mret, M_ret, fmap, M_fmap, readDay, writeDay,
    recalculateWeeklyTotal, throw in *;
  cbn [fst snd heap trace days week startDate weeklyTotal recalculateWeeklyTotalWith] in *.

Lemma recalc_totalOk (h : gmap loc Days) (w : Week loc) :
  totalOk h (recalculateWeeklyTotalWith (λ l, h !!! l) w).
Proof. reflexivity. Qed.





(** ** The handlers keep the totals consistent *)

Lemma step_ok_id (w : Week loc) (s : state) :
  days w = days w
  ∧ (∀ l, l ≠ days w → heap s !!! l = heap s !!! l)
  ∧ (totalOk (heap s) w → totalOk (heap s) w).
Proof. done. Qed.

(** A write into the week's own object followed by a recalculation. *)
Lemma step_ok_write_recalc (w : Week loc) (s : state) (d : Days) :
  let h' := <[days w := d]> (heap s) in
  let w' := recalculateWeeklyTotalWith (λ l, h' !!! l) w in
  days w' = days w
  ∧ (∀ l, l ≠ days w → h' !!! l = heap s !!! l)
  ∧ (totalOk (heap s) w → totalOk h' w').
Proof.
  cbn zeta. split; [done|]. split.
  - intros l Hl. by rewrite lookup_total_insert_ne.
  - intros _. apply recalc_totalOk.
Qed.

(** ** Unit conversion on a plan without holes *)

Section convert.
Variables currentUnit newUnit : Unit_.

Lemma convertRun_fst (acc : number) (run : Run) :
  (convertRun currentUnit newUnit acc run).1 = convert1 currentUnit newUnit run.
Proof.
  unfold convert1, convertRun.
  destruct (distance run) as [d|]; [|done]. by destruct (truthy_number (Some d)).
Qed.

Lemma convertRun_snd (acc : number) (run : Run) :
  (convertRun currentUnit newUnit acc run).2
  = fold_left (λ total x, (total + x)%float)
      (convertedDistances currentUnit newUnit [Some run]) acc.
Proof.
  unfold convertRun, convertedDistances, bucketDistances.
  cbn [omap list_omap mbind option_bind].
  destruct (distance run) as [d|]; cbn [omap list_omap]; [|done].
  by destruct (truthy_number (Some d)).
Qed.

Lemma convertedDistances_cons (x : option Run) (runs : Bucket) :
  convertedDistances currentUnit newUnit (x :: runs)
  = convertedDistances currentUnit newUnit [x]
    ++ convertedDistances currentUnit newUnit runs.
Proof.
  unfold convertedDistances.
  change (x :: runs) with ([x] ++ runs).
  by rewrite bucketDistances_app, omap_app.
Qed.

(** The accumulator runs through the converted distances in order. *)
Lemma convertRuns_spec (runs : Bucket) (acc : number) :
  Forall is_Some runs →
  convertRuns currentUnit newUnit acc runs
  = Ok (convertedBucket currentUnit newUnit runs,
        fold_left (λ total x, (total + x)%float)
          (convertedDistances currentUnit newUnit runs) acc).
Proof.
  revert acc. induction runs as [|x runs IH]; intros acc Hall; [done|].
  apply Forall_cons in Hall as [[run ->] Hall].
  cbn [convertRuns].
  pose proof (convertRun_fst acc run) as H1.
  pose proof (convertRun_snd acc run) as H2.
  destruct (convertRun currentUnit newUnit acc run) as [run' total1].
  cbn [fst snd] in H1, H2. subst run' total1.
  rewrite (IH _ Hall). cbn [mbind outcome_bind mret outcome_ret].
  rewrite (convertedDistances_cons (Some run) runs), fold_left_app. done.
Qed.

Lemma convertWeek_spec (w : Week Days) :
  holeFree (days w) →
  convertWeek currentUnit newUnit w = Ok (convertedWeek currentUnit newUnit w).
Proof.
  unfold holeFree, Object_values. intros Hall.
  repeat (apply Forall_cons in Hall as [? Hall]).
  unfold convertWeek, days_. cbn [convertDays getDay].
  repeat match goal with
  | H : Forall is_Some ?b |- context [convertRuns _ _ ?acc ?b] =>
      rewrite (convertRuns_spec b acc H); cbn [mbind outcome_bind]
  end.
  cbn [mret outcome_ret setDay emptyDays dMon dTue dWed dThu dFri dSat dSun].
  unfold convertedWeek, mapDays, sumFrom0, weekConverted, Object_values.
  cbn [map mjoin list_join]. rewrite !fold_left_app. done.
Qed.

Lemma mapM_convertWeek (ws : list (Week Days)) :
  Forall (λ w, holeFree (days w)) ws →
  mapM (convertWeek currentUnit newUnit) ws
  = Ok (convertedWeek currentUnit newUnit <$> ws).
Proof.
  induction 1 as [|w ws Hw Hws IH]; [done|].
  cbn [mapM]. rewrite (convertWeek_spec w Hw). cbn [mbind outcome_bind].
  rewrite IH. done.
Qed.
End convert.

Lemma handleUnitToggle_spec (currentUnit : Unit_) (ws : list (Week Days)) :
  Forall (λ w, holeFree (days w)) ws →
  handleUnitToggle currentUnit ws
  = Ok (otherUnit currentUnit,
        convertedWeek currentUnit (otherUnit currentUnit) <$> ws).
Proof.
  intros H. unfold handleUnitToggle. by rewrite mapM_convertWeek.
Qed.

(** ** The km/miles round trip on the grid of tenths *)

(** Checked by evaluation for each of the 10001 tenths of the grid. *)
Lemma grid_round_trip : forallb gridCheck (seqZ 0 (gridMax + 1)) = true.
Proof. vm_compute. reflexivity. Qed.

Lemma gridCheck_holds (k : Z) : 0 ≤ k ≤ gridMax → gridCheck k = true.
Proof.
  intros Hk. pose proof grid_round_trip as H.
  rewrite forallb_forall in H. apply H.
  apply list_elem_of_In, elem_of_seqZ. lia.
Qed.

Lemma getDay_mapDays (f : Bucket → Bucket) (d : Days) (day : Day) :
  getDay (mapDays f d) day = f (getDay d day).
Proof. by destruct day. Qed.

Lemma holeFree_getDay (d : Days) (day : Day) :
  holeFree d → Forall is_Some (getDay d day).
Proof.
  unfold holeFree, Object_values. intros H.
  repeat (apply Forall_cons in H as [? H]). by destruct day.
Qed.

Lemma convertedBucket_is_Some (cu nu : Unit_) (runs : Bucket) :
  Forall is_Some runs → Forall is_Some (convertedBucket cu nu runs).
Proof.
  unfold convertedBucket. intros H. apply Forall_fmap.
  eapply Forall_impl; [exact H|]. intros x [r ->]. by eexists.
Qed.

Lemma holeFree_converted (cu nu : Unit_) (d : Days) :
  holeFree d → holeFree (mapDays (convertedBucket cu nu) d).
Proof.
  unfold holeFree, Object_values, mapDays. cbn. intros H.
  repeat (apply Forall_cons in H as [? H]).
  repeat constructor; by apply convertedBucket_is_Some.
Qed.

Lemma distance_convert1_there (run : Run) :
  distance (convert1 Km Miles run) = there <$> distance run.
Proof.
  unfold convert1, convertRun, there, convertDistance.
  destruct (distance run) as [d|] eqn:E; cbn [fmap option_fmap option_map]; [|done].
  by destruct (truthy_number (Some d)).
Qed.

Lemma distance_convert1_back (run : Run) :
  distance (convert1 Miles Km run) = back <$> distance run.
Proof.
  unfold convert1, convertRun, back, convertDistance.
  destruct (distance run) as [d|] eqn:E; cbn [fmap option_fmap option_map]; [|done].
  by destruct (truthy_number (Some d)).
Qed.

Lemma roundTrip_spec (ws : list (Week Days)) :
  Forall (λ w, holeFree (days w)) ws →
  roundTrip ws
  = Ok (convertedWeek Miles Km <$> (convertedWeek Km Miles <$> ws)).
Proof.
  intros H. unfold roundTrip. rewrite (handleUnitToggle_spec Km ws H).
  cbn [mbind outcome_bind fst snd otherUnit].
  rewrite handleUnitToggle_spec; [done|].
  apply Forall_fmap. eapply Forall_impl; [exact H|].
  intros w Hw. cbn. by apply holeFree_converted.
Qed.

(** C7 (as amended).  For every plan without holes, converting km to
    miles and back succeeds and keeps every workout at its position; a
    distance [d] comes back as [back (there d)], each step being the
    conversion rounded to one decimal (a distance 0 is left alone).  For
    the distances 0.0, 0.1, ..., 1000.0 km the result is the same tenth or
    a neighbouring one, so at most 0.1 km away up to the rounding of the
    doubles (2 km comes back as 1.9, the double 1.8999999999999999). *)
Theorem convert_round_trip_tolerance (ws : list (Week Days)) :
  Forall (λ w, holeFree (days w)) ws → roundTripOnGrid ws.
Proof.
  intros Hfree. eexists. split; [by apply roundTrip_spec|].
  intros i w day j run Hw Hrun.
  exists (convertedWeek Miles Km (convertedWeek Km Miles w)).
  exists (convert1 Miles Km (convert1 Km Miles run)).
  split; [by rewrite !list_lookup_fmap, Hw|].
  split.
  { cbn [convertedWeek days]. rewrite !getDay_mapDays.
    unfold convertedBucket. rewrite !list_lookup_fmap, Hrun. done. }
  rewrite distance_convert1_back, distance_convert1_there.
  destruct (distance run) as [d|]; [|done].
  cbn [fmap option_fmap option_map]. split; [reflexivity|].
  intros k Hk ->. pose proof (gridCheck_holds k Hk) as H.
  unfold gridCheck in H. apply andb_true_iff in H as [H1 H2].
  split; [exact H1|]. by apply Qle_bool_iff.
Qed.

Lemma convert_round_trip_tolerance_witness :
  Forall (λ w, holeFree (days w)) [week4; week523]
  ∧ roundTripOnGrid [week4; week523]
  ∧ 4%float = tenth 40
  ∧ back (there 4) = 4%float.
Proof.
  assert (Forall (λ w, holeFree (days w)) [week4; week523]) as H.
  { repeat constructor; by eexists. }
  split; [exact H|].
  split; [exact (convert_round_trip_tolerance [week4; week523] H)|].
  split; vm_compute; reflexivity.
Defined.

(** C7 as stated fails: 5.23 km becomes 3.2 mi and comes back as 5.1 km,
    0.13 km away from the original.  Even on whole kilometres the
    difference of the doubles can exceed 0.1: 2 km becomes 1.2 mi and
    comes back as 1.9, the double 1.8999999999999999. *)
Lemma convert_round_trip_exceeds_tenth :
  roundTrip [week523]
  = Ok [mkWeek 1 "2025-01-06"
          (mkDays [Some (mkRun (Some "w1-mon") Easy (Some MDistance)
                               (Some 5.1%float) None None None)]
                  [] [] [] [] [] [])
          5%float]
  ∧ ¬ (Qabs (exact 5.1 - exact 5.23) <= 1 # 10)%Q
  ∧ back (there 2) = 1.9%float
  ∧ ¬ (Qabs (exact 1.9 - exact 2) <= 1 # 10)%Q.
Proof.
  split; [by vm_compute|]. split; [|split; [by vm_compute|]].
  - intros H. apply Qle_bool_iff in H. vm_compute in H. discriminate.
  - intros H. apply Qle_bool_iff in H. vm_compute in H. discriminate.
Qed.

(** ** The handlers keep the totals consistent *)



Section handlers_totals.
Variable s : state.
Variable weeks_ : list (Week loc).
Hypothesis Hnodup : NoDup (days <$> weeks_).
Hypothesis Htotals : Forall (totalOk (heap s)) weeks_.




End handlers_totals.

(** ** A callback that acts on one index only *)

(** Every handler but the cross-week [moveWorkout] returns the week it is
    given, untouched, at every index except one.  The map then runs the
    callback once, on the week at that index. *)
Lemma mapM_from_target {A} (f : A → nat → M A) (k : nat) :
  ∀ (l : list A) (i0 : nat) (s : state),
    (∀ a j s, (i0 ≤ j)%nat → j ≠ k → f a j s = (Ok a, s)) →
    mapM_from f i0 l s
    = if decide (i0 ≤ k)%nat then
        match l !! (k - i0)%nat with
        | Some a =>
            match f a k s with
            | (Ok a', s') => (Ok (<[(k - i0)%nat := a']> l), s')
            | (Throw e, s') => (Throw e, s')
            end
        | None => (Ok l, s)
        end
      else (Ok l, s).
Proof.
  induction l as [|a l IH]; intros i0 s Hskip.
  - cbn. by case_decide.
  - cbn [mapM_from]. unfold mbind, M_bind.
    assert (∀ a j s, (S i0 ≤ j)%nat → j ≠ k → f a j s = (Ok a, s)) as Hskip'
      by (intros; apply Hskip; lia).
    destruct (decide (i0 = k)) as [->|Hne].
    + rewrite decide_True by lia. rewrite Nat.sub_diag. cbn [lookup list_lookup].
      destruct (f a k s) as [[a'|e] s1]; [|done].
      rewrite IH by done. rewrite decide_False by lia. done.
    + rewrite (Hskip a i0 s) by (done || lia). rewrite IH by done.
      case_decide as Hle.
      * rewrite decide_True by lia.
        replace (k - i0)%nat with (S (k - S i0)) by lia.
        cbn [lookup list_lookup].
        destruct (l !! (k - S i0)%nat) as [b|]; [|done].
        by destruct (f b k s) as [[b'|e] s1].
      * rewrite decide_False by lia. done.
Qed.

Lemma Array_map_target {A} (f : A → nat → M A) (k : nat) (l : list A) (s : state) :
  (∀ a j s, j ≠ k → f a j s = (Ok a, s)) →
  Array_map f l s
  = match l !! k with
    | Some a =>
        match f a k s with
        | (Ok a', s') => (Ok (<[k := a']> l), s')
        | (Throw e, s') => (Throw e, s')
        end
    | None => (Ok l, s)
    end.
Proof.
  intros Hskip. unfold Array_map. rewrite (mapM_from_target f k) by auto.
  rewrite decide_True by lia. by rewrite Nat.sub_0_r.
Qed.

Ltac skip_tac :=
  let a := fresh "a" in let j := fresh "j" in
  let s := fresh "s" in let Hj := fresh "Hj" in
  intros a j s Hj; cbv beta zeta;
  rewrite ?decide_False by (first [exact Hj | intros [? ?]; congruence | tauto]);
  reflexivity.

(** ** The totals after a mutation *)





(** The sum is taken in the order of the bucket, and doubles do not add up
    the same in every order: the consistent week 0.7, 1.4, 1.4 (total 3,
    from 3.4999999999999996) keeps its total 3 through a reorder, while a
    recomputation of the reordered bucket 1.4, 1.4, 0.7 gives 4. *)
Lemma reorder_total_not_recomputed :
  totalOk heapSum weekSumEx
  ∧ ∃ s', reorderWithinDay [weekSumEx] 0 Mon 0 2 (mkState heapSum [])
          = (Ok [weekSumEx], s')
          ∧ weeklyTotal weekSumEx = 3%float
          ∧ Math_round (weekReduce (heap s' !!! days weekSumEx)) = 4%float.
Proof.
  split; [by vm_compute|]. eexists. split; [by vm_compute|].
  split; by vm_compute.
Qed.

(** ** updateWorkout *)

(** C4 (as amended).  When [updateWorkout] addresses a workout, the run at
    that position becomes [applyUpdates updates run], the other entries of
    the bucket and the other buckets of the week stay, and the week's total is
    recomputed from the buckets as they are then.  If the updates set the
    measurement type to time, the resulting run has the distance the
    updates carry: none when they carry none, as in every call the
    workout cell makes; likewise for the time when they set the type to
    distance.  In particular a 5-distance run updated with measurement
    type time and time 30 ends with no distance and time 30, and the new
    total is the rounded sum of the distances that are left. *)
Theorem update_clears_opposite_field
    (s : state) (weeks_ : list (Week loc)) (wi : nat) (w : Week loc)
    (day : Day) (ri : nat) (run : Run) (updates : Updates) :
  weeks_ !! wi = Some w →
  getDay (heap s !!! days w) day !! ri = Some (Some run) →
  ∃ w' s',
    handleUpdateRun weeks_ wi day ri updates s = (Ok (<[wi := w']> weeks_), s')
    ∧ days w' = days w
    ∧ getDay (heap s' !!! days w) day
      = <[ri := Some (applyUpdates updates run)]> (getDay (heap s !!! days w) day)
    ∧ (∀ day', day' ≠ day →
         getDay (heap s' !!! days w) day' = getDay (heap s !!! days w) day')
    ∧ weeklyTotal w' = Math_round (weekSum (heap s' !!! days w))
    ∧ (u_measurementType updates = Some MTime → u_distance updates = None →
       distance (applyUpdates updates run) = None)
    ∧ (u_measurementType updates = Some MDistance → u_time updates = None →
       time (applyUpdates updates run) = None)
    ∧ (updates = mkUpdates (Some MTime) None (Some 30%float) None →
       distance (applyUpdates updates run) = None
       ∧ time (applyUpdates updates run) = Some 30%float)
    ∧ (u_measurementType updates = Some MTime →
       distance (applyUpdates updates run) = u_distance updates)
    ∧ (u_measurementType updates = Some MDistance →
       time (applyUpdates updates run) = u_time updates)
    ∧ (∀ shown newType,
         updates = mkUpdates (Some newType)
                     (if decide (newType = MDistance) then distance shown else None)
                     (if decide (newType = MTime) then time shown else None)
                     None →
         handleMeasurementTypeChange weeks_ wi day ri shown newType s
         = handleUpdateRun weeks_ wi day ri updates s
         ∧ (newType = MTime → distance (applyUpdates updates run) = None)
         ∧ (newType = MDistance → time (applyUpdates updates run) = None)).
Proof.
  intros Hw Hrun.
  remember (handleUpdateRun weeks_ wi day ri updates s) as call eqn:Ecall.
  pose proof Ecall as Ecall0.
  unfold handleUpdateRun in Ecall.
  rewrite (Array_map_target _ wi) in Ecall by skip_tac.
  rewrite Hw in Ecall. rewrite decide_True in Ecall by done. run_M.
  rewrite Hrun in Ecall. cbn [mjoin option_join] in Ecall.
  eexists _, _. split; [exact Ecall|].
  unfold recalculateWeeklyTotalWith. cbn [heap days weeklyTotal].
  rewrite !lookup_total_insert_eq, getDay_setDay_eq.
  split; [done|]. split; [done|].
  split; [intros day' Hday; by apply getDay_setDay_ne|].
  split; [by rewrite weekReduce_weekSum|].
  split; [|split; [|split; [|split; [|split]]]].
  - intros Hm Hd. unfold applyUpdates. rewrite Hm, Hd. cbn.
    by destruct (u_time updates), (u_description updates).
  - intros Hm Ht. unfold applyUpdates. rewrite Hm, Ht. cbn.
    by destruct (u_distance updates), (u_description updates).
  - by intros ->.
  - intros Hm. unfold applyUpdates. rewrite Hm. cbn.
    by destruct (u_distance updates), (u_time updates), (u_description updates).
  - intros Hm. unfold applyUpdates. rewrite Hm. cbn.
    by destruct (u_distance updates), (u_time updates), (u_description updates).
  - intros shown newType Hu. split; [by rewrite Ecall0, Hu|]. subst updates.
    split; intros ->; unfold applyUpdates; cbn.
    + by destruct (time shown).
    + by destruct (distance shown).
Qed.

Lemma update_clears_opposite_field_witness :
  weeks2 !! 0%nat = Some (mkWeek 1 "2025-01-06" 0%nat 5%float)
  ∧ getDay (heap2 !!! 0%nat) Tue !! 0%nat = Some (Some easy5)
  ∧ ∃ w' s',
      handleUpdateRun weeks2 0 Tue 0 time30 (mkState heap2 [])
      = (Ok (<[0%nat := w']> weeks2), s')
      ∧ distance (applyUpdates time30 easy5) = None
      ∧ time (applyUpdates time30 easy5) = Some 30%float
      ∧ weeklyTotal w' = 0%float.
Proof.
  assert (weeks2 !! 0%nat = Some (mkWeek 1 "2025-01-06" 0%nat 5%float)) as Hw
    by reflexivity.
  assert (getDay (heap (mkState heap2 []) !!! days (mkWeek 1 "2025-01-06" 0%nat 5%float))
            Tue !! 0%nat = Some (Some easy5)) as Hrun
    by (vm_compute; reflexivity).
  split; [exact Hw|]. split; [exact Hrun|].
  destruct (update_clears_opposite_field (mkState heap2 []) weeks2 0
              (mkWeek 1 "2025-01-06" 0%nat 5%float) Tue 0 easy5 time30 Hw Hrun)
    as (w' & s' & E & _ & Hb & _ & Ht & _ & _ & Hscenario & _).
  exists w', s'. split; [exact E|].
  destruct (Hscenario eq_refl) as [H1 H2].
  split; [exact H1|]. split; [exact H2|].
  rewrite Ht. vm_compute in E. injection E as _ <-. vm_compute. reflexivity.
Defined.

(** C4 as stated fails in its last part: the total is rounded after the
    sum is taken, so it need not fall by 5.  In the consistent week with
    0.7, 1.4 and 1.4 on Monday and the 5-distance run on Tuesday the total
    is 9 (from 8.5); after the update it is 3 (from 3.4999999999999996),
    which is 6 lower.  The switch to time in the workout cell gives the
    same total. *)
Lemma update_total_not_lowered_by_five :
  totalOk heapSum5 weekSum5
  ∧ weeklyTotal weekSum5 = 9%float
  ∧ getDay (heapSum5 !!! days weekSum5) Tue !! 0%nat = Some (Some easy5)
  ∧ planAfter (handleUpdateRun [weekSum5] 0 Tue 0 time30) heapSum5
    = Ok [mkWeek 1 "2025-01-06"
            (mkDays [Some run07; Some run14; Some run14]
                    [Some (mkRun (Some "w1-tue-easy") Easy (Some MTime)
                                 None (Some 30%float) None None)]
                    [] [] [] [] [])
            3%float]
  ∧ (9 - 5)%float ≠ 3%float
  ∧ planAfter (handleMeasurementTypeChange [weekSum5] 0 Tue 0 easy5 MTime) heapSum5
    = Ok [mkWeek 1 "2025-01-06"
            (mkDays [Some run07; Some run14; Some run14]
                    [Some (mkRun (Some "w1-tue-easy") Easy (Some MTime)
                                 None None None None)]
                    [] [] [] [] [])
            3%float].
Proof.
  split; [by vm_compute|]. split; [by vm_compute|]. split; [by vm_compute|].
  split; [by vm_compute|]. split; [vm_compute; discriminate|]. by vm_compute.
Qed.

(** ** moveWorkout *)

(** C5: the code at the failing input.  Moving the only Monday workout of
    week 1 to the empty Friday of week 2 — by [moveWorkout] directly or by
    dropping it on the empty day — empties Monday and leaves a hole, not
    the workout, in Friday: the plan had one workout and has none.  With a
    second run behind it the addressed run is lost and the second one
    appears twice.  The move in the other direction, from week 2 back to
    week 1, carries the workout over. *)
Theorem moveWorkout_to_later_week_loses_workout :
  planAfter (moveWorkout weeksMon 0 Mon 0 1 Fri 0) heapMon
  = Ok [mkWeek 1 "2025-01-06" emptyDays 0%float;
        mkWeek 2 "2025-01-13" (mkDays [] [] [] [] [None] [] []) 0%float]
  ∧ planAfter (λ s, match handleDragEnd weeksMon (mkActive 0 Mon 0)
                             (Some (OverEmptyDay 1 Fri)) s with
                    | (Ok r, s') => (Ok (default weeksMon r), s')
                    | (Throw e, s') => (Throw e, s')
                    end) heapMon
    = planAfter (moveWorkout weeksMon 0 Mon 0 1 Fri 0) heapMon
  ∧ countWorkouts (view heapMon <$> weeksMon) = 1%nat
  ∧ (∀ ws', planAfter (moveWorkout weeksMon 0 Mon 0 1 Fri 0) heapMon = Ok ws' →
            countWorkouts ws' = 0%nat)
  ∧ planAfter (moveWorkout weeksMon2 0 Mon 0 1 Fri 0) heapMon2
    = Ok [mkWeek 1 "2025-01-06" (mkDays [Some long12] [] [] [] [] [] []) 12%float;
          mkWeek 2 "2025-01-13" (mkDays [] [] [] [] [Some long12] [] []) 12%float]
  ∧ planAfter (moveWorkout weeksLate 1 Mon 0 0 Fri 0) heapLate
    = Ok [mkWeek 1 "2025-01-06" (mkDays [] [] [] [] [Some easy4] [] []) 4%float;
          mkWeek 2 "2025-01-13" emptyDays 0%float].
Proof.
  repeat split; try (vm_compute; reflexivity).
  intros ws' E. vm_compute in E. injection E as <-. reflexivity.
Qed.

(** C6 (as amended).  A move inside one week runs [recalculateWeeklyTotal]
    twice: once on the buckets after the removal, and again on the buckets
    after the insertion.  The week it returns carries the second total,
    the one computed from the final buckets. *)
Theorem same_week_move_recomputes_twice
    (s : state) (weeks_ : list (Week loc)) (i : nat) (w : Week loc)
    (fd : Day) (fi : nat) (td : Day) (ti : nat) :
  weeks_ !! i = Some w →
  let d0 := heap s !!! days w in
  let moved := splice_removed fi (getDay d0 fd) in
  let d1 := setDay d0 fd (splice_remove fi (getDay d0 fd)) in
  let d2 := setDay d1 td (splice_insert ti moved (getDay d1 td)) in
  ∃ w' s',
    moveWorkout weeks_ i fd fi i td ti s = (Ok (<[i := w']> weeks_), s')
    ∧ days w' = days w
    ∧ heap s' !!! days w = d2
    ∧ trace s' = trace s ++ [Recalculated (Math_round (weekReduce d1));
                             Recalculated (Math_round (weekReduce d2))]
    ∧ weeklyTotal w' = Math_round (weekReduce d2).
Proof.
  intros Hw. cbv zeta. unfold moveWorkout.
  rewrite (Array_map_target _ i) by skip_tac.
  rewrite Hw. rewrite !decide_True by done. run_M.
  rewrite decide_True by done. cbv beta. run_M.
  eexists _, _. split; [reflexivity|].
  unfold recalculateWeeklyTotalWith. cbn [heap trace days weeklyTotal].
  rewrite !lookup_total_insert_eq.
  split; [done|]. split; [done|]. split; [|done].
  by rewrite <- app_assoc.
Qed.

Lemma same_week_move_recomputes_twice_witness :
  weeks2 !! 0%nat = Some (mkWeek 1 "2025-01-06" 0%nat 5%float)
  ∧ ∃ w' s',
      moveWorkout weeks2 0 Tue 0 0 Fri 0 (mkState heap2 [])
      = (Ok (<[0%nat := w']> weeks2), s')
      ∧ trace s' = [Recalculated 0%float; Recalculated 5%float]
      ∧ weeklyTotal w' = 5%float.
Proof.
  assert (weeks2 !! 0%nat = Some (mkWeek 1 "2025-01-06" 0%nat 5%float)) as Hw
    by reflexivity.
  split; [exact Hw|].
  destruct (same_week_move_recomputes_twice (mkState heap2 []) weeks2 0 _
              Tue 0 Fri 0 Hw) as (w' & s' & E & _ & _ & Htrace & Htotal).
  exists w', s'. split; [exact E|]. split.
  - rewrite Htrace. vm_compute. reflexivity.
  - rewrite Htotal. vm_compute. reflexivity.
Defined.

(** C6 as stated fails: moving the Tuesday run of week 1 to Friday of the
    same week recomputes the total twice, first to 0 from the buckets
    without the run, then to 5. *)
Lemma same_week_move_not_recomputed_once :
  (moveWorkout weeks2 0 Tue 0 0 Fri 0 (mkState heap2 [])).1
  = Ok [mkWeek 1 "2025-01-06" 0%nat 5%float; mkWeek 2 "2025-01-13" 1%nat 0%float]
  ∧ trace (moveWorkout weeks2 0 Tue 0 0 Fri 0 (mkState heap2 [])).2
    = [Recalculated 0%float; Recalculated 5%float]
  ∧ ¬ recomputesOnce (moveWorkout weeks2 0 Tue 0 0 Fri 0) (mkState heap2 []).
Proof.
  split; [vm_compute; reflexivity|]. split; [vm_compute; reflexivity|].
  intros (r & s' & total & E & Htrace).
  assert (trace (moveWorkout weeks2 0 Tue 0 0 Fri 0 (mkState heap2 [])).2
          = [Recalculated 0%float; Recalculated 5%float]) as Ht by (vm_compute; reflexivity).
  rewrite E in Ht. cbn [snd] in Ht. rewrite Ht in Htrace. discriminate.
Qed.

(** ** The schema wrapper *)

Lemma reviseAll_source_stable (schema : TrainingPlanSchema)
    (edits : list (string * TrainingPlan)) :
  source schema ≠ generated → source (reviseAll schema edits) = source schema.
Proof.
  revert schema. induction edits as [|e edits IH]; intros schema Hs; [done|].
  cbn [reviseAll foldl]. fold (reviseAll (updateSchemaAfterEdit e.1 schema e.2) edits).
  rewrite IH; cbn; by rewrite decide_False.
Qed.

(** C9.  [updateSchemaAfterEdit] takes [source] from generated to edited
    and leaves edited and imported as they are; after one edit no further
    sequence of edits changes [source], so it never is generated again. *)
Theorem source_is_monotonic
    (now : string) (schema : TrainingPlanSchema) (plan_ : TrainingPlan)
    (edits : list (string * TrainingPlan)) :
  source (updateSchemaAfterEdit now schema plan_)
  = match source schema with
    | generated => edited
    | imported => imported
    | edited => edited
    end
  ∧ source (reviseAll (updateSchemaAfterEdit now schema plan_) edits)
    = source (updateSchemaAfterEdit now schema plan_)
  ∧ source (reviseAll (updateSchemaAfterEdit now schema plan_) edits) ≠ generated.
Proof.
  assert (source (updateSchemaAfterEdit now schema plan_) ≠ generated) as Hne.
  { cbn. by destruct (source schema). }
  split; [cbn; by destruct (source schema)|].
  rewrite reviseAll_source_stable by done. done.
Qed.

(** ** The import *)

Section string_facts.
Lemma string_append_assoc (a b c : string) : (a +:+ b) +:+ c = a +:+ (b +:+ c).
Proof.
  induction a as [|x a IH]; [done|].
  change (String x ((a +:+ b) +:+ c) = String x (a +:+ (b +:+ c))).
  by rewrite IH.
Qed.

Lemma string_append_nil_r (a : string) : a +:+ EmptyString = a.
Proof.
  induction a as [|x a IH]; [done|].
  change (String x (a +:+ EmptyString) = String x a). by rewrite IH.
Qed.

Lemma contains_refl (a : string) : contains a a.
Proof. exists EmptyString, EmptyString. cbn. by rewrite string_append_nil_r. Qed.

Lemma contains_app_l (a msg part : string) :
  contains msg part → contains (a +:+ msg) part.
Proof.
  intros (pre & post & ->). exists (a +:+ pre), post.
  by rewrite string_append_assoc.
Qed.

Lemma contains_app_r (b msg part : string) :
  contains msg part → contains (msg +:+ b) part.
Proof.
  intros (pre & post & ->). exists pre, (post +:+ b).
  by rewrite !string_append_assoc.
Qed.

Lemma join_contains (sep : string) (l : list string) (x : string) :
  x ∈ l → contains (join sep l) x.
Proof.
  unfold join. induction l as [|y l IH]; intros Hx; [by apply elem_of_nil in Hx|].
  apply elem_of_cons in Hx as [->|Hx].
  - destruct l as [|z l]; cbn [String.concat].
    + apply contains_refl.
    + apply contains_app_r, contains_refl.
  - destruct l as [|z l]; [by apply elem_of_nil in Hx|].
    cbn [String.concat]. apply contains_app_l, contains_app_l. by apply IH.
Qed.
End string_facts.

Lemma invalidDayKeys_elem (keys : list string) (k : string) :
  k ∈ keys → k ∉ validDays → k ∈ invalidDayKeys keys.
Proof.
  intros Hk Hbad. unfold invalidDayKeys. apply list_elem_of_filter. split; [|done].
  unfold includes. intros H. apply Hbad. by apply bool_decide_unpack in H.
Qed.

Lemma weekErrors_dayKey (w : RawWeek) (k : string) :
  k ∈ dayKeys w → k ∉ validDays →
  dayKeyError (rw_week w) (invalidDayKeys (dayKeys w)) ∈ weekErrors w.
Proof.
  intros Hk Hbad. unfold weekErrors. fold (dayKeys w).
  pose proof (invalidDayKeys_elem _ _ Hk Hbad) as Hin.
  destruct (invalidDayKeys (dayKeys w)) as [|x l] eqn:E; [by apply elem_of_nil in Hin|].
  rewrite decide_True by (cbn; lia). apply elem_of_app. left. apply list_elem_of_here.
Qed.

Lemma weekErrors_day (w : RawWeek) (k e : string) :
  k ∈ dayKeys w → e ∈ dayErrors w (default [] (rw_days w)) k → e ∈ weekErrors w.
Proof.
  intros Hk He. unfold weekErrors. fold (dayKeys w).
  apply elem_of_app. right. apply list_elem_of_join.
  eexists. split; [exact He|]. by apply (list_elem_of_fmap_2 (dayErrors w _)).
Qed.

Lemma weekErrors_of_fault (w : RawWeek) :
  hasInvalidDayKey w ∨ hasNonArrayBucket w ∨ hasInvalidRunType w →
  ∃ e, e ∈ weekErrors w.
Proof.
  intros [(k & Hk & Hbad)|[(k & Hk & Hl)|(k & runs & j & r & Hk & Hl & Hr & Hty)]].
  - eexists. by eapply weekErrors_dayKey.
  - eexists. apply (weekErrors_day w k); [done|].
    unfold dayErrors. rewrite Hl. apply list_elem_of_here.
  - exists (runTypeError (rw_week w) k j (rr_type r)).
    apply (weekErrors_day w k); [done|].
    unfold dayErrors. rewrite Hl. unfold runErrors.
    apply list_elem_of_join.
    exists [runTypeError (rw_week w) k j (rr_type r)].
    split; [apply list_elem_of_here|].
    apply elem_of_lookup_imap. exists j, (Some r). split; [|done].
    unfold includes. by rewrite bool_decide_eq_false_2.
Qed.

Lemma allWeekErrors_elem (ws : list RawWeek) (w : RawWeek) (e : string) :
  w ∈ ws → e ∈ weekErrors w → e ∈ allWeekErrors ws.
Proof.
  intros Hw He. unfold allWeekErrors. apply list_elem_of_join.
  eexists. split; [exact He|]. by apply (list_elem_of_fmap_2 weekErrors).
Qed.

Lemma validationErrors_null (ws : list (option RawWeek)) :
  None ∈ ws → validationErrors ws = Throw nullWeekError.
Proof.
  induction ws as [|[w|] ws IH]; intros H.
  - by apply elem_of_nil in H.
  - apply elem_of_cons in H as [H|H]; [done|].
    cbn [validationErrors]. by rewrite IH.
  - reflexivity.
Qed.

Lemma validationErrors_objects (ws : list RawWeek) :
  validationErrors (Some <$> ws) = Ok (allWeekErrors ws).
Proof.
  induction ws as [|w ws IH]; [reflexivity|].
  change (validationErrors (Some w :: (Some <$> ws))
          = Ok (weekErrors w ++ allWeekErrors ws)).
  cbn [validationErrors]. by rewrite IH.
Qed.

Lemma weeks_null_or_objects (ws : list (option RawWeek)) :
  None ∈ ws ∨ ∃ l, ws = Some <$> l.
Proof.
  induction ws as [|[w|] ws IH].
  - right. by exists [].
  - destruct IH as [IH|[l ->]].
    + left. by apply list_elem_of_further.
    + right. by exists (w :: l).
  - left. apply list_elem_of_here.
Qed.

Lemma validatePlan_throws (p : RawPlan) (ws : list RawWeek) (e : string) :
  rp_weeks p = WeeksArray (Some <$> ws) → e ∈ allWeekErrors ws →
  validatePlan p
  = Throw ("Invalid plan structure: " +:+ join "; " (allWeekErrors ws)).
Proof.
  intros Hp He. unfold validatePlan. rewrite Hp, validationErrors_objects.
  destruct (allWeekErrors ws) as [|x l]; [by apply elem_of_nil in He|].
  by rewrite decide_True by (cbn; lia).
Qed.

Lemma validatePlan_null_week (p : RawPlan) (ws : list (option RawWeek)) :
  rp_weeks p = WeeksArray ws → None ∈ ws → validatePlan p = Throw nullWeekError.
Proof.
  intros Hp Hnull. unfold validatePlan. by rewrite Hp, validationErrors_null.
Qed.

Lemma failsStructure_throws (p : RawPlan) :
  failsStructure p → ∃ e, validatePlan p = Throw e.
Proof.
  intros [Hp|[Hp|(ws & Hp & [Hnull|(w & Hw & Hfault)])]].
  - unfold validatePlan. rewrite Hp. eauto.
  - unfold validatePlan. rewrite Hp. eauto.
  - eexists. by eapply validatePlan_null_week.
  - destruct (weeks_null_or_objects ws) as [Hnull|[l ->]].
    + eexists. by eapply validatePlan_null_week.
    + apply list_elem_of_fmap in Hw as (w' & [= <-] & Hw).
      destruct (weekErrors_of_fault w Hfault) as [e He].
      eexists. eapply validatePlan_throws; [done|]. by eapply allWeekErrors_elem.
Qed.

Lemma importPlanSchema_throws (s : Session) (incoming : RawSchema) (p : RawPlan) :
  r_plan incoming = Some p → failsStructure p →
  ∃ e, importPlanSchema s incoming = mkImportResult s [] (Throw e).
Proof.
  intros Hp Hfail. destruct (failsStructure_throws p Hfail) as [e He].
  exists e. unfold importPlanSchema. by rewrite Hp, He.
Qed.

(** C2.  A file whose text does not parse, and a parsed payload with a
    structural fault — no settings, no plan, no weeks, weeks that are not
    an array, a [null] week, a day key outside Mon..Sun, a truthy bucket
    that is not an array, a run of unknown type — are rejected by the file
    import: every slot of the session (form values, plan, schema, step) is
    as it was, an error is shown and no success.  The schema validator is
    the one of planSchema.ts, of which only this is used: it accepts no
    payload without [settings] or without [plan]. *)
Theorem failed_validation_leaves_session
    (validateSchema : RawSchema → bool * option string)
    (s : Session) (parsed : outcome RawSchema) :
  requiresSettingsAndPlan validateSchema →
  ((∃ e, parsed = Throw e)
   ∨ ∃ incoming, parsed = Ok incoming ∧ payloadFaulty incoming) →
  (handleImportJSON validateSchema s parsed).1 = s
  ∧ is_Some (importError (handleImportJSON validateSchema s parsed).2)
  ∧ importSuccess (handleImportJSON validateSchema s parsed).2 = false.
Proof.
  intros Hreq [[e ->]|(incoming & -> & Hfault)]; [by cbn; eauto|].
  unfold handleImportJSON. cbv zeta.
  destruct ((validateSchema incoming).1) eqn:Ev; [|by cbn; eauto].
  destruct (Hreq incoming Ev) as [[st Hst] [p Hp]].
  destruct Hfault as [Hno|[Hno|(p' & Hp' & Hfail)]]; [congruence..|].
  destruct (importPlanSchema_throws s incoming p' Hp' Hfail) as [e ->].
  by cbn; eauto.
Qed.

Lemma requiredKeysOnly_requires : requiresSettingsAndPlan requiredKeysOnly.
Proof.
  intros p. unfold requiredKeysOnly.
  destruct (r_settings p), (r_plan p); cbn; intros H; try discriminate H;
    split; eexists; reflexivity.
Defined.

Lemma planWeds_fails : failsStructure planWeds.
Proof.
  right. right. exists [Some weekWeds; Some weekThurs].
  split; [reflexivity|]. right. exists weekWeds.
  split; [apply list_elem_of_here|].
  left. exists "Weds". split.
  - apply (bool_decide_unpack ("Weds" ∈ dayKeys weekWeds)). vm_compute. exact I.
  - apply (bool_decide_unpack ("Weds" ∉ validDays)). vm_compute. exact I.
Defined.

Lemma failed_validation_leaves_session_witness :
  requiresSettingsAndPlan requiredKeysOnly
  ∧ payloadFaulty incomingWeds
  ∧ (handleImportJSON requiredKeysOnly session0 (Ok incomingWeds)).1 = session0
  ∧ is_Some (importError (handleImportJSON requiredKeysOnly session0 (Ok incomingWeds)).2)
  ∧ importSuccess (handleImportJSON requiredKeysOnly session0 (Ok incomingWeds)).2
    = false.
Proof.
  assert (payloadFaulty incomingWeds) as Hfault.
  { right. right. exists planWeds. split; [reflexivity|exact planWeds_fails]. }
  split; [exact requiredKeysOnly_requires|]. split; [exact Hfault|].
  apply (failed_validation_leaves_session requiredKeysOnly session0
           (Ok incomingWeds) requiredKeysOnly_requires).
  right. exists incomingWeds. split; [reflexivity|exact Hfault].
Defined.

(** What the file import shows for the payloads of the examples: the
    validator's text for a payload without plan or settings, the message of
    [importPlanSchema] for a bad day key and for a [null] week; a [null]
    bucket is no fault. *)
Lemma file_import_examples :
  handleImportJSON requiredKeysOnly session0 (Ok incomingNoPlan)
  = (session0, mkImportForm (Some "settings: Required; plan: Required") false)
  ∧ handleImportJSON requiredKeysOnly session0 (Ok incomingNoSettings)
    = (session0, mkImportForm (Some "settings: Required; plan: Required") false)
  ∧ handleImportJSON requiredKeysOnly session0
      (Ok (mkRawSchema (Some "1.0.0") (Some "edited") (Some settingsGood)
             (Some planNullWeek)))
    = (session0, mkImportForm (Some nullWeekError) false)
  ∧ validatePlan planNullBucket = Ok tt.
Proof. repeat split; vm_compute; reflexivity. Qed.

(** X25.  [importPlanSchema] called on a payload whose weeks are all
    objects and one of which has a day key outside Mon..Sun: the call
    throws and leaves the session as it was.  The message is one report
    joining the errors of all weeks; it holds the entry of that week, which
    lists the week's invalid keys — the key in question among them — and
    ends with the seven valid keys; and every error of every week is part
    of the same message. *)
Theorem invalid_day_key_is_reported
    (s : Session) (incoming : RawSchema) (p : RawPlan)
    (ws : list RawWeek) (w : RawWeek) (k : string) :
  r_plan incoming = Some p → rp_weeks p = WeeksArray (Some <$> ws) →
  w ∈ ws → k ∈ dayKeys w → k ∉ validDays →
  let message := "Invalid plan structure: " +:+ join "; " (allWeekErrors ws) in
  let entry := dayKeyError (rw_week w) (invalidDayKeys (dayKeys w)) in
  importPlanSchema s incoming = mkImportResult s [] (Throw message)
  ∧ contains message entry
  ∧ entry = "Week " +:+ pretty (rw_week w) +:+ ": Invalid day key(s): "
            +:+ join ", " (invalidDayKeys (dayKeys w))
            +:+ ". Expected one of: Mon, Tue, Wed, Thu, Fri, Sat, Sun"
  ∧ k ∈ invalidDayKeys (dayKeys w)
  ∧ contains entry k
  ∧ ∀ w' e, w' ∈ ws → e ∈ weekErrors w' → contains message e.
Proof.
  intros Hp Hws Hw Hk Hbad message entry.
  pose proof (weekErrors_dayKey w k Hk Hbad) as Hentry.
  pose proof (allWeekErrors_elem ws w _ Hw Hentry) as Hin.
  pose proof (invalidDayKeys_elem _ _ Hk Hbad) as Hkin.
  split; [|split; [|split; [|split; [|split]]]].
  - unfold importPlanSchema. rewrite Hp.
    by rewrite (validatePlan_throws p ws _ Hws Hin).
  - apply contains_app_l, join_contains, Hin.
  - reflexivity.
  - exact Hkin.
  - unfold entry, dayKeyError.
    do 3 apply contains_app_l. apply contains_app_r. by apply join_contains.
  - intros w' e Hw' He. apply contains_app_l, join_contains.
    by eapply allWeekErrors_elem.
Qed.

Lemma invalid_day_key_is_reported_witness :
  r_plan incomingWeds = Some planWeds
  ∧ rp_weeks planWeds = WeeksArray (Some <$> [weekWeds; weekThurs])
  ∧ weekWeds ∈ [weekWeds; weekThurs]
  ∧ "Weds" ∈ dayKeys weekWeds
  ∧ ("Weds" ∉ validDays)
  ∧ importPlanSchema session0 incomingWeds
    = mkImportResult session0 []
        (Throw ("Invalid plan structure: "
                +:+ "Week 1: Invalid day key(s): Weds. "
                +:+ "Expected one of: Mon, Tue, Wed, Thu, Fri, Sat, Sun; "
                +:+ "Week 2: Invalid day key(s): Thurs. "
                +:+ "Expected one of: Mon, Tue, Wed, Thu, Fri, Sat, Sun; "
                +:+ "Week 2, Thurs, run 1: Invalid run type " +:+ dquote
                +:+ "Jog" +:+ dquote +:+ ". "
                +:+ "Expected one of: Rest, Easy, Long, Interval, Tempo, Race, Strength")).
Proof.
  assert ("Weds" ∈ dayKeys weekWeds) as Hk
    by (apply (bool_decide_unpack ("Weds" ∈ dayKeys weekWeds)); vm_compute; exact I).
  assert ("Weds" ∉ validDays) as Hbad
    by (apply (bool_decide_unpack ("Weds" ∉ validDays)); vm_compute; exact I).
  assert (weekWeds ∈ [weekWeds; weekThurs]) as Hw by apply list_elem_of_here.
  split; [reflexivity|]. split; [reflexivity|]. split; [exact Hw|].
  split; [exact Hk|]. split; [exact Hbad|].
  destruct (invalid_day_key_is_reported session0 incomingWeds planWeds
              [weekWeds; weekThurs] weekWeds "Weds" eq_refl eq_refl Hw Hk Hbad)
    as (E & _).
  rewrite E. vm_compute. reflexivity.
Defined.

(** ** Worked numbers

    [Math.round] and the conversions on doubles: ties go up, a result 0
    keeps the sign, [NaN] and the infinities are returned, and a sum of
    doubles is rounded at every step (0.7 + 1.4 + 1.4 is
    3.4999999999999996, and 4 when taken as 1.4 + 1.4 + 0.7). *)
Lemma numeric_examples :
  Math_round 2.5 = 3%float
  ∧ Math_round (-2.5) = (-2)%float
  ∧ Math_round (-0.2) = (-0)%float
  ∧ Math_round 0.49999999999999994 = 0%float
  ∧ Math_round 4503599627370497 = 4503599627370497%float
  ∧ Math_round nan = nan
  ∧ Math_round infinity = infinity
  ∧ round1 (kmToMiles 5.23) = 3.2%float
  ∧ round1 (milesToKm 3.2) = 5.1%float
  ∧ Math_round (kmToMiles 4) = 2%float
  ∧ round1 (kmToMiles 4) = 2.5%float
  ∧ round1 (kmToMiles 1.1) = 0.7%float
  ∧ round1 (kmToMiles 2.3) = 1.4%float
  ∧ sumFrom0 [0.7; 1.4; 1.4]%float = 3.4999999999999996%float
  ∧ Math_round (sumFrom0 [0.7; 1.4; 1.4]%float) = 3%float
  ∧ Math_round (sumFrom0 [1.4; 1.4; 0.7]%float) = 4%float
  ∧ truthy_number (Some nan) = false
  ∧ truthy_number (Some (-0)%float) = false.
Proof. repeat split; vm_compute; reflexivity. Qed.

(** ** A callback that acts on two indices: the cross-week move *)

Lemma mapM_from_two {A} (f : A → nat → M A) (k1 k2 : nat) :
  (k1 < k2)%nat →
  ∀ (l : list A) (i0 : nat) (s : state),
    (i0 ≤ k1)%nat →
    (∀ a j s, (i0 ≤ j)%nat → j ≠ k1 → j ≠ k2 → f a j s = (Ok a, s)) →
    mapM_from f i0 l s
    = match l !! (k1 - i0)%nat with
      | Some a1 =>
          match f a1 k1 s with
          | (Ok a1', s1) =>
              match l !! (k2 - i0)%nat with
              | Some a2 =>
                  match f a2 k2 s1 with
                  | (Ok a2', s2) =>
                      (Ok (<[(k2 - i0)%nat := a2']> (<[(k1 - i0)%nat := a1']> l)), s2)
                  | (Throw e, s2) => (Throw e, s2)
                  end
              | None => (Ok (<[(k1 - i0)%nat := a1']> l), s1)
              end
          | (Throw e, s1) => (Throw e, s1)
          end
      | None => (Ok l, s)
      end.
Proof.
  intros Hlt. induction l as [|a l IH]; intros i0 s Hle Hskip; [done|].
  cbn [mapM_from]. unfold mbind, M_bind.
  destruct (decide (i0 = k1)) as [->|Hne].
  - rewrite Nat.sub_diag. cbn [lookup list_lookup].
    destruct (f a k1 s) as [[a1'|e] s1]; [|done].
    rewrite (mapM_from_target f k2) by (intros; apply Hskip; lia).
    rewrite decide_True by lia.
    replace (k2 - k1)%nat with (S (k2 - S k1)) by lia.
    cbn [lookup list_lookup].
    destruct (l !! (k2 - S k1)%nat) as [a2|]; [|done].
    by destruct (f a2 k2 s1) as [[a2'|e] s2].
  - rewrite (Hskip a i0 s) by lia.
    rewrite IH by (lia || (intros; apply Hskip; lia)).
    replace (k1 - i0)%nat with (S (k1 - S i0)) by lia.
    replace (k2 - i0)%nat with (S (k2 - S i0)) by lia.
    cbn [lookup list_lookup].
    destruct (l !! (k1 - S i0)%nat) as [a1|]; [|done].
    destruct (f a1 k1 s) as [[a1'|e] s1]; [|done].
    destruct (l !! (k2 - S i0)%nat) as [a2|]; [|done].
    by destruct (f a2 k2 s1) as [[a2'|e] s2].
Qed.

Lemma fmap_days_insert (l : list (Week loc)) (k : nat) (w w' : Week loc) :
  l !! k = Some w → days w' = days w → days <$> <[k := w']> l = days <$> l.
Proof.
  intros Hk Hd. rewrite list_fmap_insert, Hd.
  apply list_insert_id. by rewrite list_lookup_fmap, Hk.
Qed.

(** What a move between two different weeks does to the two [days]
    objects.  The source bucket loses the addressed position.  The
    destination receives the element found at that position of the source
    bucket at the time the destination week is visited: for a move to an
    earlier week that is the addressed workout; for a move to a later week
    the source bucket is already spliced, and the element is the one that
    followed the addressed workout, or [undefined]. *)
Lemma moveWorkout_cross_week
    (s : state) (weeks_ : list (Week loc)) (fw tw : nat) (wf wt : Week loc)
    (fd : Day) (fi : nat) (td : Day) (ti : nat) :
  weeks_ !! fw = Some wf → weeks_ !! tw = Some wt →
  fw ≠ tw → days wf ≠ days wt →
  let dF := heap s !!! days wf in
  let dT := heap s !!! days wt in
  let runs := getDay dF fd in
  let carried :=
    if decide (fw < tw)%nat then mjoin (splice_remove fi runs !! fi)
    else mjoin (runs !! fi) in
  ∃ ws' s',
    moveWorkout weeks_ fw fd fi tw td ti s = (Ok ws', s')
    ∧ days <$> ws' = days <$> weeks_
    ∧ heap s' !!! days wf = setDay dF fd (splice_remove fi runs)
    ∧ heap s' !!! days wt
      = setDay dT td (splice_insert ti carried (getDay dT td))
    ∧ ∀ l, l ≠ days wf → l ≠ days wt → heap s' !!! l = heap s !!! l.
Proof.
  intros Hf Ht Hne Hloc. cbv zeta. unfold moveWorkout, Array_map.
  destruct (decide (fw < tw)%nat) as [Hlt|Hge].
  - rewrite (mapM_from_two _ fw tw Hlt); [|lia|].
    2:{ intros a j s0 _ H1 H2. cbv beta zeta.
        rewrite decide_False by done. by rewrite decide_False by tauto. }
    rewrite !Nat.sub_0_r, Hf, Ht. cbv beta zeta.
    rewrite (decide_True (P := fw = fw)) by done.
    rewrite (decide_False (P := tw = fw)) by done.
    rewrite (decide_True (P := tw = tw ∧ fw ≠ tw)) by done.
    run_M. rewrite (decide_False (P := fw = tw)) by done. run_M.
    eexists _, _. split; [reflexivity|]. cbn [heap].
    split; [|split; [|split]].
    + rewrite (fmap_days_insert _ tw wt);
        [by apply (fmap_days_insert _ fw wf)
        |by rewrite list_lookup_insert_ne|done].
    + rewrite lookup_total_insert_ne by done. by rewrite lookup_total_insert_eq.
    + rewrite lookup_total_insert_eq.
      rewrite !lookup_total_insert_eq, getDay_setDay_eq.
      by rewrite lookup_total_insert_ne by done.
    + intros l H1 H2. by rewrite !lookup_total_insert_ne.
  - assert (tw < fw)%nat as Hlt by lia.
    rewrite (mapM_from_two _ tw fw Hlt); [|lia|].
    2:{ intros a j s0 _ H1 H2. cbv beta zeta.
        rewrite decide_False by done. by rewrite decide_False by tauto. }
    rewrite !Nat.sub_0_r, Hf, Ht. cbv beta zeta.
    rewrite (decide_True (P := fw = fw)) by done.
    rewrite (decide_False (P := tw = fw)) by done.
    rewrite (decide_True (P := tw = tw ∧ fw ≠ tw)) by done.
    run_M. rewrite (decide_False (P := fw = tw)) by done. run_M.
    eexists _, _. split; [reflexivity|]. cbn [heap].
    split; [|split; [|split]].
    + rewrite (fmap_days_insert _ fw wf);
        [by apply (fmap_days_insert _ tw wt)
        |by rewrite list_lookup_insert_ne|done].
    + rewrite lookup_total_insert_eq.
      by rewrite lookup_total_insert_ne by done.
    + rewrite lookup_total_insert_ne by done. by rewrite lookup_total_insert_eq.
    + intros l H1 H2. by rewrite !lookup_total_insert_ne.
Qed.

(** A move inside one week, as a change of the week's [days] object. *)
Lemma moveWorkout_same_week
    (s : state) (weeks_ : list (Week loc)) (i : nat) (w : Week loc)
    (fd : Day) (fi : nat) (td : Day) (ti : nat) :
  weeks_ !! i = Some w →
  let d0 := heap s !!! days w in
  let d1 := setDay d0 fd (splice_remove fi (getDay d0 fd)) in
  ∃ ws' s',
    moveWorkout weeks_ i fd fi i td ti s = (Ok ws', s')
    ∧ days <$> ws' = days <$> weeks_
    ∧ heap s' !!! days w
      = setDay d1 td (splice_insert ti (splice_removed fi (getDay d0 fd))
                                    (getDay d1 td))
    ∧ ∀ l, l ≠ days w → heap s' !!! l = heap s !!! l.
Proof.
  intros Hw. cbv zeta. unfold moveWorkout.
  rewrite (Array_map_target _ i) by skip_tac.
  rewrite Hw. rewrite !decide_True by done. run_M.
  rewrite decide_True by done. cbv beta. run_M.
  eexists _, _. split; [reflexivity|]. cbn [heap].
  split; [by apply (fmap_days_insert _ i w)|]. split.
  - by rewrite !lookup_total_insert_eq.
  - intros l Hl. by rewrite !lookup_total_insert_ne.
Qed.

(** ** Calls that address nothing *)

Lemma splice_remove_past_end (i : nat) (runs : Bucket) :
  (length runs ≤ i)%nat → splice_remove i runs = runs.
Proof.
  intros Hi. unfold splice_remove. rewrite delete_take_drop.
  rewrite take_ge by lia. rewrite drop_ge by lia. apply app_nil_r.
Qed.

Lemma splice_removed_past_end (i : nat) (runs : Bucket) :
  (length runs ≤ i)%nat → splice_removed i runs = None.
Proof.
  intros Hi. unfold splice_removed. by rewrite (lookup_ge_None_2 runs i).
Qed.

(** C3 (as amended).  The handlers check none of their indices.  On a
    plan whose weeks hold all seven day buckets, a call with a week or a
    workout index that addresses nothing does this:
    - With a week index past the end, addWorkout, removeWorkout,
      updateWorkout, the nickname edit and reorderWithinDay return the
      [weeks] array as it is and touch nothing.
    - With a workout index that addresses no workout, updateWorkout and
      the nickname edit return the array as it is; removeWorkout past the
      end of the bucket leaves every bucket as it is and only recomputes
      the week's total; reorderWithinDay, dragging from a position past the
      end, inserts an [undefined] entry at the drop position.
    - [moveWorkout] with a source week past the end returns the array as
      it is when the destination week does not exist either, and stops
      with a [TypeError] (reading [days] of [undefined]) when it does.
      With an existing source week and a destination week past the end the
      addressed entry is removed and inserted nowhere.  From a position
      past the end of the source bucket, inside one week or between two
      weeks, it leaves the source bucket as it is and inserts an
      [undefined] entry at the destination.  A destination index past the
      end of the bucket appends. *)
Theorem unaddressed_calls_are_silent (s : state) (weeks_ : list (Week loc)) :
  (∀ wi, (length weeks_ ≤ wi)%nat →
     (∀ day newId workout,
        handleAddRun weeks_ wi day newId workout s = (Ok weeks_, s))
     ∧ (∀ day ri, handleRemoveRun weeks_ wi day ri s = (Ok weeks_, s))
     ∧ (∀ day ri updates,
          handleUpdateRun weeks_ wi day ri updates s = (Ok weeks_, s))
     ∧ (∀ day ri nick,
          handleUpdateNickname weeks_ wi day ri nick s = (Ok weeks_, s))
     ∧ (∀ day i j, reorderWithinDay weeks_ wi day i j s = (Ok weeks_, s)))
  ∧ (∀ wi w day ri,
       weeks_ !! wi = Some w →
       mjoin (getDay (heap s !!! days w) day !! ri) = None →
       (∀ updates, handleUpdateRun weeks_ wi day ri updates s = (Ok weeks_, s))
       ∧ (∀ nick, handleUpdateNickname weeks_ wi day ri nick s = (Ok weeks_, s)))
  ∧ (∀ wi w day ri,
       weeks_ !! wi = Some w →
       (length (getDay (heap s !!! days w) day) ≤ ri)%nat →
       ∃ s', handleRemoveRun weeks_ wi day ri s
             = (Ok (<[wi := recalculateWeeklyTotalWith (λ l, heap s !!! l) w]> weeks_),
                s')
             ∧ ∀ l, heap s' !!! l = heap s !!! l)
  ∧ (∀ wi w day i j,
       weeks_ !! wi = Some w →
       (length (getDay (heap s !!! days w) day) ≤ i)%nat →
       ∃ s', reorderWithinDay weeks_ wi day i j s = (Ok weeks_, s')
             ∧ heap s' !!! days w
               = setDay (heap s !!! days w) day
                   (splice_insert j None (getDay (heap s !!! days w) day))
             ∧ ∀ l, l ≠ days w → heap s' !!! l = heap s !!! l)
  ∧ (∀ fw fd fi tw td ti,
       (length weeks_ ≤ fw)%nat → (length weeks_ ≤ tw)%nat →
       moveWorkout weeks_ fw fd fi tw td ti s = (Ok weeks_, s))
  ∧ (∀ fw fd fi tw td ti,
       (length weeks_ ≤ fw)%nat → (tw < length weeks_)%nat →
       moveWorkout weeks_ fw fd fi tw td ti s
       = (Throw "TypeError: Cannot read properties of undefined (reading 'days')",
          s))
  ∧ (∀ fw wf fd fi tw td ti,
       weeks_ !! fw = Some wf → (length weeks_ ≤ tw)%nat →
       ∃ ws' s',
         moveWorkout weeks_ fw fd fi tw td ti s = (Ok ws', s')
         ∧ days <$> ws' = days <$> weeks_
         ∧ heap s' !!! days wf
           = setDay (heap s !!! days wf) fd
               (splice_remove fi (getDay (heap s !!! days wf) fd))
         ∧ ∀ l, l ≠ days wf → heap s' !!! l = heap s !!! l)
  ∧ (∀ wi w fd fi td ti,
       weeks_ !! wi = Some w →
       (length (getDay (heap s !!! days w) fd) ≤ fi)%nat →
       ∃ ws' s',
         moveWorkout weeks_ wi fd fi wi td ti s = (Ok ws', s')
         ∧ days <$> ws' = days <$> weeks_
         ∧ heap s' !!! days w
           = setDay (heap s !!! days w) td
               (splice_insert ti None (getDay (heap s !!! days w) td))
         ∧ ∀ l, l ≠ days w → heap s' !!! l = heap s !!! l)
  ∧ (∀ ti x (runs : Bucket),
       (length runs ≤ ti)%nat → splice_insert ti x runs = runs ++ [x])
  ∧ (∀ fw wf tw wt fd fi td ti,
       weeks_ !! fw = Some wf → weeks_ !! tw = Some wt →
       fw ≠ tw → days wf ≠ days wt →
       (length (getDay (heap s !!! days wf) fd) ≤ fi)%nat →
       ∃ ws' s',
         moveWorkout weeks_ fw fd fi tw td ti s = (Ok ws', s')
         ∧ days <$> ws' = days <$> weeks_
         ∧ heap s' !!! days wf = heap s !!! days wf
         ∧ heap s' !!! days wt
           = setDay (heap s !!! days wt) td
               (splice_insert ti None (getDay (heap s !!! days wt) td))
         ∧ ∀ l, l ≠ days wf → l ≠ days wt → heap s' !!! l = heap s !!! l).
Proof.
  split; [|split; [|split; [|split; [|split; [|split; [|split; [|split; [|split]]]]]]]].
  - intros wi Hwi. apply lookup_ge_None in Hwi.
    repeat split; intros.
    + unfold handleAddRun. rewrite (Array_map_target _ wi) by skip_tac. by rewrite Hwi.
    + unfold handleRemoveRun. rewrite (Array_map_target _ wi) by skip_tac. by rewrite Hwi.
    + unfold handleUpdateRun. rewrite (Array_map_target _ wi) by skip_tac. by rewrite Hwi.
    + unfold handleUpdateNickname. rewrite (Array_map_target _ wi) by skip_tac.
      by rewrite Hwi.
    + unfold reorderWithinDay. rewrite (Array_map_target _ wi) by skip_tac. by rewrite Hwi.
  - intros wi w day ri Hw Hnone. split.
    + intros updates. unfold handleUpdateRun.
      rewrite (Array_map_target _ wi) by skip_tac.
      rewrite Hw. rewrite decide_True by done. run_M. rewrite Hnone.
      by rewrite list_insert_id.
    + intros nick. unfold handleUpdateNickname.
      rewrite (Array_map_target _ wi) by skip_tac.
      rewrite Hw. rewrite decide_True by done. run_M. rewrite Hnone.
      by rewrite list_insert_id.
  - intros wi w day ri Hw Hri. unfold handleRemoveRun.
    rewrite (Array_map_target _ wi) by skip_tac.
    rewrite Hw. rewrite decide_True by done. run_M.
    rewrite (splice_remove_past_end ri _ Hri), setDay_getDay.
    eexists. split.
    + unfold recalculateWeeklyTotalWith. cbn [days weeklyTotal].
      rewrite lookup_total_insert_same. reflexivity.
    + intros l. apply lookup_total_insert_same.
  - intros wi w day i j Hw Hi. unfold reorderWithinDay.
    rewrite (Array_map_target _ wi) by skip_tac.
    rewrite Hw. rewrite decide_True by done. run_M.
    rewrite (splice_remove_past_end i _ Hi), (splice_removed_past_end i _ Hi).
    rewrite (list_insert_id weeks_ wi w Hw).
    eexists. split; [reflexivity|]. cbn [heap]. split.
    + by rewrite lookup_total_insert_eq.
    + intros l Hl. by rewrite lookup_total_insert_ne.
  - intros fw fd fi tw td ti Hfw Htw.
    apply lookup_ge_None in Hfw. apply lookup_ge_None in Htw.
    unfold moveWorkout, Array_map.
    destruct (decide (fw = tw)) as [->|Hne].
    + rewrite (mapM_from_target _ tw).
      2:{ intros a j s0 _ Hj. cbv beta zeta. rewrite decide_False by done.
          by rewrite decide_False by tauto. }
      rewrite decide_True by lia. by rewrite Nat.sub_0_r, Htw.
    + destruct (decide (fw < tw)%nat) as [Hlt|Hge].
      * rewrite (mapM_from_two _ fw tw Hlt); [|lia|].
        2:{ intros a j s0 _ H1 H2. cbv beta zeta.
            rewrite decide_False by done. by rewrite decide_False by tauto. }
        by rewrite Nat.sub_0_r, Hfw.
      * assert (tw < fw)%nat as Hlt by lia.
        rewrite (mapM_from_two _ tw fw Hlt); [|lia|].
        2:{ intros a j s0 _ H1 H2. cbv beta zeta.
            rewrite decide_False by done. by rewrite decide_False by tauto. }
        by rewrite Nat.sub_0_r, Htw.
  - intros fw fd fi tw td ti Hfw Htw.
    destruct (lookup_lt_is_Some_2 weeks_ tw Htw) as [wt Ht].
    assert (tw < fw)%nat as Hlt by lia.
    apply lookup_ge_None in Hfw.
    unfold moveWorkout, Array_map.
    rewrite (mapM_from_two _ tw fw Hlt); [|lia|].
    2:{ intros a j s0 _ H1 H2. cbv beta zeta.
        rewrite decide_False by done. by rewrite decide_False by tauto. }
    rewrite !Nat.sub_0_r, Ht. cbv beta zeta.
    rewrite (decide_False (P := tw = fw)) by lia.
    rewrite (decide_True (P := tw = tw ∧ fw ≠ tw)) by (split; [done|lia]).
    by rewrite Hfw.
  - intros fw wf fd fi tw td ti Hf Htw.
    assert (fw < tw)%nat as Hlt
      by (apply lookup_lt_Some in Hf; lia).
    apply lookup_ge_None in Htw.
    unfold moveWorkout, Array_map.
    rewrite (mapM_from_two _ fw tw Hlt); [|lia|].
    2:{ intros a j s0 _ H1 H2. cbv beta zeta.
        rewrite decide_False by done. by rewrite decide_False by tauto. }
    rewrite !Nat.sub_0_r, Hf, Htw. cbv beta zeta.
    rewrite (decide_True (P := fw = fw)) by done. run_M.
    rewrite (decide_False (P := fw = tw)) by lia. run_M.
    eexists _, _. split; [reflexivity|]. cbn [heap].
    split; [by apply (fmap_days_insert _ fw wf)|]. split.
    + by rewrite lookup_total_insert_eq.
    + intros l Hl. by rewrite lookup_total_insert_ne.
  - intros wi w fd fi td ti Hw Hfi.
    destruct (moveWorkout_same_week s weeks_ wi w fd fi td ti Hw)
      as (ws' & s' & E & Hd & Hheap & Hframe).
    exists ws', s'. split; [exact E|]. split; [exact Hd|].
    split; [|exact Hframe]. rewrite Hheap.
    rewrite (splice_remove_past_end fi _ Hfi), (splice_removed_past_end fi _ Hfi).
    by rewrite setDay_getDay.
  - intros ti x runs Hti. unfold splice_insert.
    rewrite take_ge by lia. by rewrite drop_ge by lia.
  - intros fw wf tw wt fd fi td ti Hf Ht Hne Hdays Hfi.
    destruct (moveWorkout_cross_week s weeks_ fw tw wf wt fd fi td ti Hf Ht Hne Hdays)
      as (ws' & s' & E & Hd & HF & HT & Hframe).
    exists ws', s'. split; [exact E|]. split; [exact Hd|].
    rewrite (splice_remove_past_end fi _ Hfi) in HF, HT.
    rewrite setDay_getDay in HF. split; [exact HF|]. split; [|exact Hframe].
    rewrite HT. rewrite (lookup_ge_None_2 _ fi) by done. cbn [mjoin option_join].
    by destruct (decide (fw < tw)%nat).
Qed.

Lemma unaddressed_calls_are_silent_witness :
  (length weeks2 ≤ 7)%nat
  ∧ handleRemoveRun weeks2 7 Mon 0 (mkState heap2 []) = (Ok weeks2, mkState heap2 [])
  ∧ weeks2 !! 0%nat = Some (mkWeek 1 "2025-01-06" 0%nat 5%float)
  ∧ mjoin (getDay (heap2 !!! 0%nat) Tue !! 3%nat) = None
  ∧ handleUpdateRun weeks2 0 Tue 3 time30 (mkState heap2 []) = (Ok weeks2, mkState heap2 []).
Proof.
  pose proof (unaddressed_calls_are_silent (mkState heap2 []) weeks2)
    as (Hweek & Hupdate & _).
  assert (length weeks2 ≤ 7)%nat as Hlen by (cbn; lia).
  assert (weeks2 !! 0%nat = Some (mkWeek 1 "2025-01-06" 0%nat 5%float)) as Hw
    by reflexivity.
  assert (mjoin (getDay (heap (mkState heap2 []) !!! days (mkWeek 1 "2025-01-06" 0%nat 5%float))
                   Tue !! 3%nat) = None) as Hnone
    by (vm_compute; reflexivity).
  split; [exact Hlen|]. split; [apply (Hweek 7%nat Hlen)|].
  split; [exact Hw|]. split; [exact Hnone|].
  exact (proj1 (Hupdate 0%nat _ Tue 3%nat Hw Hnone) time30).
Defined.

(** C3 as stated fails: a removal in week 8 of a two-week plan, and an
    update of the fourth workout of a one-workout bucket, both return
    normally with the plan they were given. *)
Lemma unaddressed_calls_report_no_error :
  (length weeks2 ≤ 7)%nat
  ∧ handleRemoveRun weeks2 7 Mon 0 (mkState heap2 []) = (Ok weeks2, mkState heap2 [])
  ∧ ¬ reportsError (handleRemoveRun weeks2 7 Mon 0) (mkState heap2 [])
  ∧ getDay (heap2 !!! 0%nat) Tue !! 3%nat = None
  ∧ handleUpdateRun weeks2 0 Tue 3 time30 (mkState heap2 []) = (Ok weeks2, mkState heap2 [])
  ∧ ¬ reportsError (handleUpdateRun weeks2 0 Tue 3 time30) (mkState heap2 []).
Proof.
  assert (handleRemoveRun weeks2 7 Mon 0 (mkState heap2 [])
          = (Ok weeks2, mkState heap2 [])) as E1 by (vm_compute; reflexivity).
  assert (handleUpdateRun weeks2 0 Tue 3 time30 (mkState heap2 [])
          = (Ok weeks2, mkState heap2 [])) as E2 by (vm_compute; reflexivity).
  split; [cbn; lia|]. split; [exact E1|]. split.
  { intros (e & s' & E). rewrite E1 in E. discriminate. }
  split; [vm_compute; reflexivity|]. split; [exact E2|].
  intros (e & s' & E). rewrite E2 in E. discriminate.
Qed.

(** ** Counting workouts *)

Lemma weekCount_setDay (d : Days) (day : Day) (runs : Bucket) :
  (weekCount (setDay d day runs) + length (filter_Boolean (getDay d day))
   = weekCount d + length (filter_Boolean runs))%nat.
Proof.
  destruct d, day; unfold weekCount, Object_values, setDay, getDay; simpl; lia.
Qed.

Lemma filter_Boolean_app (b1 b2 : Bucket) :
  filter_Boolean (b1 ++ b2) = filter_Boolean b1 ++ filter_Boolean b2.
Proof. unfold filter_Boolean. apply omap_app. Qed.

Lemma count_splice_remove (b : Bucket) (i : nat) (r : Run) :
  b !! i = Some (Some r) →
  S (length (filter_Boolean (splice_remove i b))) = length (filter_Boolean b).
Proof.
  intros Hb. unfold splice_remove. rewrite delete_take_drop.
  assert (filter_Boolean b
          = filter_Boolean (take i b) ++ filter_Boolean [Some r]
            ++ filter_Boolean (drop (S i) b)) as ->
    by (by rewrite <- !filter_Boolean_app, <- (take_drop_middle b i _ Hb) at 1).
  rewrite !filter_Boolean_app, !length_app. cbn. lia.
Qed.

Lemma count_splice_insert (b : Bucket) (j : nat) (x : option Run) :
  length (filter_Boolean (splice_insert j x b))
  = (length (filter_Boolean b) + match x with Some _ => 1 | None => 0 end)%nat.
Proof.
  unfold splice_insert.
  assert (filter_Boolean b
          = filter_Boolean (take j b) ++ filter_Boolean (drop j b)) as ->
    by (by rewrite <- filter_Boolean_app, take_drop).
  change (x :: drop j b) with ([x] ++ drop j b).
  rewrite !filter_Boolean_app, !length_app. destruct x; cbn; lia.
Qed.

Lemma sum_list_insert (l : list nat) (k a b : nat) :
  l !! k = Some a → (sum_list (<[k := b]> l) + a = sum_list l + b)%nat.
Proof.
  revert k. induction l as [|x l IH]; intros [|k] Hk; try done.
  - simpl in Hk. injection Hk as ->. simpl. lia.
  - simpl in Hk. specialize (IH k Hk). simpl. lia.
Qed.

Lemma countWorkouts_view (h : gmap loc Days) (ws : list (Week loc)) :
  countWorkouts (view h <$> ws) = sum_list ((λ l, weekCount (h !!! l)) <$> (days <$> ws)).
Proof.
  unfold countWorkouts. rewrite <- !list_fmap_compose. f_equal.
Qed.

Lemma counts_one (h h' : gmap loc Days) (ls : list loc) (k : nat) (l1 : loc) :
  NoDup ls → ls !! k = Some l1 →
  (∀ l, l ≠ l1 → h' !!! l = h !!! l) →
  (sum_list ((λ l, weekCount (h' !!! l)) <$> ls) + weekCount (h !!! l1)
   = sum_list ((λ l, weekCount (h !!! l)) <$> ls) + weekCount (h' !!! l1))%nat.
Proof.
  intros Hnd Hk Hframe.
  assert ((λ l, weekCount (h' !!! l)) <$> ls
          = <[k := weekCount (h' !!! l1)]> ((λ l, weekCount (h !!! l)) <$> ls)) as ->.
  { apply list_eq. intros i. destruct (decide (i = k)) as [->|Hi].
    - rewrite list_lookup_insert_eq
        by (rewrite length_fmap; by eapply lookup_lt_Some).
      by rewrite list_lookup_fmap, Hk.
    - rewrite list_lookup_insert_ne by done. rewrite !list_lookup_fmap.
      destruct (ls !! i) as [l|] eqn:El; [|done]. cbn. rewrite Hframe; [done|].
      intros ->. apply Hi. by eapply NoDup_lookup. }
  apply sum_list_insert. by rewrite list_lookup_fmap, Hk.
Qed.

Lemma counts_two (h h' : gmap loc Days) (ls : list loc) (k1 k2 : nat) (l1 l2 : loc) :
  NoDup ls → ls !! k1 = Some l1 → ls !! k2 = Some l2 → k1 ≠ k2 →
  (∀ l, l ≠ l1 → l ≠ l2 → h' !!! l = h !!! l) →
  (sum_list ((λ l, weekCount (h' !!! l)) <$> ls)
   + weekCount (h !!! l1) + weekCount (h !!! l2)
   = sum_list ((λ l, weekCount (h !!! l)) <$> ls)
     + weekCount (h' !!! l1) + weekCount (h' !!! l2))%nat.
Proof.
  intros Hnd Hk1 Hk2 Hne Hframe.
  assert ((λ l, weekCount (h' !!! l)) <$> ls
          = <[k2 := weekCount (h' !!! l2)]>
              (<[k1 := weekCount (h' !!! l1)]> ((λ l, weekCount (h !!! l)) <$> ls)))
    as ->.
  { apply list_eq. intros i. destruct (decide (i = k2)) as [->|Hi2].
    - rewrite list_lookup_insert_eq
        by (rewrite length_insert, length_fmap; by eapply lookup_lt_Some).
      by rewrite list_lookup_fmap, Hk2.
    - rewrite list_lookup_insert_ne by done.
      destruct (decide (i = k1)) as [->|Hi1].
      + rewrite list_lookup_insert_eq
          by (rewrite length_fmap; by eapply lookup_lt_Some).
        by rewrite list_lookup_fmap, Hk1.
      + rewrite list_lookup_insert_ne by done. rewrite !list_lookup_fmap.
        destruct (ls !! i) as [l|] eqn:El; [|done]. cbn. rewrite Hframe; [done| |].
        * intros ->. apply Hi1. by eapply NoDup_lookup.
        * intros ->. apply Hi2. by eapply NoDup_lookup. }
  pose proof (sum_list_insert
    (<[k1 := weekCount (h' !!! l1)]> ((λ l, weekCount (h !!! l)) <$> ls))
    k2 (weekCount (h !!! l2)) (weekCount (h' !!! l2))) as H2.
  rewrite list_lookup_insert_ne, list_lookup_fmap, Hk2 in H2 by done.
  specialize (H2 eq_refl).
  pose proof (sum_list_insert ((λ l, weekCount (h !!! l)) <$> ls)
    k1 (weekCount (h !!! l1)) (weekCount (h' !!! l1))) as H1.
  rewrite list_lookup_fmap, Hk1 in H1. specialize (H1 eq_refl). lia.
Qed.

(** X10.  The number of workouts after a move from an addressed workout.  A move
    inside a week or to an earlier week keeps the number.  A move to a
    later week keeps it only when another workout follows the addressed one
    in the source bucket; otherwise the plan ends with one workout less. *)
Lemma moveWorkout_count
    (s : state) (weeks_ : list (Week loc)) (fw tw : nat) (wf wt : Week loc)
    (fd : Day) (fi : nat) (td : Day) (ti : nat) (r : Run) :
  NoDup (days <$> weeks_) →
  weeks_ !! fw = Some wf → weeks_ !! tw = Some wt →
  getDay (heap s !!! days wf) fd !! fi = Some (Some r) →
  let runs := getDay (heap s !!! days wf) fd in
  ∃ ws' s',
    moveWorkout weeks_ fw fd fi tw td ti s = (Ok ws', s')
    ∧ (countWorkouts (view (heap s') <$> ws') + 1
       = countWorkouts (view (heap s) <$> weeks_)
         + if decide (fw < tw)%nat
           then match mjoin (splice_remove fi runs !! fi) with
                | Some _ => 1
                | None => 0
                end
           else 1)%nat.
Proof.
  intros Hnd Hf Ht Hr. cbv zeta.
  assert ((days <$> weeks_) !! fw = Some (days wf)) as Lf
    by (by rewrite list_lookup_fmap, Hf).
  assert ((days <$> weeks_) !! tw = Some (days wt)) as Lt
    by (by rewrite list_lookup_fmap, Ht).
  pose proof (count_splice_remove _ fi r Hr) as Hrem.
  destruct (decide (fw = tw)) as [->|Hne].
  - assert (wt = wf) as -> by congruence.
    destruct (moveWorkout_same_week s weeks_ tw wf fd fi td ti Hf)
      as (ws' & s' & E & Hd & Hheap & Hframe).
    exists ws', s'. split; [exact E|].
    rewrite decide_False by lia.
    rewrite !countWorkouts_view, Hd.
    pose proof (counts_one (heap s) (heap s') _ tw (days wf) Hnd Lf Hframe) as Hc.
    rewrite Hheap in Hc.
    pose proof (weekCount_setDay
      (setDay (heap s !!! days wf) fd
         (splice_remove fi (getDay (heap s !!! days wf) fd)))
      td
      (splice_insert ti (splice_removed fi (getDay (heap s !!! days wf) fd))
         (getDay (setDay (heap s !!! days wf) fd
                    (splice_remove fi (getDay (heap s !!! days wf) fd))) td)))
      as H2.
    rewrite count_splice_insert in H2.
    pose proof (weekCount_setDay (heap s !!! days wf) fd
      (splice_remove fi (getDay (heap s !!! days wf) fd))) as H1.
    unfold splice_removed in H2, Hc. rewrite Hr in H2, Hc.
    cbn [mjoin option_join] in H2, Hc.
    lia.
  - assert (days wf ≠ days wt) as Hloc.
    { intros Heq. apply Hne. eapply NoDup_lookup; [exact Hnd|exact Lf|].
      by rewrite Heq. }
    destruct (moveWorkout_cross_week s weeks_ fw tw wf wt fd fi td ti
                Hf Ht Hne Hloc)
      as (ws' & s' & E & Hd & HF & HT & Hframe).
    exists ws', s'. split; [exact E|].
    rewrite !countWorkouts_view, Hd.
    pose proof (counts_two (heap s) (heap s') _ fw tw (days wf) (days wt)
                  Hnd Lf Lt Hne Hframe) as Hc.
    rewrite HF, HT in Hc.
    pose proof (weekCount_setDay (heap s !!! days wf) fd
      (splice_remove fi (getDay (heap s !!! days wf) fd))) as H1.
    match type of Hc with
    | context [weekCount (setDay (heap s !!! days wt) td ?b)] =>
        pose proof (weekCount_setDay (heap s !!! days wt) td b) as H2
    end.
    rewrite count_splice_insert in H2.
    repeat case_decide;
      rewrite ?Hr in H2, Hc; cbn [mjoin option_join] in H2, Hc;
      try lia;
      destruct (mjoin (splice_remove fi (getDay (heap s !!! days wf) fd) !! fi));
      lia.
Qed.

(** ** The file import in front of the session *)

(** Malformed JSON, or a payload that [validateSchema] turns down, never
    reaches [importPlanSchema]: the session is as it was and the form
    shows an error. *)
Lemma handleImportJSON_rejected
    (validateSchema : RawSchema → bool * option string)
    (s : Session) (parsed : outcome RawSchema) :
  (∃ e, parsed = Throw e)
  ∨ (∃ p, parsed = Ok p ∧ (validateSchema p).1 = false) →
  (handleImportJSON validateSchema s parsed).1 = s
  ∧ is_Some (importError (handleImportJSON validateSchema s parsed).2)
  ∧ importSuccess (handleImportJSON validateSchema s parsed).2 = false.
Proof.
  intros [[e ->]|(p & -> & Hv)]; unfold handleImportJSON.
  - by eauto.
  - rewrite Hv. by eauto.
Qed.

(** * The handlers on an addressed workout *)

(** The week a single-week handler returns refers to the [days] object it
    was given. *)
Lemma insert_recalculated_days (h : gmap loc Days) (l : list (Week loc))
    (k : nat) (w : Week loc) :
  l !! k = Some w →
  days <$> <[k := recalculateWeeklyTotalWith (λ l, h !!! l) w]> l = days <$> l.
Proof. intros Hk. by apply (fmap_days_insert _ k w). Qed.

(** The number of workouts after one [days] object has changed. *)
Lemma count_after_write (h h' : gmap loc Days) (ws ws' : list (Week loc))
    (k : nat) (w : Week loc) :
  NoDup (days <$> ws) → ws !! k = Some w → days <$> ws' = days <$> ws →
  (∀ l, l ≠ days w → h' !!! l = h !!! l) →
  (countWorkouts (view h' <$> ws') + weekCount (h !!! days w)
   = countWorkouts (view h <$> ws) + weekCount (h' !!! days w))%nat.
Proof.
  intros Hnd Hk Hd Hframe. rewrite !countWorkouts_view, Hd.
  apply (counts_one h h' _ k); [done| |done].
  by rewrite list_lookup_fmap, Hk.
Qed.

(** X1.  removeWorkout on an addressed workout: the bucket closes up around the
    removed position (the entries before it stay, the entries behind it
    move one place down), no other bucket of the plan changes, and the
    plan has one workout less. *)
Theorem handleRemoveRun_removes_addressed
    (s : state) (weeks_ : list (Week loc)) (wi : nat) (w : Week loc)
    (day : Day) (ri : nat) (r : Run) :
  NoDup (days <$> weeks_) →
  weeks_ !! wi = Some w →
  getDay (heap s !!! days w) day !! ri = Some (Some r) →
  let runs := getDay (heap s !!! days w) day in
  ∃ ws' s',
    handleRemoveRun weeks_ wi day ri s = (Ok ws', s')
    ∧ days <$> ws' = days <$> weeks_
    ∧ (∀ j, getDay (heap s' !!! days w) day !! j
            = runs !! (if decide (j < ri)%nat then j else S j))
    ∧ (∀ day', day' ≠ day →
         getDay (heap s' !!! days w) day' = getDay (heap s !!! days w) day')
    ∧ (∀ l, l ≠ days w → heap s' !!! l = heap s !!! l)
    ∧ (countWorkouts (view (heap s') <$> ws') + 1
       = countWorkouts (view (heap s) <$> weeks_))%nat.
Proof.
  intros Hnd Hw Hr. cbv zeta. unfold handleRemoveRun.
  rewrite (Array_map_target _ wi) by skip_tac.
  rewrite Hw. rewrite decide_True by done. run_M.
  eexists _, _. split; [reflexivity|]. cbn [heap].
  assert (∀ l, l ≠ days w →
            <[days w := setDay (heap s !!! days w) day
                          (splice_remove ri (getDay (heap s !!! days w) day))]>
              (heap s) !!! l = heap s !!! l) as Hframe
    by (intros l Hl; by rewrite lookup_total_insert_ne).
  pose proof (insert_recalculated_days
    (<[days w := setDay (heap s !!! days w) day
                   (splice_remove ri (getDay (heap s !!! days w) day))]> (heap s))
    weeks_ wi w Hw) as Hd.
  split; [exact Hd|]. split; [|split; [|split; [exact Hframe|]]].
  - intros j. rewrite lookup_total_insert_eq, getDay_setDay_eq.
    unfold splice_remove. case_decide.
    + by apply list_lookup_delete_lt.
    + apply list_lookup_delete_ge. lia.
  - intros day' Hday. rewrite lookup_total_insert_eq.
    by apply getDay_setDay_ne.
  - pose proof (count_after_write (heap s) _ weeks_ _ wi w Hnd Hw Hd Hframe) as Hc.
    rewrite lookup_total_insert_eq in Hc.
    pose proof (weekCount_setDay (heap s !!! days w) day
      (splice_remove ri (getDay (heap s !!! days w) day))) as H1.
    pose proof (count_splice_remove _ ri r Hr) as H2.
    unfold fmap in Hc |- *. lia.
Qed.

Lemma handleRemoveRun_removes_addressed_witness :
  ∃ ws' s',
    handleRemoveRun weeksMon2 0 Mon 0 (mkState heapMon2 []) = (Ok ws', s')
    ∧ getDay (heap s' !!! 0%nat) Mon !! 0%nat = Some (Some long12)
    ∧ (countWorkouts (view (heap s') <$> ws') + 1 = 2)%nat.
Proof.
  destruct (handleRemoveRun_removes_addressed (mkState heapMon2 []) weeksMon2
              0 (mkWeek 1 "2025-01-06" 0%nat 16%float) Mon 0 easy4)
    as (ws' & s' & E & _ & Hpos & _ & _ & Hc).
  - apply (bool_decide_unpack (NoDup (days <$> weeksMon2))). vm_compute. exact I.
  - reflexivity.
  - reflexivity.
  - exists ws', s'. split; [exact E|]. split.
    + exact (Hpos 0%nat).
    + exact Hc.
Defined.

(** X2.  addWorkout as the cell runs it on what the modal submits: the new run
    goes to the end of the addressed bucket, carries the type, the
    measurement type and the nickname of the modal (an empty nickname as
    absent), no other bucket changes, and the plan has one workout more. *)
Theorem handleWorkoutSubmit_appends
    (s : state) (weeks_ : list (Week loc)) (wi : nat) (w : Week loc)
    (day : Day) (newId : string) (m : WorkoutModalState) :
  NoDup (days <$> weeks_) →
  weeks_ !! wi = Some w →
  let runs := getDay (heap s !!! days w) day in
  let r := newRun newId (handleSubmit m) in
  ∃ ws' s',
    handleWorkoutSubmit weeks_ wi day newId (handleSubmit m) s = (Ok ws', s')
    ∧ days <$> ws' = days <$> weeks_
    ∧ getDay (heap s' !!! days w) day = runs ++ [Some r]
    ∧ (∀ day', day' ≠ day →
         getDay (heap s' !!! days w) day' = getDay (heap s !!! days w) day')
    ∧ (∀ l, l ≠ days w → heap s' !!! l = heap s !!! l)
    ∧ (countWorkouts (view (heap s') <$> ws')
       = countWorkouts (view (heap s) <$> weeks_) + 1)%nat
    ∧ type r = m_workoutType m
    ∧ measurementType r = Some (m_measurementType m)
    ∧ nickname r = nickname_or_undefined (m_nickname m).
Proof.
  intros Hnd Hw. cbv zeta. unfold handleWorkoutSubmit, handleAddRun.
  rewrite (Array_map_target _ wi) by skip_tac.
  rewrite Hw. rewrite decide_True by done. run_M.
  eexists _, _. split; [reflexivity|]. cbn [heap].
  set (r := newRun newId (handleSubmit m)).
  assert (∀ l, l ≠ days w →
            <[days w := setDay (heap s !!! days w) day
                          (getDay (heap s !!! days w) day ++ [Some r])]>
              (heap s) !!! l = heap s !!! l) as Hframe
    by (intros l Hl; by rewrite lookup_total_insert_ne).
  pose proof (insert_recalculated_days
    (<[days w := setDay (heap s !!! days w) day
                   (getDay (heap s !!! days w) day ++ [Some r])]> (heap s))
    weeks_ wi w Hw) as Hd.
  split; [exact Hd|].
  split; [by rewrite lookup_total_insert_eq, getDay_setDay_eq|].
  split; [intros day' Hday; rewrite lookup_total_insert_eq;
          by apply getDay_setDay_ne|].
  split; [exact Hframe|]. split; [|done].
  pose proof (count_after_write (heap s) _ weeks_ _ wi w Hnd Hw Hd Hframe) as Hc.
  rewrite lookup_total_insert_eq in Hc.
  pose proof (weekCount_setDay (heap s !!! days w) day
    (getDay (heap s !!! days w) day ++ [Some r])) as H1.
  rewrite filter_Boolean_app, length_app in H1.
  change (filter_Boolean [Some r]) with [r] in H1. cbn [length] in H1.
  unfold fmap in Hc |- *. lia.
Qed.

Lemma handleWorkoutSubmit_appends_witness :
  ∃ ws' s',
    handleWorkoutSubmit weeksMon 0 Mon "w1-new"
      (handleSubmit (mkModal Tempo "Hills" MTime (Some 8%float) (Some 45%float) EmptyString))
      (mkState heapMon []) = (Ok ws', s')
    ∧ getDay (heap s' !!! 0%nat) Mon
      = [Some easy4;
         Some (mkRun (Some "w1-new") Tempo (Some MTime) None (Some 45%float)
                     (Some "Hills") None)]
    ∧ (countWorkouts (view (heap s') <$> ws') = 2)%nat.
Proof.
  destruct (handleWorkoutSubmit_appends (mkState heapMon []) weeksMon
              0 (mkWeek 1 "2025-01-06" 0%nat 4%float) Mon "w1-new"
              (mkModal Tempo "Hills" MTime (Some 8%float) (Some 45%float) EmptyString))
    as (ws' & s' & E & _ & Hb & _ & _ & Hc & _).
  - apply (bool_decide_unpack (NoDup (days <$> weeksMon))). vm_compute. exact I.
  - reflexivity.
  - exists ws', s'. split; [exact E|]. split; [exact Hb|exact Hc].
Defined.


Lemma setDay_setDay (d : Days) (day : Day) (b1 b2 : Bucket) :
  setDay (setDay d day b1) day b2 = setDay d day b2.
Proof. by destruct d, day. Qed.

Lemma recalculated_consistent (h : gmap loc Days) (w : Week loc) :
  totalOk h w → recalculateWeeklyTotalWith (λ l, h !!! l) w = w.
Proof.
  unfold totalOk, recalculateWeeklyTotalWith. destruct w as [wk sd l t].
  cbn [days weeklyTotal week startDate]. by intros ->.
Qed.

(** X4.  addWorkout followed by removeWorkout at the position of the added run
    undoes the addition: on a week whose stored total is the one
    [recalculateWeeklyTotal] computes from its buckets (in double
    precision, in the order of the code) the [weeks] array is the original
    one again and every [days] object holds what it held. *)
Theorem add_then_remove_restores
    (s : state) (weeks_ : list (Week loc)) (wi : nat) (w : Week loc)
    (day : Day) (newId : string) (workout : Workout) :
  weeks_ !! wi = Some w →
  totalOk (heap s) w →
  ∃ ws1 s1 s2,
    handleAddRun weeks_ wi day newId workout s = (Ok ws1, s1)
    ∧ handleRemoveRun ws1 wi day (length (getDay (heap s !!! days w) day)) s1
      = (Ok weeks_, s2)
    ∧ ∀ l, heap s2 !!! l = heap s !!! l.
Proof.
  intros Hw Htot. unfold handleAddRun.
  rewrite (Array_map_target _ wi) by skip_tac.
  rewrite Hw. rewrite decide_True by done. run_M.
  eexists _, _, _. split; [reflexivity|].
  unfold handleRemoveRun. rewrite (Array_map_target _ wi) by skip_tac.
  rewrite list_lookup_insert_eq by (by eapply lookup_lt_Some).
  rewrite decide_True by done. run_M.
  rewrite !lookup_total_insert_eq, getDay_setDay_eq, setDay_setDay.
  unfold splice_remove.
  rewrite delete_take_drop, take_app_length.
  rewrite drop_ge by (rewrite length_app; cbn; lia).
  rewrite app_nil_r, setDay_getDay, insert_insert_eq, list_insert_insert_eq.
  split.
  - do 2 f_equal. apply list_insert_id. rewrite Hw. f_equal.
    unfold recalculateWeeklyTotalWith. cbn [days week startDate weeklyTotal].
    rewrite lookup_total_insert_same.
    symmetry. by apply (recalculated_consistent (heap s) w).
  - intros l. cbn [heap]. apply lookup_total_insert_same.
Qed.

Lemma add_then_remove_restores_witness :
  ∃ ws1 s1 s2,
    handleAddRun weeks2 0 Tue "w1-new"
      (mkWorkout Long None (Some MDistance) (Some 12%float) None None)
      (mkState heap2 []) = (Ok ws1, s1)
    ∧ handleRemoveRun ws1 0 Tue 1 s1 = (Ok weeks2, s2)
    ∧ ∀ l, heap s2 !!! l = heap2 !!! l.
Proof.
  apply (add_then_remove_restores (mkState heap2 []) weeks2 0
           (mkWeek 1 "2025-01-06" 0%nat 5%float) Tue "w1-new"
           (mkWorkout Long None (Some MDistance) (Some 12%float) None None)).
  - reflexivity.
  - reflexivity.
Defined.

(** ** Edits of one workout *)

(** [handleUpdateRun] on an addressed workout, as an equation. *)
Lemma handleUpdateRun_addressed
    (s : state) (weeks_ : list (Week loc)) (wi : nat) (w : Week loc)
    (day : Day) (ri : nat) (r : Run) (updates : Updates) :
  weeks_ !! wi = Some w →
  getDay (heap s !!! days w) day !! ri = Some (Some r) →
  let h' := <[days w := setDay (heap s !!! days w) day
                          (<[ri := Some (applyUpdates updates r)]>
                             (getDay (heap s !!! days w) day))]> (heap s) in
  let w' := recalculateWeeklyTotalWith (λ l, h' !!! l) w in
  handleUpdateRun weeks_ wi day ri updates s
  = (Ok (<[wi := w']> weeks_),
     mkState h' (trace s ++ [Recalculated (weeklyTotal w')])).
Proof.
  intros Hw Hr. cbv zeta. unfold handleUpdateRun.
  rewrite (Array_map_target _ wi) by skip_tac.
  rewrite Hw. rewrite decide_True by done. run_M. rewrite Hr.
  cbn [mjoin option_join]. reflexivity.
Qed.

Lemma bucketDistances_insert (b : Bucket) (i : nat) (r r' : Run) :
  b !! i = Some (Some r) → distance r' = distance r →
  bucketDistances (<[i := Some r']> b) = bucketDistances b.
Proof.
  revert i. induction b as [|x b IH]; intros [|i] Hb Hd; try done.
  - cbn in Hb. injection Hb as ->. unfold bucketDistances. cbn. by rewrite Hd.
  - cbn in Hb. unfold bucketDistances in *. cbn.
    change (<[i := Some r']> b) with (<[i := Some r']> b).
    by rewrite (IH i Hb Hd).
Qed.

Lemma weekDistances_insert (d : Days) (day : Day) (i : nat) (r r' : Run) :
  getDay d day !! i = Some (Some r) → distance r' = distance r →
  weekDistances (setDay d day (<[i := Some r']> (getDay d day))) = weekDistances d.
Proof.
  intros Hb Hd. pose proof (bucketDistances_insert _ i r r' Hb Hd) as E.
  destruct d, day; unfold weekDistances, Object_values, setDay, getDay in *;
    cbn [map dMon dTue dWed dThu dFri dSat dSun] in *; by rewrite E.
Qed.

Lemma distanceFields_insert (b : Bucket) (i : nat) (r r' : Run) :
  b !! i = Some (Some r) → distance r' = distance r →
  distanceFields (<[i := Some r']> b) = distanceFields b.
Proof.
  revert i. induction b as [|x b IH]; intros [|i] Hb Hd; try done.
  - cbn in Hb. injection Hb as ->. unfold distanceFields. cbn. by rewrite Hd.
  - cbn in Hb. specialize (IH i Hb Hd). unfold distanceFields in *.
    change (<[S i := Some r']> (x :: b)) with (x :: <[i := Some r']> b).
    unfold filter_Boolean in *. destruct x as [x|]; cbn; by rewrite IH.
Qed.

Lemma weekSum_insert (d : Days) (day : Day) (i : nat) (r r' : Run) :
  getDay d day !! i = Some (Some r) → distance r' = distance r →
  weekSum (setDay d day (<[i := Some r']> (getDay d day))) = weekSum d.
Proof.
  intros Hb Hd. apply weekSum_ext. intros day0.
  destruct (decide (day = day0)) as [<-|Hne].
  - rewrite getDay_setDay_eq. by apply (distanceFields_insert _ i r).
  - by rewrite getDay_setDay_ne.
Qed.

(** X5.  The two label edits of a workout cell, on an addressed workout.
    Saving a nickname replaces the nickname of the workout (the empty
    string is stored as absent), returns the [weeks] array as it is and
    recomputes nothing.  Saving a description stores the text as typed,
    the empty string included, and puts in the place of the week a copy
    whose total is recomputed — from the same distances, so it is the
    rounded sum of the week as it was.  Neither changes another field of
    the workout, another entry of its bucket, one of the other six buckets
    of the week, any distance of the week, or another week's buckets. *)
Theorem label_edits_keep_measurements
    (s : state) (weeks_ : list (Week loc)) (wi : nat) (w : Week loc)
    (day : Day) (ri : nat) (r : Run) (txt : string) :
  weeks_ !! wi = Some w →
  getDay (heap s !!! days w) day !! ri = Some (Some r) →
  let runs := getDay (heap s !!! days w) day in
  (∃ s',
     handleUpdateNickname weeks_ wi day ri txt s = (Ok weeks_, s')
     ∧ trace s' = trace s
     ∧ getDay (heap s' !!! days w) day
       = <[ri := Some (mkRun (run_id r) (type r) (measurementType r)
                             (distance r) (time r)
                             (nickname_or_undefined txt) (description r))]> runs
     ∧ weekDistances (heap s' !!! days w) = weekDistances (heap s !!! days w)
     ∧ (∀ l, l ≠ days w → heap s' !!! l = heap s !!! l)
     ∧ ∀ day', day' ≠ day →
         getDay (heap s' !!! days w) day' = getDay (heap s !!! days w) day')
  ∧ (∃ ws' s',
       handleDescriptionSave weeks_ wi day ri txt s = (Ok ws', s')
       ∧ days <$> ws' = days <$> weeks_
       ∧ getDay (heap s' !!! days w) day
         = <[ri := Some (mkRun (run_id r) (type r) (measurementType r)
                               (distance r) (time r)
                               (nickname r) (Some txt))]> runs
       ∧ weekDistances (heap s' !!! days w) = weekDistances (heap s !!! days w)
       ∧ (∀ l, l ≠ days w → heap s' !!! l = heap s !!! l)
       ∧ (∀ day', day' ≠ day →
            getDay (heap s' !!! days w) day' = getDay (heap s !!! days w) day')
       ∧ ws' = <[wi := mkWeek (week w) (startDate w) (days w)
                         (Math_round (weekSum (heap s !!! days w)))]> weeks_
       ∧ trace s'
         = trace s ++ [Recalculated (Math_round (weekSum (heap s !!! days w)))]).
Proof.
  intros Hw Hr. cbv zeta. split.
  - unfold handleUpdateNickname.
    rewrite (Array_map_target _ wi) by skip_tac.
    rewrite Hw. rewrite decide_True by done. run_M. rewrite Hr.
    cbn [mjoin option_join]. rewrite (list_insert_id weeks_ wi w Hw).
    eexists. split; [reflexivity|]. cbn [heap trace].
    rewrite lookup_total_insert_eq, getDay_setDay_eq.
    split; [done|]. split; [done|]. split; [|split].
    + by apply (weekDistances_insert _ day ri r).
    + intros l Hl. by rewrite lookup_total_insert_ne.
    + intros day' Hne. by rewrite getDay_setDay_ne.
  - unfold handleDescriptionSave.
    rewrite (handleUpdateRun_addressed s weeks_ wi w day ri r _ Hw Hr).
    eexists _, _. split; [reflexivity|]. cbn [heap trace].
    rewrite lookup_total_insert_eq, getDay_setDay_eq.
    assert (weekSum (setDay (heap s !!! days w) day
              (<[ri := Some (applyUpdates (mkUpdates None None None (Some txt)) r)]>
                 (getDay (heap s !!! days w) day)))
            = weekSum (heap s !!! days w)) as Hsum
      by (by apply (weekSum_insert _ day ri r)).
    split; [by apply insert_recalculated_days|]. split; [done|].
    split; [by apply (weekDistances_insert _ day ri r)|].
    split; [intros l Hl; by rewrite lookup_total_insert_ne|].
    split; [intros day' Hne; by rewrite getDay_setDay_ne|].
    unfold recalculateWeeklyTotalWith. cbn [days week startDate weeklyTotal].
    rewrite lookup_total_insert_eq, weekReduce_weekSum, Hsum. done.
Qed.

Lemma label_edits_keep_measurements_witness :
  ∃ s',
    handleUpdateNickname weeks2 0 Tue 0 EmptyString (mkState heap2 [])
    = (Ok weeks2, s')
    ∧ trace s' = []
    ∧ getDay (heap s' !!! 0%nat) Tue = [Some easy5].
Proof.
  destruct (label_edits_keep_measurements (mkState heap2 []) weeks2 0
              (mkWeek 1 "2025-01-06" 0%nat 5%float) Tue 0 easy5 EmptyString)
    as [(s' & E & Ht & Hb & _) _].
  - reflexivity.
  - reflexivity.
  - exists s'. split; [exact E|]. split; [exact Ht|exact Hb].
Defined.

(** The run the measurement-type switch of a workout cell leaves. *)
Lemma applyUpdates_type_change (r : Run) (newType : MeasurementType) :
  applyUpdates
    (mkUpdates (Some newType)
       (if decide (newType = MDistance) then distance r else None)
       (if decide (newType = MTime) then time r else None) None) r
  = mkRun (run_id r) (type r) (Some newType)
          (if decide (newType = MDistance) then distance r else None)
          (if decide (newType = MTime) then time r else None)
          (nickname r) (description r).
Proof.
  destruct r as [i ty mt d t n de], newType; unfold applyUpdates; cbn.
  - by destruct d.
  - by destruct t.
Qed.

(** X6.  The measurement-type switch of a workout cell, on the workout the cell
    shows: the workout gets the new type, keeps the field of that type as
    it was (absent if it was absent) and loses the other one; nothing else
    of the workout changes. *)
Theorem measurement_switch_keeps_one_field
    (s : state) (weeks_ : list (Week loc)) (wi : nat) (w : Week loc)
    (day : Day) (ri : nat) (r : Run) (newType : MeasurementType) :
  weeks_ !! wi = Some w →
  getDay (heap s !!! days w) day !! ri = Some (Some r) →
  ∃ ws' s' r',
    handleMeasurementTypeChange weeks_ wi day ri r newType s = (Ok ws', s')
    ∧ days <$> ws' = days <$> weeks_
    ∧ getDay (heap s' !!! days w) day
      = <[ri := Some r']> (getDay (heap s !!! days w) day)
    ∧ measurementType r' = Some newType
    ∧ match newType with
      | MDistance => distance r' = distance r ∧ time r' = None
      | MTime => time r' = time r ∧ distance r' = None
      end
    ∧ (run_id r', type r', nickname r', description r')
      = (run_id r, type r, nickname r, description r).
Proof.
  intros Hw Hr. unfold handleMeasurementTypeChange.
  rewrite (handleUpdateRun_addressed s weeks_ wi w day ri r _ Hw Hr).
  rewrite applyUpdates_type_change.
  eexists _, _, _. split; [reflexivity|]. cbn [heap].
  rewrite lookup_total_insert_eq, getDay_setDay_eq.
  split; [by apply insert_recalculated_days|]. split; [reflexivity|].
  split; [done|]. split; [|done]. by destruct newType.
Qed.

Lemma measurement_switch_keeps_one_field_witness :
  ∃ ws' s',
    handleMeasurementTypeChange weeks2 0 Tue 0 easy5 MTime (mkState heap2 [])
    = (Ok ws', s')
    ∧ getDay (heap s' !!! 0%nat) Tue
      = [Some (mkRun (Some "w1-tue-easy") Easy (Some MTime) None None None None)].
Proof.
  destruct (measurement_switch_keeps_one_field (mkState heap2 []) weeks2 0
              (mkWeek 1 "2025-01-06" 0%nat 5%float) Tue 0 easy5 MTime)
    as (ws' & s' & r' & E & _ & Hb & Hmt & [Ht Hd] & Hrest).
  - reflexivity.
  - reflexivity.
  - exists ws', s'. split; [exact E|]. cbn [days] in Hb. rewrite Hb.
    destruct r' as [i ty mt d t n de]. cbn in Hmt, Ht, Hd, Hrest.
    injection Hrest as -> -> -> ->. rewrite Hmt, Ht, Hd. reflexivity.
Defined.

(** X7.  Switching the measurement type and switching back does not bring the
    value back: whatever the workout held, after a switch to one type and
    then to the other both its distance and its time are absent. *)
Theorem measurement_switch_twice_erases
    (s : state) (weeks_ : list (Week loc)) (wi : nat) (w : Week loc)
    (day : Day) (ri : nat) (r : Run) (first second : MeasurementType) :
  weeks_ !! wi = Some w →
  getDay (heap s !!! days w) day !! ri = Some (Some r) →
  first ≠ second →
  ∃ ws1 s1 r1 ws2 s2,
    handleMeasurementTypeChange weeks_ wi day ri r first s = (Ok ws1, s1)
    ∧ getDay (heap s1 !!! days w) day !! ri = Some (Some r1)
    ∧ handleMeasurementTypeChange ws1 wi day ri r1 second s1 = (Ok ws2, s2)
    ∧ getDay (heap s2 !!! days w) day
      = <[ri := Some (mkRun (run_id r) (type r) (Some second) None None
                            (nickname r) (description r))]>
          (getDay (heap s !!! days w) day).
Proof.
  intros Hw Hr Hne.
  assert (ri < length (getDay (heap s !!! days w) day))%nat as Hlt
    by (by eapply lookup_lt_Some).
  unfold handleMeasurementTypeChange at 1.
  rewrite (handleUpdateRun_addressed s weeks_ wi w day ri r _ Hw Hr).
  rewrite applyUpdates_type_change.
  eexists _, _, _. eexists _, _. split; [reflexivity|]. cbn [heap].
  rewrite lookup_total_insert_eq, getDay_setDay_eq.
  split; [by rewrite list_lookup_insert_eq|].
  unfold handleMeasurementTypeChange.
  erewrite handleUpdateRun_addressed; cycle 1.
  - apply list_lookup_insert_eq. by eapply lookup_lt_Some.
  - cbn [days recalculateWeeklyTotalWith heap].
    rewrite lookup_total_insert_eq, getDay_setDay_eq.
    by rewrite list_lookup_insert_eq.
  - split; [reflexivity|]. cbn [heap days recalculateWeeklyTotalWith].
    rewrite !lookup_total_insert_eq, !getDay_setDay_eq.
    rewrite list_insert_insert_eq. do 2 f_equal.
    rewrite applyUpdates_type_change. cbn [run_id type nickname description distance time].
    destruct first, second; try done.
Qed.

Lemma measurement_switch_twice_erases_witness :
  ∃ ws1 s1 r1 ws2 s2,
    handleMeasurementTypeChange weeks2 0 Tue 0 easy5 MTime (mkState heap2 [])
    = (Ok ws1, s1)
    ∧ getDay (heap s1 !!! 0%nat) Tue !! 0%nat = Some (Some r1)
    ∧ handleMeasurementTypeChange ws1 0 Tue 0 r1 MDistance s1 = (Ok ws2, s2)
    ∧ getDay (heap s2 !!! 0%nat) Tue
      = [Some (mkRun (Some "w1-tue-easy") Easy (Some MDistance) None None None None)].
Proof.
  apply (measurement_switch_twice_erases (mkState heap2 []) weeks2 0
           (mkWeek 1 "2025-01-06" 0%nat 5%float) Tue 0 easy5 MTime MDistance).
  - reflexivity.
  - reflexivity.
  - discriminate.
Defined.

(** ** Drag and drop *)

(** X8.  The reorder of a day, on a dragged entry of the bucket: the bucket is
    a permutation of what it was, the dragged entry sits at the drop
    position (at the end when the drop position is past it), the other
    entries keep their order, the [weeks] array is returned as it is and
    no total is recomputed. *)
Theorem reorderWithinDay_permutes
    (s : state) (weeks_ : list (Week loc)) (wi : nat) (w : Week loc)
    (day : Day) (i j : nat) (x : option Run) :
  weeks_ !! wi = Some w →
  getDay (heap s !!! days w) day !! i = Some x →
  let runs := getDay (heap s !!! days w) day in
  let k := (j `min` (length runs - 1))%nat in
  ∃ s',
    reorderWithinDay weeks_ wi day i j s = (Ok weeks_, s')
    ∧ trace s' = trace s
    ∧ getDay (heap s' !!! days w) day ≡ₚ runs
    ∧ getDay (heap s' !!! days w) day !! k = Some x
    ∧ delete k (getDay (heap s' !!! days w) day) = delete i runs
    ∧ (∀ day', day' ≠ day →
         getDay (heap s' !!! days w) day' = getDay (heap s !!! days w) day')
    ∧ (∀ l, l ≠ days w → heap s' !!! l = heap s !!! l).
Proof.
  intros Hw Hx. cbv zeta. unfold reorderWithinDay.
  rewrite (Array_map_target _ wi) by skip_tac.
  rewrite Hw. rewrite decide_True by done. run_M.
  rewrite (list_insert_id weeks_ wi w Hw).
  eexists. split; [reflexivity|]. cbn [heap trace].
  rewrite lookup_total_insert_eq, getDay_setDay_eq.
  unfold splice_insert, splice_removed, splice_remove. rewrite Hx.
  cbn [mjoin option_join].
  set (runs := getDay (heap s !!! days w) day) in *.
  assert (length (delete i runs) = length runs - 1)%nat as Hlen
    by (apply length_delete; by eexists).
  assert (length (take j (delete i runs)) = j `min` (length runs - 1))%nat as Htake
    by (by rewrite length_take, Hlen).
  split; [done|]. split; [|split; [|split; [|split]]].
  - rewrite <- Permutation_middle, take_drop. symmetry.
    by apply delete_Permutation.
  - by apply list_lookup_middle.
  - rewrite <- Htake, delete_middle. apply take_drop.
  - intros day' Hday. by apply getDay_setDay_ne.
  - intros l Hl. by rewrite lookup_total_insert_ne.
Qed.

Lemma reorderWithinDay_permutes_witness :
  ∃ s',
    reorderWithinDay weeksMon2 0 Mon 0 1 (mkState heapMon2 []) = (Ok weeksMon2, s')
    ∧ getDay (heap s' !!! 0%nat) Mon !! 1%nat = Some (Some easy4)
    ∧ delete 1%nat (getDay (heap s' !!! 0%nat) Mon) = [Some long12].
Proof.
  destruct (reorderWithinDay_permutes (mkState heapMon2 []) weeksMon2 0
              (mkWeek 1 "2025-01-06" 0%nat 16%float) Mon 0 1 (Some easy4))
    as (s' & E & _ & _ & Hk & Hd & _).
  - reflexivity.
  - reflexivity.
  - exists s'. split; [exact E|]. split; [exact Hk|exact Hd].
Defined.

(** X9.  A workout dropped on a day container of the same week or of an earlier
    week goes to the end of that day's bucket, and leaves its own bucket.
    (A later week is visited after the source bucket has been spliced.) *)
Theorem drop_on_day_appends
    (s : state) (weeks_ : list (Week loc)) (fw tw : nat) (wf wt : Week loc)
    (fd : Day) (fi : nat) (td : Day) (r : Run) :
  NoDup (days <$> weeks_) →
  weeks_ !! fw = Some wf → weeks_ !! tw = Some wt →
  getDay (heap s !!! days wf) fd !! fi = Some (Some r) →
  (tw ≤ fw)%nat → fw ≠ tw ∨ fd ≠ td →
  ∃ ws' s',
    handleDragEnd weeks_ (mkActive fw fd fi) (Some (OverDay tw td)) s
    = (Ok (Some ws'), s')
    ∧ days <$> ws' = days <$> weeks_
    ∧ getDay (heap s' !!! days wt) td
      = getDay (heap s !!! days wt) td ++ [Some r]
    ∧ getDay (heap s' !!! days wf) fd
      = delete fi (getDay (heap s !!! days wf) fd).
Proof.
  intros Hnd Hf Ht Hr Hle Hdiff.
  assert (∀ (x : option Run) (b : Bucket),
            splice_insert (length b) x b = b ++ [x]) as Hend.
  { intros x b. unfold splice_insert. rewrite take_ge by lia.
    by rewrite drop_ge by lia. }
  unfold handleDragEnd. cbn [a_weekIndex a_day a_runIndex].
  rewrite decide_True by done. rewrite Ht.
  unfold fmap at 1 2, M_fmap, mbind, M_bind, mret, M_ret, readDay.
  destruct (decide (fw = tw)) as [->|Hne].
  - assert (wt = wf) as -> by congruence.
    assert (fd ≠ td) as Hday by (by destruct Hdiff).
    destruct (moveWorkout_same_week s weeks_ tw wf fd fi td
                (length (getDay (heap s !!! days wf) td)) Hf)
      as (ws' & s' & E & Hd & Hheap & _).
    rewrite E. exists ws', s'. split; [done|]. split; [done|].
    rewrite Hheap. unfold splice_removed. rewrite Hr. cbn [mjoin option_join].
    rewrite !getDay_setDay_eq.
    rewrite !(getDay_setDay_ne _ fd td) by done.
    rewrite getDay_setDay_ne by done. rewrite getDay_setDay_eq.
    by rewrite Hend.
  - assert (days wf ≠ days wt) as Hloc.
    { intros Heq. apply Hne. eapply NoDup_lookup; [exact Hnd| |].
      - by rewrite list_lookup_fmap, Hf.
      - by rewrite list_lookup_fmap, Ht, Heq. }
    destruct (moveWorkout_cross_week s weeks_ fw tw wf wt fd fi td
                (length (getDay (heap s !!! days wt) td)) Hf Ht Hne Hloc)
      as (ws' & s' & E & Hd & HF & HT & _).
    rewrite E. exists ws', s'. split; [done|]. split; [done|].
    rewrite HF, HT. rewrite decide_False by lia. rewrite Hr.
    cbn [mjoin option_join]. rewrite !getDay_setDay_eq.
    by rewrite Hend.
Qed.

Lemma drop_on_day_appends_witness :
  ∃ ws' s',
    handleDragEnd weeksLate (mkActive 1 Mon 0) (Some (OverDay 0 Fri))
      (mkState heapLate []) = (Ok (Some ws'), s')
    ∧ getDay (heap s' !!! 0%nat) Fri = [Some easy4]
    ∧ getDay (heap s' !!! 1%nat) Mon = [].
Proof.
  destruct (drop_on_day_appends (mkState heapLate []) weeksLate 1 0
              (mkWeek 2 "2025-01-13" 1%nat 4%float) (mkWeek 1 "2025-01-06" 0%nat 0%float)
              Mon 0 Fri easy4)
    as (ws' & s' & E & _ & Ht & Hf).
  - apply (bool_decide_unpack (NoDup (days <$> weeksLate))). vm_compute. exact I.
  - reflexivity.
  - reflexivity.
  - reflexivity.
  - lia.
  - left. lia.
  - exists ws', s'. split; [exact E|]. split; [exact Ht|exact Hf].
Defined.

(** ** The peak week *)

(** The order of doubles, through its specification on [spec_float]. *)
Ltac sf_cases :=
  repeat match goal with
  | x : spec_float |- _ => destruct x as [[]|[]| |[] ? ?]
  end.

Ltac cmp_solve :=
  cbn [SFcompare]; intros;
  repeat match goal with
  | H : Some _ = Some _ |- _ => injection H as H
  | H : context [Pos.compare_cont Eq ?a ?b] |- _ =>
      change (Pos.compare_cont Eq a b) with (Pos.compare a b) in H
  | |- context [Pos.compare_cont Eq ?a ?b] =>
      change (Pos.compare_cont Eq a b) with (Pos.compare a b)
  end;
  repeat match goal with
  | H : context [Z.compare ?a ?b] |- _ => destruct (Z.compare_spec a b)
  | |- context [Z.compare ?a ?b] => destruct (Z.compare_spec a b)
  | H : context [Pos.compare ?a ?b] |- _ => destruct (Pos.compare_spec a b)
  | |- context [Pos.compare ?a ?b] => destruct (Pos.compare_spec a b)
  end;
  cbn [CompOpp] in *; subst; try congruence; try lia; auto.

Lemma SF_below (w m x : spec_float) :
  SFcompare m w ≠ Some Lt → SFcompare m x = Some Lt →
  w = S754_nan ∨ SFcompare w x = Some Lt.
Proof. sf_cases; cmp_solve. Qed.

Lemma SF_asym (a b : spec_float) :
  SFcompare a b = Some Lt → SFcompare b a ≠ Some Lt.
Proof. sf_cases; cmp_solve. Qed.

Lemma SF_irrefl (a : spec_float) : SFcompare a a ≠ Some Lt.
Proof. sf_cases; cmp_solve. Qed.

Lemma number_gt_spec (a b : number) :
  number_gt a b = true ↔ SFcompare (Prim2SF b) (Prim2SF a) = Some Lt.
Proof.
  unfold number_gt. rewrite ltb_spec. unfold SFltb.
  destruct (SFcompare (Prim2SF b) (Prim2SF a)) as [[]|]; split; congruence.
Qed.

Lemma number_gt_false (a b : number) :
  number_gt a b = false ↔ SFcompare (Prim2SF b) (Prim2SF a) ≠ Some Lt.
Proof.
  rewrite <- number_gt_spec. destruct (number_gt a b); split; congruence.
Qed.

Lemma is_nan_spec (a : number) : Prim2SF a = S754_nan → is_nan a = true.
Proof. unfold is_nan. rewrite FloatAxioms.eqb_spec. by intros ->. Qed.

Lemma number_gt_irrefl (a : number) : number_gt a a = false.
Proof. apply number_gt_false, SF_irrefl. Qed.

(** [w] is not greater than [m], and [x] is: [x] is greater than [w],
    unless [w] is [NaN]. *)
Lemma number_gt_below (w m x : number) :
  number_gt w m = false → number_gt x m = true →
  number_gt x w = true ∨ is_nan w = true.
Proof.
  intros H1 H2. apply number_gt_false in H1. apply number_gt_spec in H2.
  destruct (SF_below _ _ _ H1 H2) as [H|H]; [right|left].
  - by apply is_nan_spec.
  - by apply number_gt_spec.
Qed.

Lemma number_gt_asym (a b : number) :
  number_gt a b = true → number_gt b a = false.
Proof.
  intros H. apply number_gt_spec in H. by apply number_gt_false, SF_asym.
Qed.

Lemma number_gt_nan (w x : number) : is_nan w = true → number_gt w x = false.
Proof.
  unfold is_nan, number_gt. rewrite FloatAxioms.eqb_spec, ltb_spec.
  unfold SFeqb, SFltb.
  destruct (Prim2SF w) as [[]|[]| |[] ? ?], (Prim2SF x) as [[]|[]| |[] ? ?];
    cbn [SFcompare]; try done;
    intros H; exfalso; revert H;
    change (Pos.compare_cont Eq ?a ?b) with (Pos.compare a b);
    rewrite Z.compare_refl, Pos.compare_refl; done.
Qed.

Lemma peak_fold {D} (rest pre : list (Week D)) (m : Week D) (i : nat) :
  pre !! i = Some m →
  (∀ w, w ∈ pre → number_gt (weeklyTotal w) (weeklyTotal m) = false) →
  (∀ j w, (j < i)%nat → pre !! j = Some w →
          number_gt (weeklyTotal m) (weeklyTotal w) = true
          ∨ is_nan (weeklyTotal w) = true) →
  let p := fold_left (λ max week,
                        if number_gt (weeklyTotal week) (weeklyTotal max)
                        then week else max) rest m in
  ∃ i', (pre ++ rest) !! i' = Some p
        ∧ (∀ w, w ∈ pre ++ rest →
                number_gt (weeklyTotal w) (weeklyTotal p) = false)
        ∧ (∀ j w, (j < i')%nat → (pre ++ rest) !! j = Some w →
                  number_gt (weeklyTotal p) (weeklyTotal w) = true
                  ∨ is_nan (weeklyTotal w) = true).
Proof.
  revert pre m i. induction rest as [|x rest IH]; intros pre m i Hi Hmax Hfirst.
  - cbn. rewrite app_nil_r. by exists i.
  - cbn [fold_left]. cbv zeta.
    replace (pre ++ x :: rest) with ((pre ++ [x]) ++ rest)
      by (by rewrite <- app_assoc).
    destruct (number_gt (weeklyTotal x) (weeklyTotal m)) eqn:E.
    + apply (IH (pre ++ [x]) x (length pre)).
      * by apply list_lookup_middle.
      * intros w [Hw|Hw]%elem_of_app.
        -- destruct (number_gt_below _ _ _ (Hmax w Hw) E) as [H|H].
           ++ by apply number_gt_asym.
           ++ by apply number_gt_nan.
        -- apply list_elem_of_singleton in Hw as ->. apply number_gt_irrefl.
      * intros j w Hj Hw. rewrite lookup_app_l in Hw by done.
        apply (number_gt_below _ (weeklyTotal m)); [|done].
        apply Hmax. by eapply list_elem_of_lookup_2.
    + apply (IH (pre ++ [x]) m i).
      * rewrite lookup_app_l; [done|]. by eapply lookup_lt_Some.
      * intros w [Hw|Hw]%elem_of_app; [by apply Hmax|].
        by apply list_elem_of_singleton in Hw as ->.
      * intros j w Hj Hw. apply (Hfirst j w Hj).
        rewrite lookup_app_l in Hw; [done|].
        apply lookup_lt_Some in Hi. lia.
Qed.

(** X11.  [peakWeek] is [null] exactly for a plan without weeks; otherwise
    it is a week of the plan whose total no week's total is greater than,
    and the first such week: the total of every week before it is
    strictly smaller (or is [NaN], which compares with nothing). *)
Theorem peakWeek_is_first_maximum {D} (ws : list (Week D)) :
  match peakWeek ws with
  | None => ws = []
  | Some p =>
      ∃ i, ws !! i = Some p
           ∧ (∀ w, w ∈ ws → number_gt (weeklyTotal w) (weeklyTotal p) = false)
           ∧ (∀ j w, (j < i)%nat → ws !! j = Some w →
                     number_gt (weeklyTotal p) (weeklyTotal w) = true
                     ∨ is_nan (weeklyTotal w) = true)
  end.
Proof.
  destruct ws as [|first rest]; [done|]. unfold peakWeek.
  apply (peak_fold rest [first] first 0).
  - done.
  - intros w Hw. apply list_elem_of_singleton in Hw as ->.
    apply number_gt_irrefl.
  - intros j w Hj. lia.
Qed.

(** ** The unit toggle: when it returns, and what it keeps *)

Section convert_returns.
Variables currentUnit newUnit : Unit_.

Lemma convertRuns_Ok (runs : Bucket) (acc : number) (r : Bucket * number) :
  convertRuns currentUnit newUnit acc runs = Ok r → Forall is_Some runs.
Proof.
  revert acc r. induction runs as [|[run|] runs IH]; intros acc r H.
  - constructor.
  - cbn [convertRuns] in H.
    destruct (convertRun currentUnit newUnit acc run) as [run' total].
    destruct (convertRuns currentUnit newUnit total runs) as [r'|e] eqn:E;
      [|done].
    constructor; [by eexists|]. by eapply IH.
  - done.
Qed.

Lemma convertDays_Ok (source : Days) (entries : list Day) (cd : Days)
    (acc : number) (r : Days * number) :
  convertDays currentUnit newUnit source entries cd acc = Ok r →
  Forall (λ day, Forall is_Some (getDay source day)) entries.
Proof.
  revert cd acc r. induction entries as [|day entries IH]; intros cd acc r H.
  - constructor.
  - cbn [convertDays] in H.
    destruct (convertRuns currentUnit newUnit acc (getDay source day))
      as [[runs' total]|e] eqn:E; [|done].
    cbn [mbind outcome_bind] in H.
    constructor; [by eapply convertRuns_Ok|]. by eapply IH.
Qed.

Lemma convertWeek_Ok (w w' : Week Days) :
  convertWeek currentUnit newUnit w = Ok w' → holeFree (days w).
Proof.
  unfold convertWeek. intros H.
  destruct (convertDays currentUnit newUnit (days w) days_ emptyDays 0%float)
    as [r|e] eqn:E; [|done].
  apply convertDays_Ok in E. unfold days_ in E.
  repeat (apply Forall_cons in E as [? E]).
  unfold holeFree, Object_values. by repeat constructor.
Qed.

Lemma mapM_convertWeek_Ok (ws ws' : list (Week Days)) :
  mapM (convertWeek currentUnit newUnit) ws = Ok ws' →
  Forall (λ w, holeFree (days w)) ws.
Proof.
  revert ws'. induction ws as [|w ws IH]; intros ws' H; [constructor|].
  cbn [mapM] in H.
  destruct (convertWeek currentUnit newUnit w) as [w'|e] eqn:E; [|done].
  cbn [mbind outcome_bind] in H.
  destruct (mapM (convertWeek currentUnit newUnit) ws) as [r|e] eqn:E'; [|done].
  constructor; [by eapply convertWeek_Ok|]. by eapply IH.
Qed.
End convert_returns.

Lemma handleUnitToggle_Ok (currentUnit : Unit_) (ws : list (Week Days))
    (r : Unit_ * list (Week Days)) :
  handleUnitToggle currentUnit ws = Ok r → Forall (λ w, holeFree (days w)) ws.
Proof.
  unfold handleUnitToggle. intros H.
  destruct (mapM (convertWeek currentUnit (otherUnit currentUnit)) ws)
    as [ws'|e] eqn:E; [|done].
  by eapply mapM_convertWeek_Ok.
Qed.

(** X12.  The unit toggle returns exactly on the plans without holes: on such a
    plan it hands back the other unit and the converted weeks, and a hole
    in any bucket of any week makes it throw. *)
Theorem handleUnitToggle_returns_iff_no_holes
    (currentUnit : Unit_) (ws : list (Week Days)) :
  (∃ r, handleUnitToggle currentUnit ws = Ok r)
  ↔ Forall (λ w, holeFree (days w)) ws.
Proof.
  split.
  - intros [r H]. by eapply handleUnitToggle_Ok.
  - intros H. eexists. by apply handleUnitToggle_spec.
Qed.

Lemma convertedBucket_lookup (cu nu : Unit_) (runs : Bucket) (j : nat) :
  convertedBucket cu nu runs !! j
  = (λ run : option Run, convert1 cu nu <$> run) <$> runs !! j.
Proof. unfold convertedBucket. apply list_lookup_fmap. Qed.

(** X13.  What a unit toggle that returns makes of the plan: the weeks, the
    buckets and the workouts stay where they are; week number and start
    date are kept; a workout keeps its id, type, measurement type, time,
    nickname and description; a workout without a distance or with the
    distance 0 is handed back as it is, and every other distance is the
    converted one rounded to one decimal. *)
Theorem conversion_keeps_all_but_distance
    (currentUnit newUnit : Unit_) (ws ws' : list (Week Days)) :
  handleUnitToggle currentUnit ws = Ok (newUnit, ws') →
  newUnit = otherUnit currentUnit
  ∧ length ws' = length ws
  ∧ ∀ (i : nat) (w : Week Days), ws !! i = Some w →
      ∃ w', ws' !! i = Some w'
        ∧ week w' = week w ∧ startDate w' = startDate w
        ∧ ∀ day,
            length (getDay (days w') day) = length (getDay (days w) day)
            ∧ ∀ (j : nat) (run : Run),
                getDay (days w) day !! j = Some (Some run) →
                ∃ run', getDay (days w') day !! j = Some (Some run')
                  ∧ (run_id run', type run', measurementType run', time run',
                     nickname run', description run')
                    = (run_id run, type run, measurementType run, time run,
                       nickname run, description run)
                  ∧ match distance run with
                    | Some d =>
                        if truthy_number (Some d)
                        then distance run'
                             = Some (round1 (convertDistance currentUnit newUnit d))
                        else run' = run
                    | None => run' = run
                    end.
Proof.
  intros H.
  assert (Forall (λ w, holeFree (days w)) ws) as Hfree
    by (by eapply handleUnitToggle_Ok).
  rewrite (handleUnitToggle_spec currentUnit ws Hfree) in H.
  injection H as <- <-.
  split; [done|]. split; [by rewrite length_fmap|].
  intros i w Hw. eexists. rewrite list_lookup_fmap, Hw.
  split; [reflexivity|]. split; [done|]. split; [done|].
  intros day. cbn [days convertedWeek]. rewrite getDay_mapDays.
  split; [unfold convertedBucket; by rewrite length_fmap|].
  intros j run Hrun. rewrite convertedBucket_lookup, Hrun.
  eexists. split; [reflexivity|].
  unfold convert1, convertRun.
  destruct (distance run) as [d|] eqn:Ed; [|done].
  by destruct (truthy_number (Some d)).
Qed.

Lemma conversion_keeps_all_but_distance_witness :
  ∃ w' run',
    [convertedWeek Km Miles week4] !! 0%nat = Some w'
    ∧ getDay (days w') Mon !! 0%nat = Some (Some run')
    ∧ type run' = Easy
    ∧ distance run' = Some (round1 (kmToMiles 4)).
Proof.
  destruct (conversion_keeps_all_but_distance Km Miles [week4]
              [convertedWeek Km Miles week4])
    as (_ & _ & Hall).
  - reflexivity.
  - destruct (Hall 0%nat week4 eq_refl) as (w' & Hw' & _ & _ & Hdays).
    destruct (Hdays Mon) as [_ Hruns].
    destruct (Hruns 0%nat easy4 eq_refl) as (run' & Hr' & Hsame & Hd).
    exists w', run'. split; [exact Hw'|]. split; [exact Hr'|].
    split; [by injection Hsame|exact Hd].
Defined.

(** * The schema wrapper *)

Lemma dropHoles_is_Some (runs : Bucket) : Forall is_Some (dropHoles runs).
Proof.
  unfold dropHoles. apply Forall_forall. intros x Hx.
  by apply list_elem_of_filter in Hx as [? _].
Qed.

Lemma dropHoles_id (runs : Bucket) : Forall is_Some runs → dropHoles runs = runs.
Proof.
  unfold dropHoles. induction 1 as [|x l Hx Hl IH]; [done|].
  rewrite filter_cons_True by done. by rewrite IH.
Qed.

Lemma dropHoles_dropHoles (runs : Bucket) :
  dropHoles (dropHoles runs) = dropHoles runs.
Proof. apply dropHoles_id, dropHoles_is_Some. Qed.

Lemma filter_Boolean_dropHoles (runs : Bucket) :
  filter_Boolean (dropHoles runs) = filter_Boolean runs.
Proof.
  unfold dropHoles, filter_Boolean. induction runs as [|[r|] runs IH].
  - done.
  - rewrite filter_cons_True by (by eexists). cbn. by rewrite IH.
  - rewrite filter_cons_False by (by intros [? ?]). cbn. exact IH.
Qed.

Lemma cleanDays_holeFree (d : Days) : holeFree (cleanDays d).
Proof.
  unfold holeFree, cleanDays, Object_values. cbn.
  repeat constructor; apply dropHoles_is_Some.
Qed.

Lemma cleanPlanData_holeFree (p : TrainingPlan) :
  Forall (λ w, holeFree (days w)) (weeks (cleanPlanData p)).
Proof.
  unfold cleanPlanData. cbn [weeks]. apply Forall_forall.
  intros w Hw. apply list_elem_of_fmap in Hw as (w0 & -> & _).
  apply cleanDays_holeFree.
Qed.

(** X14.  [cleanPlanData] takes the holes out of every bucket and nothing else:
    its result has no hole, holds the same workouts in the same order in
    every bucket, keeps every week's number, start date and total, and
    cleaning a second time changes nothing.  A cleaned plan can always be
    converted: the unit toggle returns on it. *)
Theorem cleanPlanData_removes_only_holes (p : TrainingPlan) :
  Forall (λ w, holeFree (days w)) (weeks (cleanPlanData p))
  ∧ cleanPlanData (cleanPlanData p) = cleanPlanData p
  ∧ map (λ w, (week w, startDate w, weeklyTotal w,
               map filter_Boolean (Object_values (days w))))
        (weeks (cleanPlanData p))
    = map (λ w, (week w, startDate w, weeklyTotal w,
                 map filter_Boolean (Object_values (days w))))
          (weeks p)
  ∧ ∀ currentUnit,
      ∃ ws', handleUnitToggle currentUnit (weeks (cleanPlanData p))
             = Ok (otherUnit currentUnit, ws').
Proof.
  pose proof (cleanPlanData_holeFree p) as Hfree.
  split; [exact Hfree|]. split; [|split].
  - destruct p as [ws]. unfold cleanPlanData. cbn [weeks]. f_equal.
    rewrite map_map. apply map_ext. intros w. cbn [week startDate days weeklyTotal].
    f_equal. unfold cleanDays. cbn [dMon dTue dWed dThu dFri dSat dSun].
    by rewrite !dropHoles_dropHoles.
  - destruct p as [ws]. unfold cleanPlanData. cbn [weeks].
    rewrite map_map. apply map_ext. intros w. cbn [week startDate days weeklyTotal].
    f_equal. unfold cleanDays, Object_values.
    cbn [map dMon dTue dWed dThu dFri dSat dSun].
    by rewrite !filter_Boolean_dropHoles.
  - intros cu. eexists. by apply handleUnitToggle_spec.
Qed.

(** X15.  The wrapper through its life: a schema made by [createSchemaFromPlan]
    and revised by any run of edits has the current schema version, the
    creation time and the settings it was made with; its plan has no holes;
    and after at least one edit its modification time and plan are those of
    the last edit (the plan cleaned).  At creation the two time stamps are
    equal. *)
Theorem schema_identity_survives_edits
    (now : string) (settings_ : PlanSettings) (plan_ : TrainingPlan)
    (source_ : option Source) (edits : list (string * TrainingPlan)) :
  let schema := reviseAll (createSchemaFromPlan now settings_ plan_ source_) edits in
  version schema = TRAINING_PLAN_SCHEMA_VERSION
  ∧ createdAt schema = now
  ∧ settings schema = settings_
  ∧ Forall (λ w, holeFree (days w)) (weeks (plan schema))
  ∧ match last edits with
    | Some (t, p) => updatedAt schema = t ∧ plan schema = cleanPlanData p
    | None => updatedAt schema = now ∧ plan schema = cleanPlanData plan_
    end.
Proof.
  cbv zeta. unfold reviseAll.
  induction edits as [|e edits IH] using rev_ind.
  - cbn. repeat split.
    apply cleanPlanData_holeFree.
  - rewrite foldl_snoc, last_snoc. destruct e as [t p].
    destruct IH as (Hv & Hc & Hs & _ & _).
    cbn [updateSchemaAfterEdit version createdAt settings plan updatedAt fst snd].
    repeat split; try done.
    apply cleanPlanData_holeFree.
Qed.

(** * More of the import *)

Lemma runErrors_fault (wk : Z) (k e : string) (runs : list (option RawRun)) :
  e ∈ runErrors wk k runs →
  ∃ j r, runs !! j = Some (Some r) ∧ rr_type r ∉ validRunTypes.
Proof.
  unfold runErrors. intros (l & He & Hl)%list_elem_of_join.
  apply elem_of_lookup_imap in Hl as (j & x & -> & Hx).
  destruct x as [r|]; [|by apply elem_of_nil in He].
  unfold includes in He. case_bool_decide as Hty; [by apply elem_of_nil in He|].
  by exists j, r.
Qed.

Lemma weekErrors_fault (w : RawWeek) (e : string) :
  e ∈ weekErrors w →
  hasInvalidDayKey w ∨ hasNonArrayBucket w ∨ hasInvalidRunType w.
Proof.
  unfold weekErrors. fold (dayKeys w). intros [He|He]%elem_of_app.
  - left. case_decide as Hlen; [|by apply elem_of_nil in He].
    destruct (invalidDayKeys (dayKeys w)) as [|k l] eqn:E; [cbn in Hlen; lia|].
    assert (k ∈ invalidDayKeys (dayKeys w)) as Hk
      by (rewrite E; apply list_elem_of_here).
    unfold invalidDayKeys in Hk. apply list_elem_of_filter in Hk as [Hbad Hk].
    exists k. split; [done|]. intros Hin. apply Hbad.
    unfold includes. by apply bool_decide_pack.
  - right. apply list_elem_of_join in He as (l & He & Hl).
    apply list_elem_of_fmap in Hl as (k & -> & Hk).
    unfold dayErrors in He.
    destruct (lookupKey (default [] (rw_days w)) k) as [[| |runs]|] eqn:El.
    + by apply elem_of_nil in He.
    + left. by exists k.
    + right. apply runErrors_fault in He as (j & r & Hr & Hty).
      by exists k, runs, j, r.
    + by apply elem_of_nil in He.
Qed.

(** X16.  The structural check of the import turns down exactly the
    plans with one of these faults: [weeks] missing (falsy) or not an
    array, a [null] entry among the weeks (reading its [days] raises a
    TypeError), a day key outside Mon..Sun, a truthy bucket that is not an
    array, or a run of invalid type.  Every other plan passes, whatever
    else it holds; a bucket that is [null] is no fault. *)
Theorem validatePlan_rejects_exactly_faults (p : RawPlan) :
  (∃ e, validatePlan p = Throw e) ↔ failsStructure p.
Proof.
  split; [|apply failsStructure_throws].
  intros [e He]. unfold validatePlan in He. unfold failsStructure.
  destruct (rp_weeks p) as [| |ws] eqn:Ep; [by left|by right; left|].
  right; right. exists ws. split; [done|].
  destruct (weeks_null_or_objects ws) as [Hnull|[l ->]]; [by left|right].
  rewrite validationErrors_objects in He. case_decide as Hlen; [|done].
  destruct (allWeekErrors l) as [|x l0] eqn:E; [cbn in Hlen; lia|].
  assert (x ∈ allWeekErrors l) as Hx by (rewrite E; apply list_elem_of_here).
  unfold allWeekErrors in Hx.
  apply list_elem_of_join in Hx as (l' & Hx & Hl').
  apply list_elem_of_fmap in Hl' as (w & -> & Hw).
  exists w. split; [by apply list_elem_of_fmap_2|]. by eapply weekErrors_fault.
Qed.

(** X17.  Importing the same payload a second time changes nothing: the session
    after two imports in a row is the session after the first, with the
    same console output and the same outcome each time. *)
Theorem importPlanSchema_idempotent (s : Session) (incoming : RawSchema) :
  importPlanSchema (after (importPlanSchema s incoming)) incoming
  = importPlanSchema s incoming.
Proof.
  unfold importPlanSchema.
  destruct (match r_plan incoming with
            | Some p => validatePlan p
            | None => Ok tt
            end) as [[]|e] eqn:Ev; cbn [after]; [|done].
  destruct (r_settings incoming) as [st|]; [|done].
  destruct (rs_trainingDays st) as [|ds]; [done|].
  destruct (nextFormValues st ds) as [fv|e]; [|done].
  destruct (r_plan incoming) as [p|]; [|done].
  cbn [after]. by destruct (weeksNonEmpty p).
Qed.

(** X18.  An import that throws never touches the form values, the plan or the
    step.  The schema slot is the one thing it may have written: it holds
    the payload whenever the plan check was passed, that is, whenever the
    failure lies in the settings. *)
Theorem failed_import_keeps_plan_and_form (s : Session) (incoming : RawSchema)
    (e : string) :
  result (importPlanSchema s incoming) = Throw e →
  let s' := after (importPlanSchema s incoming) in
  s_formValues s' = s_formValues s
  ∧ s_plan s' = s_plan s
  ∧ s_step s' = s_step s
  ∧ s_schema s'
    = match r_plan incoming with
      | Some p =>
          match validatePlan p with
          | Ok _ => Some incoming
          | Throw _ => s_schema s
          end
      | None => Some incoming
      end.
Proof.
  cbv zeta. unfold importPlanSchema.
  destruct (r_plan incoming) as [p|] eqn:Ep.
  - destruct (validatePlan p) as [[]|e']; cbn [after result]; [|done].
    destruct (r_settings incoming) as [st|]; [|done].
    destruct (rs_trainingDays st) as [|ds]; [done|].
    destruct (nextFormValues st ds) as [fv|e']; [|done].
    cbn [after result]. by destruct (weeksNonEmpty p).
  - destruct (r_settings incoming) as [st|]; [|done].
    destruct (rs_trainingDays st) as [|ds]; [done|].
    by destruct (nextFormValues st ds) as [fv|e'].
Qed.

Lemma failed_import_keeps_plan_and_form_witness :
  let s' := after (importPlanSchema session0
                     (mkRawSchema (Some "1.0.0") (Some "edited")
                        (Some (mkRawSettings None None None None None
                                 TrainingDaysNotArray))
                        (Some (mkRawPlan (WeeksArray []))))) in
  s_plan s' = Some planGood
  ∧ s_schema s' ≠ Some schemaGood.
Proof.
  destruct (failed_import_keeps_plan_and_form session0
              (mkRawSchema (Some "1.0.0") (Some "edited")
                 (Some (mkRawSettings None None None None None
                          TrainingDaysNotArray))
                 (Some (mkRawPlan (WeeksArray []))))
              "Invalid settings: trainingDays must be an array")
    as (_ & Hp & _ & Hs).
  - reflexivity.
  - cbv zeta. split; [exact Hp|]. rewrite Hs. discriminate.
Defined.

(** ** Settings written at generation, read at import *)

Lemma or_string_same (x fallback : string) :
  x ≠ EmptyString → or_string (Some x) fallback = x.
Proof. intros H. unfold or_string. by rewrite decide_False. Qed.

Lemma or_string_empty (x : string) : or_string (Some x) EmptyString = x.
Proof. unfold or_string. by case_decide. Qed.

Lemma formWorkout_generated (ws : list (string * option string)) :
  Forall (λ w, w.1 ≠ EmptyString) ws →
  map formWorkout (map (λ w, Some (mkRawWorkoutSetting (Some w.1) w.2)) ws) = ws.
Proof.
  induction 1 as [|[rt nick] ws Hw Hws IH]; [done|].
  cbn [map formWorkout rws_runType rws_nickname fst snd] in *.
  by rewrite or_string_same, IH.
Qed.

Lemma formTrainingDays_generated (ds : list FormTrainingDay) :
  Forall (λ d, Forall (λ w, w.1 ≠ EmptyString) (f_workouts d)) ds →
  mapM formTrainingDay
    (map (λ d, Some (mkRawTrainingDay (Some (f_day d))
                       (WorkoutsArray
                          (map (λ w, Some (mkRawWorkoutSetting (Some w.1) w.2))
                               (f_workouts d))))) ds)
  = Ok ds.
Proof.
  induction 1 as [|[day ws] ds Hd Hds IH]; [done|].
  cbn [map mapM formTrainingDay rtd_workouts rtd_day f_day f_workouts] in *.
  cbn [mbind outcome_bind]. rewrite IH. cbn [mbind outcome_bind mret outcome_ret].
  by rewrite or_string_empty, formWorkout_generated.
Qed.

Lemma nextFormValues_generated (values : FormValues) :
  fv_unit values ≠ EmptyString →
  Forall (λ d, Forall (λ w, w.1 ≠ EmptyString) (f_workouts d))
         (fv_trainingDays values) →
  match rs_trainingDays (generatedSettings values) with
  | TrainingDaysArray ds => nextFormValues (generatedSettings values) ds = Ok values
  | TrainingDaysNotArray => False
  end.
Proof.
  intros Hunit Hdays. unfold generatedSettings, nextFormValues.
  cbn [rs_trainingDays rs_todayDate rs_raceDate rs_raceDistance
       rs_customRaceDistance rs_unit].
  rewrite (formTrainingDays_generated _ Hdays).
  cbn [mbind outcome_bind mret outcome_ret].
  rewrite !or_string_empty.
  rewrite (or_string_same (fv_unit values)) by done.
  rewrite (or_string_same (fv_unit values)) by done.
  by destruct values.
Qed.

(** X19.  The settings that [generateAndSetPlan] stores read back as the form
    values they were made from: an import of a schema carrying them and a
    plan that passes the structural check puts exactly those form values
    and that plan into the session.  The form guarantees what the equation
    needs: a unit and run types that are not empty. *)
Theorem generated_settings_import_back
    (s : Session) (values : FormValues) (p : RawPlan)
    (v src : option string) :
  fv_unit values ≠ EmptyString →
  Forall (λ d, Forall (λ w, w.1 ≠ EmptyString) (f_workouts d))
         (fv_trainingDays values) →
  validatePlan p = Ok tt →
  let incoming := mkRawSchema v src (Some (generatedSettings values)) (Some p) in
  importPlanSchema s incoming
  = mkImportResult
      (mkSession (Some values) (Some p) (Some incoming)
                 (if weeksNonEmpty p then edit else s_step s))
      [] (Ok tt).
Proof.
  intros Hunit Hdays Hp. cbv zeta. unfold importPlanSchema.
  cbn [r_plan r_settings]. rewrite Hp.
  pose proof (nextFormValues_generated values Hunit Hdays) as Hfv.
  destruct (rs_trainingDays (generatedSettings values)) as [|ds]; [done|].
  rewrite Hfv. by destruct (weeksNonEmpty p).
Qed.

Lemma generated_settings_import_back_witness :
  importPlanSchema (mkSession None None None configure)
    (mkRawSchema (Some "1.0.0") (Some "generated")
       (Some (generatedSettings formValuesGood)) (Some planGood))
  = mkImportResult
      (mkSession (Some formValuesGood) (Some planGood)
         (Some (mkRawSchema (Some "1.0.0") (Some "generated")
                  (Some (generatedSettings formValuesGood)) (Some planGood)))
         edit)
      [] (Ok tt).
Proof.
  apply (generated_settings_import_back (mkSession None None None configure)
           formValuesGood planGood (Some "1.0.0") (Some "generated")).
  - discriminate.
  - repeat constructor; discriminate.
  - reflexivity.
Defined.

(** ** isRunArray and the import's own run check *)

(** X20.  [isRunArray] asks for more than the run check of the import: a bucket
    passes it exactly when it is an array in which the import finds no
    run of invalid type and which, beyond that, holds no [null] entry; the
    import skips such entries. *)
Theorem isRunArray_iff_no_errors_no_null
    (wk : Z) (k : string) (runs : list (option RawRun)) :
  isRunArray (BucketArray runs) = true
  ↔ runErrors wk k runs = [] ∧ Forall is_Some runs.
Proof.
  unfold isRunArray, runErrors.
  assert (∀ (f : nat → option RawRun → list string) l,
            mjoin (imap f l) = [] ↔ ∀ j x, l !! j = Some x → f j x = []) as Hnil.
  { intros f l. revert f. induction l as [|x l IH]; intros f.
    - split; [by intros _ j y H|done].
    - cbn [imap mjoin list_join]. split.
      + intros [H1 H2]%app_eq_nil j y Hj. destruct j as [|j].
        * cbn in Hj. by injection Hj as <-.
        * cbn in Hj. by apply (proj1 (IH (f ∘ S)) H2 j y).
      + intros H. rewrite (H 0%nat x eq_refl). cbn.
        apply IH. intros j y Hj. by apply (H (S j) y). }
  rewrite Hnil. rewrite forallb_forall. split.
  - intros H. split.
    + intros j [r|] Hj; [|done].
      assert (In (Some r) runs) as Hin
        by (apply list_elem_of_In; by eapply list_elem_of_lookup_2).
      apply H in Hin. by rewrite Hin.
    + apply Forall_forall. intros [r|] Hx; [by eexists|].
      apply list_elem_of_In, H in Hx. done.
  - intros [Herr Hall] [r|] Hin.
    + apply list_elem_of_In, list_elem_of_lookup_1 in Hin as [j Hj].
      specialize (Herr j (Some r) Hj). cbn in Herr.
      by destruct (includes validRunTypes (rr_type r)).
    + apply list_elem_of_In in Hin.
      rewrite Forall_forall in Hall. by destruct (Hall None Hin).
Qed.

(** ** The unit change of the page *)

Lemma nextFormValues_unit (st : RawSettings) (ds : list (option RawTrainingDay))
    (fv : FormValues) (newUnit : string) (tds : RawTrainingDays) :
  nextFormValues st ds = Ok fv →
  nextFormValues
    (mkRawSettings (rs_todayDate st) (rs_raceDate st) (rs_raceDistance st)
                   (rs_customRaceDistance st) (Some newUnit) tds) ds
  = Ok (mkFormValues (fv_todayDate fv) (fv_raceDate fv) (fv_raceDistance fv)
                     (fv_customRaceDistance fv) (or_string (Some newUnit) "km")
                     (fv_trainingDays fv)).
Proof.
  unfold nextFormValues. destruct (mapM formTrainingDay ds) as [l|e]; [|done].
  cbn [mbind outcome_bind mret outcome_ret]. intros [= <-]. done.
Qed.

(** X21.  The unit change of the page, run on a session whose stored schema is
    well formed: the import at its end runs on the schema of the render
    the callback was created in, so the plan slot ends up holding the plan
    stored in that schema, whatever converted plan the table handed over;
    the schema slot holds that schema with the new unit, and the form
    values carry the new unit.  What [updatePlan] wrote in between is
    overwritten. *)
Theorem unit_change_restores_stored_plan
    (reviseStored : RawSchema → RawPlan → RawSchema)
    (snapshot : Session) (fv fv' : FormValues) (sch : RawSchema)
    (st : RawSettings) (ds : list (option RawTrainingDay)) (p : RawPlan)
    (newUnit : string) (convertedPlan : RawPlan) :
  s_formValues snapshot = Some fv →
  s_schema snapshot = Some sch →
  r_plan sch = Some p → validatePlan p = Ok tt →
  r_settings sch = Some st → rs_trainingDays st = TrainingDaysArray ds →
  nextFormValues st ds = Ok fv' →
  let r := onUnitChange reviseStored snapshot newUnit (Some convertedPlan) in
  result r = Ok tt
  ∧ s_plan (after r) = Some p
  ∧ s_schema (after r) = Some (withUnit sch newUnit)
  ∧ s_formValues (after r)
    = Some (mkFormValues (fv_todayDate fv') (fv_raceDate fv')
              (fv_raceDistance fv') (fv_customRaceDistance fv')
              (or_string (Some newUnit) "km") (fv_trainingDays fv')).
Proof.
  intros Hfv Hsch Hp Hvalid Hst Hds Hnext. cbv zeta.
  unfold onUnitChange. rewrite Hfv, Hsch.
  unfold importPlanSchema, withUnit. cbn [r_plan r_settings].
  rewrite Hp, Hvalid, Hst. cbn [rs_trainingDays]. rewrite Hds.
  rewrite (nextFormValues_unit st ds fv' newUnit _ Hnext).
  by destruct (weeksNonEmpty p).
Qed.

Lemma unit_change_restores_stored_plan_witness :
  let r := onUnitChange
             (λ sch p, mkRawSchema (r_version sch) (Some "edited")
                                   (r_settings sch) (Some p))
             session0 "miles" (Some (mkRawPlan (WeeksArray []))) in
  s_plan (after r) = Some planGood
  ∧ (fv_unit <$> s_formValues (after r)) = Some "miles".
Proof.
  destruct (unit_change_restores_stored_plan
              (λ sch p, mkRawSchema (r_version sch) (Some "edited")
                                    (r_settings sch) (Some p))
              session0 formValuesGood formValuesGood schemaGood settingsGood
              [Some (mkRawTrainingDay (Some "Tue")
                       (WorkoutsArray [Some (mkRawWorkoutSetting (Some "Easy") None)]))]
              planGood "miles" (mkRawPlan (WeeksArray [])))
    as (_ & Hp & _ & Hf); try reflexivity.
  cbv zeta. split; [exact Hp|]. rewrite Hf. reflexivity.
Defined.

(** * The training-day handlers of the input form *)

Lemma findDayIndex_Some (day : string) (ds : list FormTrainingDay)
    (i : nat) (d : FormTrainingDay) :
  findDayIndex day ds = Some (i, d) → ds !! i = Some d ∧ f_day d = day.
Proof.
  unfold findDayIndex. intros H. apply list_find_Some in H as (H1 & H2 & _).
  done.
Qed.

Lemma findDayIndex_first (day : string) (ds : list FormTrainingDay)
    (i : nat) (d : FormTrainingDay) :
  findDayIndex day ds = Some (i, d) →
  ∀ j d', (j < i)%nat → ds !! j = Some d' → f_day d' ≠ day.
Proof.
  unfold findDayIndex. intros H. apply list_find_Some in H as (_ & _ & H).
  intros j d' Hlt Hj. by eapply H.
Qed.

Lemma filter_other_days_idemp (day : string) (ds : list FormTrainingDay) :
  filter (λ d, f_day d ≠ day) (filter (λ d, f_day d ≠ day) ds)
  = filter (λ d, f_day d ≠ day) ds.
Proof.
  induction ds as [|d ds IH]; [done|].
  destruct (decide (f_day d ≠ day)) as [Hd|Hd].
  - rewrite (filter_cons_True _ d ds) by done.
    rewrite filter_cons_True by done. by rewrite IH.
  - by rewrite filter_cons_False by done.
Qed.

(** X22.  Ticking a day appends exactly one entry at the end of the list,
    the day with one Easy workout, and leaves the entries before it as
    they were.  Unticking removes every entry of that day: no entry of the
    day is left, and the entries of the other days are the ones of the
    list, in their order.  Tick followed by untick is untick; for a day
    that had no entry, it gives back the list. *)
Theorem handleDayChange_tick_untick (day : string) (ds : list FormTrainingDay) :
  (∀ d, d ∈ handleDayChange false day ds → f_day d ≠ day)
  ∧ filter (λ d, f_day d ≠ day) (handleDayChange true day ds)
    = filter (λ d, f_day d ≠ day) ds
  ∧ handleDayChange false day (handleDayChange true day ds)
    = handleDayChange false day ds
  ∧ (Forall (λ d, f_day d ≠ day) ds →
     handleDayChange false day (handleDayChange true day ds) = ds)
  ∧ handleDayChange true day ds = ds ++ [mkFormTrainingDay day [easyWorkout]]
  ∧ length (handleDayChange true day ds) = S (length ds)
  ∧ (∀ j, (j < length ds)%nat → handleDayChange true day ds !! j = ds !! j)
  ∧ filter (λ d, f_day d ≠ day) (handleDayChange false day ds)
    = filter (λ d, f_day d ≠ day) ds
  ∧ handleDayChange false day ds `sublist_of` ds
  ∧ (∀ d, d ∈ ds → f_day d ≠ day → d ∈ handleDayChange false day ds).
Proof.
  unfold handleDayChange.
  assert (filter (λ d, f_day d ≠ day) (ds ++ [mkFormTrainingDay day [easyWorkout]])
          = filter (λ d, f_day d ≠ day) ds) as Hadd.
  { rewrite filter_app. rewrite filter_cons_False by (cbn; intros H; by apply H).
    rewrite filter_nil. apply app_nil_r. }
  split; [|split; [|split; [|split; [|split; [|split; [|split; [|split; [|split]]]]]]]].
  - intros d Hd. by apply list_elem_of_filter in Hd as [? _].
  - exact Hadd.
  - exact Hadd.
  - intros Hall. rewrite Hadd. clear Hadd.
    induction Hall as [|d l Hd Hl IH]; [done|].
    rewrite filter_cons_True by done. by rewrite IH.
  - reflexivity.
  - rewrite length_app. cbn. lia.
  - intros j Hj. by rewrite lookup_app_l.
  - apply filter_other_days_idemp.
  - apply sublist_filter.
  - intros d Hd Hne. by apply list_elem_of_filter.
Qed.

(** X23.  Adding a workout to a day and removing the workout at the position it
    was added at gives back the list.  Both handlers change one entry only,
    the first entry of the day: it keeps its day and gets the Easy workout
    appended, or loses the workout at the index (none when the index is
    past the end); every other entry of the list is as it was.  Both keep
    the days and their order, and do nothing for a day that has no
    entry. *)
Theorem add_remove_workout_round_trip (day : string) (ds : list FormTrainingDay) :
  handleRemoveWorkout day
    (match findDayIndex day ds with
     | Some (_, d) => length (f_workouts d)
     | None => 0
     end)
    (handleAddWorkout day ds) = ds
  ∧ f_day <$> handleAddWorkout day ds = f_day <$> ds
  ∧ (∀ i, f_day <$> handleRemoveWorkout day i ds = f_day <$> ds)
  ∧ (Forall (λ d, f_day d ≠ day) ds →
     handleAddWorkout day ds = ds ∧ ∀ i, handleRemoveWorkout day i ds = ds)
  ∧ (∀ i d, findDayIndex day ds = Some (i, d) →
       ds !! i = Some d ∧ f_day d = day
       ∧ (∀ j d', (j < i)%nat → ds !! j = Some d' → f_day d' ≠ day)
       ∧ handleAddWorkout day ds !! i
         = Some (mkFormTrainingDay (f_day d) (f_workouts d ++ [easyWorkout]))
       ∧ (∀ j, j ≠ i → handleAddWorkout day ds !! j = ds !! j)
       ∧ length (handleAddWorkout day ds) = length ds
       ∧ ∀ k,
           handleRemoveWorkout day k ds !! i
           = Some (mkFormTrainingDay (f_day d) (delete k (f_workouts d)))
           ∧ (∀ j, j ≠ i → handleRemoveWorkout day k ds !! j = ds !! j)
           ∧ length (handleRemoveWorkout day k ds) = length ds
           ∧ ((length (f_workouts d) <= k)%nat → handleRemoveWorkout day k ds = ds)).
Proof.
  assert (∀ i d ws, ds !! i = Some d →
            f_day <$> <[i := mkFormTrainingDay (f_day d) ws]> ds = f_day <$> ds)
    as Hdays.
  { intros i d ws Hi. rewrite list_fmap_insert. cbn [f_day].
    apply list_insert_id. by rewrite list_lookup_fmap, Hi. }
  split; [|split; [|split; [|split]]].
  - unfold handleAddWorkout, handleRemoveWorkout.
    destruct (findDayIndex day ds) as [[i d]|] eqn:E.
    + pose proof (findDayIndex_Some day ds i d E) as [Hi Hd].
      assert (findDayIndex day
                (<[i := mkFormTrainingDay (f_day d) (f_workouts d ++ [easyWorkout])]> ds)
              = Some (i, mkFormTrainingDay (f_day d) (f_workouts d ++ [easyWorkout])))
        as ->.
      { unfold findDayIndex in *. apply list_find_Some in E as (_ & _ & Hbefore).
        apply list_find_Some. split; [|split].
        - apply list_lookup_insert_eq. by eapply lookup_lt_Some.
        - done.
        - intros j y Hj Hlt. rewrite list_lookup_insert_ne in Hj by lia.
          by eapply Hbefore. }
      cbn [f_day f_workouts]. rewrite list_insert_insert_eq.
      rewrite delete_take_drop, take_app_length.
      rewrite drop_ge by (rewrite length_app; cbn; lia).
      rewrite app_nil_r. apply list_insert_id. rewrite Hi. by destruct d.
    + by rewrite E.
  - unfold handleAddWorkout. destruct (findDayIndex day ds) as [[i d]|] eqn:E; [|done].
    apply Hdays. by apply (findDayIndex_Some day ds i d).
  - intros j. unfold handleRemoveWorkout.
    destruct (findDayIndex day ds) as [[i d]|] eqn:E; [|done].
    apply Hdays. by apply (findDayIndex_Some day ds i d).
  - intros Hall.
    assert (findDayIndex day ds = None) as E.
    { unfold findDayIndex. apply list_find_None.
      eapply Forall_impl; [exact Hall|]. by intros d Hd. }
    unfold handleAddWorkout, handleRemoveWorkout. by rewrite E.
  - intros i d E. pose proof (findDayIndex_Some day ds i d E) as [Hi Hd].
    pose proof (lookup_lt_Some _ _ _ Hi) as Hlt.
    unfold handleAddWorkout, handleRemoveWorkout. rewrite E.
    split; [done|]. split; [done|].
    split; [by apply (findDayIndex_first day ds i d)|].
    split; [by apply list_lookup_insert_eq|].
    split; [intros j Hj; by apply list_lookup_insert_ne|].
    split; [by rewrite length_insert|].
    intros k. split; [by apply list_lookup_insert_eq|].
    split; [intros j Hj; by apply list_lookup_insert_ne|].
    split; [by rewrite length_insert|].
    intros Hk. rewrite delete_take_drop.
    rewrite take_ge by lia. rewrite drop_ge by lia. rewrite app_nil_r.
    apply list_insert_id. rewrite Hi. by destruct d.
Qed.

(** * The file import of the input form *)

(** X24.  Whatever the validator answers: when the file import ends with an
    error shown, the form values, the plan and the step of the session are
    as they were; it reports success exactly when it shows no error, and
    then the payload was accepted by the validator and is the stored
    schema. *)
Theorem file_import_error_keeps_plan
    (validateSchema : RawSchema → bool * option string)
    (s : Session) (parsed : outcome RawSchema) :
  let r := handleImportJSON validateSchema s parsed in
  (is_Some (importError r.2) →
     s_formValues r.1 = s_formValues s ∧ s_plan r.1 = s_plan s
     ∧ s_step r.1 = s_step s)
  ∧ (importSuccess r.2 = true ↔ importError r.2 = None)
  ∧ (importSuccess r.2 = true →
       ∃ p, parsed = Ok p ∧ (validateSchema p).1 = true
            ∧ s_schema r.1 = Some p).
Proof.
  assert (∀ (s' : Session) (e : string),
            s_formValues s' = s_formValues s → s_plan s' = s_plan s →
            s_step s' = s_step s →
            (is_Some (Some e) →
               s_formValues s' = s_formValues s ∧ s_plan s' = s_plan s
               ∧ s_step s' = s_step s)
            ∧ (false = true ↔ Some e = None)
            ∧ (false = true →
                 ∃ p, parsed = Ok p ∧ (validateSchema p).1 = true
                      ∧ s_schema s' = Some p)) as Hfail
    by (intros s' e H1 H2 H3; repeat split; done).
  cbv zeta. unfold handleImportJSON.
  destruct parsed as [p|e]; cbn [fst snd importError importSuccess];
    [|by refine (Hfail _ _ _ _ _)].
  destruct (validateSchema p) as [[] msg] eqn:Ev;
    cbn [fst snd importError importSuccess]; [|by refine (Hfail _ _ _ _ _)].
  unfold importPlanSchema.
  destruct (match r_plan p with
            | Some p => validatePlan p
            | None => Ok tt
            end) as [[]|e];
    cbn [result after fst snd importError importSuccess]; [|by refine (Hfail _ _ _ _ _)].
  destruct (r_settings p) as [st|];
    cbn [result after fst snd importError importSuccess].
  - destruct (rs_trainingDays st) as [|ds];
      cbn [result after fst snd importError importSuccess]; [by refine (Hfail _ _ _ _ _)|].
    destruct (nextFormValues st ds) as [fv|e];
      cbn [result after fst snd importError importSuccess]; [|by refine (Hfail _ _ _ _ _)].
    destruct (r_plan p) as [pl|];
      cbn [result after fst snd importError importSuccess].
    + split; [by intros [? ?]|]. split; [done|]. intros _. exists p.
      split; [done|]. split; [by rewrite Ev|]. by destruct (weeksNonEmpty pl).
    + split; [by intros [? ?]|]. split; [done|]. intros _. exists p.
      by rewrite Ev.
  - split; [by intros [? ?]|]. split; [done|]. intros _. exists p.
    by rewrite Ev.
Qed.

(** ** A worked move *)

Lemma moveWorkout_count_witness :
  ∃ ws' s',
    moveWorkout weeksMon2 0 Mon 0 1 Fri 0 (mkState heapMon2 []) = (Ok ws', s')
    ∧ (countWorkouts (view (heap s') <$> ws') + 1 = 2 + 1)%nat.
Proof.
  destruct (moveWorkout_count (mkState heapMon2 []) weeksMon2 0 1
              (mkWeek 1 "2025-01-06" 0%nat 16%float) (mkWeek 2 "2025-01-13" 1%nat 0%float)
              Mon 0 Fri 0 easy4)
    as (ws' & s' & E & Hc).
  - apply (bool_decide_unpack (NoDup (days <$> weeksMon2))). vm_compute. exact I.
  - reflexivity.
  - reflexivity.
  - reflexivity.
  - exists ws', s'. split; [exact E|exact Hc].
Defined.
